(** * FPL squad optimiser: a shallow embedding of [flask_app/utils/optimizer.py]

    The Python class [FPLOptimizer] builds a 0/1 linear programme with PuLP,
    hands it to the CBC solver and turns the solver's answer into a squad
    dictionary; [optimize_multiple_squads] repeats this over a shrinking
    frame.

    - Prices and predicted points are Python floats; they are modelled as
      exact rationals ([Q]), so the statements are about the exact arithmetic
      the floats approximate.
    - A pandas frame is a list of rows with their index labels; column
      dictionaries ([Series.to_dict()]) are association lists read with the
      semantics of a Python [dict].
    - The CBC solver is a third-party component.  It is a [Variable]
      [solve] of the sections below, constrained where needed by a contract.
      CBC works in floating point: it accepts a valuation that breaks a row
      by less than its primal tolerance and stops within its optimality gap,
      which is the contract [solver_tolerant]; [solver_sound] is the case of
      an exact solver (tolerance and gap 0).  [reference_solve] and
      [tolerant_solve] are executable exhaustive solvers that meet the one
      and the other.
    - The dictionaries the optimiser returns carry names, not index labels;
      [rounds_log] records the labels each round selected.

    Around the optimiser, the file embeds its callers and what feeds them:

    - the endpoints of [flask_app/app.py]: database and model are outside,
      so an endpoint takes the scored frame, or the exception raised while
      loading and scoring it, and gives the JSON body with the HTTP code;
    - [FPLPredictor.predict_by_position] of [flask_app/utils/predictor.py],
      over an arbitrary model;
    - of [flask_app/utils/data_fetcher.py] the computations between the HTTP
      requests and the database writes: the choice of the gameweek, the team
      names and the feature columns. *)

From Stdlib Require Import List ZArith QArith String Bool Lia Permutation Arith.
From Stdlib Require Import DecimalString Setoid Morphisms Lqa Sorted.
Import ListNotations.

Local Open Scope string_scope.
Local Open Scope Z_scope.

(* ================================================================== *)
(** ** Python values *)

(** What a call does: it returns a value or raises.  The only exception the
    optimiser itself can raise is the [ValueError] of [max] on an empty
    sequence. *)
Inductive exn := ValueError.

Inductive outcome (A : Type) :=
| Return (a : A)
| Raise (e : exn).
Arguments Return {A} a.
Arguments Raise {A} e.

(** Python's [sum(...)]: start from 0 and add from the left. *)
Definition sum (l : list Q) : Q := fold_left Qplus l 0%Q.

Definition Qgtb (a b : Q) : bool := negb (Qle_bool a b).

(** [max(seq, key=...)]: the first element whose key is greatest; raises on an
    empty sequence. *)
Fixpoint max_from {A} (key : A -> Q) (best : A) (l : list A) : A :=
  match l with
  | [] => best
  | x :: l' => max_from key (if Qgtb (key x) (key best) then x else best) l'
  end.

Definition max_by {A} (key : A -> Q) (l : list A) : outcome A :=
  match l with
  | [] => Raise ValueError
  | x :: l' => Return (max_from key x l')
  end.

(** [list.sort(key=..., reverse=True)]: a stable sort into descending key
    order (elements with equal keys keep their original order). *)
Fixpoint insert_desc {A} (key : A -> Q) (x : A) (l : list A) : list A :=
  match l with
  | [] => [x]
  | y :: l' => if Qle_bool (key y) (key x) then x :: l
               else y :: insert_desc key x l'
  end.

Definition sort_desc {A} (key : A -> Q) (l : list A) : list A :=
  fold_right (insert_desc key) [] l.

(** A Python [dict] built by [Series.to_dict()]: on a repeated key the last
    entry wins. *)
Definition dict (V : Type) := list (Z * V).

Fixpoint dict_get {V} (d : dict V) (k : Z) : option V :=
  match d with
  | [] => None
  | (k', v) :: d' =>
      match dict_get d' k with
      | Some w => Some w
      | None => if k =? k' then Some v else None
      end
  end.

(** [d[k]]; every key the optimiser subscripts with is an index label of the
    frame the dictionary was built from (see [dict_get_to_dict]), so the
    [KeyError] branch, rendered by [dflt], is never taken. *)
Definition getitem {V} (dflt : V) (d : dict V) (k : Z) : V :=
  match dict_get d k with Some v => v | None => dflt end.

(** [d.get(k, dflt)]. *)
Definition get_default {V} (d : dict V) (k : Z) (dflt : V) : V :=
  match dict_get d k with Some v => v | None => dflt end.

Definition values {V} (d : dict V) : list V := map snd d.

(* ================================================================== *)
(** ** The players frame *)

(** One row of [players_df]; [r_index] is the row's index label.  [r_team] is
    read only when the frame carries a 'team' column. *)
Record Row := {
  r_index : Z;
  r_name : string;
  r_position : string;
  r_team : string;
  r_price : Q;
  r_predicted_points : Q
}.

Record DataFrame := {
  has_team_column : bool;      (* 'team' in players_df.columns *)
  rows : list Row
}.

Definition index (df : DataFrame) : list Z := map r_index (rows df).

Definition to_dict {V} (col : Row -> V) (df : DataFrame) : dict V :=
  map (fun r => (r_index r, col r)) (rows df).

(** [players_df[~players_df.index.isin(excluded)]] *)
Definition isin (excluded : list Z) (i : Z) : bool :=
  existsb (Z.eqb i) excluded.

Definition drop_excluded (df : DataFrame) (excluded : list Z) : DataFrame :=
  {| has_team_column := has_team_column df;
     rows := filter (fun r => negb (isin excluded (r_index r))) (rows df) |}.

(** [df[df['name'] == n].index] *)
Definition index_of_name (df : DataFrame) (n : string) : list Z :=
  map r_index (filter (fun r => String.eqb (r_name r) n) (rows df)).

(* ================================================================== *)
(** ** The linear programme (PuLP) *)

(** An affine expression over the binary variables [player_<i>]: a list of
    (coefficient, variable key) terms. *)
Definition LpAffineExpression := list (Q * Z).

Inductive LpSense := LpConstraintLE | LpConstraintEQ.

Record LpConstraint := {
  c_expr : LpAffineExpression;
  c_sense : LpSense;
  c_rhs : Q
}.

Record LpProblem := {
  objective : LpAffineExpression;      (* maximised *)
  constraints : list LpConstraint
}.

(** [lpSum([coef(i) * player_vars[i] for i in ids])] *)
Definition lpSum (coef : Z -> Q) (ids : list Z) : LpAffineExpression :=
  map (fun i => (coef i, i)) ids.

(** A valuation of the binary variables: [v i = true] when [player_vars[i]]
    has value 1. *)
Definition Assignment := Z -> bool.

Definition term_value (v : Assignment) (t : Q * Z) : Q :=
  if v (snd t) then fst t else 0%Q.

Definition expr_value (v : Assignment) (e : LpAffineExpression) : Q :=
  fold_right (fun t acc => (term_value v t + acc)%Q) 0%Q e.

Definition satisfies (v : Assignment) (c : LpConstraint) : Prop :=
  match c_sense c with
  | LpConstraintLE => (expr_value v (c_expr c) <= c_rhs c)%Q
  | LpConstraintEQ => (expr_value v (c_expr c) == c_rhs c)%Q
  end.

Definition satisfiesb (v : Assignment) (c : LpConstraint) : bool :=
  match c_sense c with
  | LpConstraintLE => Qle_bool (expr_value v (c_expr c)) (c_rhs c)
  | LpConstraintEQ => Qeq_bool (expr_value v (c_expr c)) (c_rhs c)
  end.

Definition lp_feasible (p : LpProblem) (v : Assignment) : Prop :=
  Forall (satisfies v) (constraints p).

Definition lp_feasibleb (p : LpProblem) (v : Assignment) : bool :=
  forallb (satisfiesb v) (constraints p).

(** [LpStatusOptimal] *)
Definition LpStatusOptimal : Z := 1.
Definition LpStatusInfeasible : Z := -1.

(** The contract of an exact solver: status 1 comes with a feasible
    valuation of maximal objective, and a feasible programme is solved.
    [problem.solve(PULP_CBC_CMD(msg=0))] works in floating point and meets it
    only up to its tolerances, see [solver_tolerant] below; the exact contract
    is the case of tolerance 0. *)
Definition solver_sound (solve : LpProblem -> Z * Assignment) : Prop :=
  forall p v, solve p = (LpStatusOptimal, v) ->
    lp_feasible p v /\
    forall v', lp_feasible p v' ->
      (expr_value v' (objective p) <= expr_value v (objective p))%Q.

Definition solver_complete (solve : LpProblem -> Z * Assignment) : Prop :=
  forall p, (exists v', lp_feasible p v') -> fst (solve p) = LpStatusOptimal.

(** What CBC guarantees.  It accepts a valuation that breaks a row by no more
    than its primal tolerance [tol] (1e-7 by default), and it stops when no
    feasible valuation can be better than the one it has by more than [gap]:
    status 1 comes with a valuation that satisfies every row within [tol] and
    whose objective is within [gap] of that of every feasible valuation. *)
Definition satisfies_within (tol : Q) (v : Assignment) (c : LpConstraint) : Prop :=
  match c_sense c with
  | LpConstraintLE => (expr_value v (c_expr c) <= c_rhs c + tol)%Q
  | LpConstraintEQ => (c_rhs c - tol <= expr_value v (c_expr c))%Q
                      /\ (expr_value v (c_expr c) <= c_rhs c + tol)%Q
  end.

Definition satisfies_withinb (tol : Q) (v : Assignment) (c : LpConstraint) : bool :=
  match c_sense c with
  | LpConstraintLE => Qle_bool (expr_value v (c_expr c)) (c_rhs c + tol)
  | LpConstraintEQ => Qle_bool (c_rhs c - tol) (expr_value v (c_expr c))
                      && Qle_bool (expr_value v (c_expr c)) (c_rhs c + tol)
  end.

Definition lp_feasible_within (tol : Q) (p : LpProblem) (v : Assignment) : Prop :=
  Forall (satisfies_within tol v) (constraints p).

Definition lp_feasible_withinb (tol : Q) (p : LpProblem) (v : Assignment) : bool :=
  forallb (satisfies_withinb tol v) (constraints p).

Definition solver_tolerant (tol gap : Q) (solve : LpProblem -> Z * Assignment)
  : Prop :=
  forall p v, solve p = (LpStatusOptimal, v) ->
    lp_feasible_within tol p v /\
    forall v', lp_feasible p v' ->
      (expr_value v' (objective p) <= expr_value v (objective p) + gap)%Q.

(* ================================================================== *)
(** ** The result dictionaries *)

Record PlayerInfo := {
  name : string;
  team : string;
  price : Q;
  predicted_points : Q
}.

Record Squad := {
  total_cost : Q;
  total_predicted : Q;
  goalkeepers : list PlayerInfo;
  defenders : list PlayerInfo;
  midfielders : list PlayerInfo;
  forwards : list PlayerInfo;
  captain : string;
  captain_points : Q;
  total_with_captain : Q
}.

(** The dictionary [optimize_squad] returns: either
    [{'status': 'failed', 'message': ...}] or a squad with
    ['status': 'success']. *)
Inductive SquadResult :=
| Failed (message : string)
| Success (squad : Squad).

Definition status (r : SquadResult) : string :=
  match r with Failed _ => "failed" | Success _ => "success" end.

(** An element of the list [optimize_multiple_squads] returns. *)
Record SquadOption := {
  squad_number : nat;
  squad_name : string;
  description : string;
  option_squad : Squad       (* **squad *)
}.

Definition all_players (s : Squad) : list PlayerInfo :=
  (goalkeepers s ++ defenders s ++ midfielders s ++ forwards s)%list.

(* ================================================================== *)
(** ** [FPLOptimizer] *)

Definition has_position (positions : dict string) (pos : string) (i : Z) : bool :=
  String.eqb (getitem "" positions i) pos.

(** None of the four positions the optimiser knows. *)
Definition other_position (positions : dict string) (i : Z) : bool :=
  negb (has_position positions "GK" i || has_position positions "DEF" i
        || has_position positions "MID" i || has_position positions "FWD" i).

(** [set(teams.values())], in some iteration order. *)
Definition team_set (teams : dict string) : list string :=
  nodup string_dec (values teams).

Definition same_team (teams : dict string) (t : string) (i : Z) : bool :=
  match dict_get teams i with
  | Some t' => String.eqb t' t
  | None => false
  end.

Definition str_of_nat (n : nat) : string :=
  NilEmpty.string_of_uint (Nat.to_uint n).

Section Optimizer.

Variable solve : LpProblem -> Z * Assignment.

Section Squad.

Variable players_df : DataFrame.
Variable budget : Q.

(** Lines 10-15.  [predicted_points_d] is the dictionary [predicted_points]
    of the source; the plain name is the key of the player dictionaries. *)
Definition player_ids : list Z := index players_df.
Definition predicted_points_d : dict Q := to_dict r_predicted_points players_df.
Definition prices : dict Q := to_dict r_price players_df.
Definition positions : dict string := to_dict r_position players_df.
Definition names : dict string := to_dict r_name players_df.
Definition teams : dict string :=
  if has_team_column players_df then to_dict r_team players_df else [].

(** Lines 18-21. *)
Definition gk_ids : list Z := filter (has_position positions "GK") player_ids.
Definition def_ids : list Z := filter (has_position positions "DEF") player_ids.
Definition mid_ids : list Z := filter (has_position positions "MID") player_ids.
Definition fwd_ids : list Z := filter (has_position positions "FWD") player_ids.

(** The coefficient of [player_vars[i]] in the counting constraints. *)
Definition one (_ : Z) : Q := 1%Q.

(** Lines 45-50: one constraint per team, when [teams] is a non-empty dict. *)
Definition team_constraints : list LpConstraint :=
  match teams with
  | [] => []
  | _ :: _ =>
      flat_map (fun t =>
        let team_players := filter (same_team teams t) player_ids in
        match team_players with
        | [] => []
        | _ :: _ => [ {| c_expr := lpSum one team_players;
                         c_sense := LpConstraintLE; c_rhs := 3%Q |} ]
        end) (team_set teams)
  end.

(** Lines 24-50. *)
Definition problem : LpProblem :=
  {| objective := lpSum (getitem 0%Q predicted_points_d) player_ids;
     constraints :=
       {| c_expr := lpSum (getitem 0%Q prices) player_ids;
          c_sense := LpConstraintLE; c_rhs := budget |}
       :: {| c_expr := lpSum one player_ids;
             c_sense := LpConstraintEQ; c_rhs := 15%Q |}
       :: {| c_expr := lpSum one gk_ids;
             c_sense := LpConstraintEQ; c_rhs := 2%Q |}
       :: {| c_expr := lpSum one def_ids;
             c_sense := LpConstraintEQ; c_rhs := 5%Q |}
       :: {| c_expr := lpSum one mid_ids;
             c_sense := LpConstraintEQ; c_rhs := 5%Q |}
       :: {| c_expr := lpSum one fwd_ids;
             c_sense := LpConstraintEQ; c_rhs := 3%Q |}
       :: team_constraints |}.

(** Line 60, for the valuation [v] the solver left in [player_vars]. *)
Definition selected (v : Assignment) : list Z := filter v player_ids.

(** Lines 75-80. *)
Definition player_info (pid : Z) : PlayerInfo :=
  {| name := getitem "" names pid;
     team := get_default teams pid "Unknown";
     price := getitem 0%Q prices pid;
     predicted_points := getitem 0%Q predicted_points_d pid |}.

Definition by_position (pos : string) (selected_ids : list Z) : list PlayerInfo :=
  map player_info (filter (has_position positions pos) selected_ids).

(** Lines 63-105: the squad dictionary for [selected_ids]; it raises when
    [max] gets an empty list. *)
Definition build_squad (selected_ids : list Z) : outcome SquadResult :=
  let goalkeepers := by_position "GK" selected_ids in
  let defenders := sort_desc predicted_points (by_position "DEF" selected_ids) in
  let midfielders := sort_desc predicted_points (by_position "MID" selected_ids) in
  let forwards := sort_desc predicted_points (by_position "FWD" selected_ids) in
  let total_predicted := sum (map (getitem 0%Q predicted_points_d) selected_ids) in
  match max_by predicted_points
          (goalkeepers ++ defenders ++ midfielders ++ forwards)%list with
  | Raise e => Raise e
  | Return captain =>
      Return (Success
        {| total_cost := sum (map (getitem 0%Q prices) selected_ids);
           total_predicted := total_predicted;
           goalkeepers := goalkeepers;
           defenders := defenders;
           midfielders := midfielders;
           forwards := forwards;
           captain := name captain;
           captain_points := predicted_points captain;
           total_with_captain := (total_predicted + predicted_points captain)%Q |})
  end.

(** [selected_ids] of line 60, or [None] when the solve did not end with
    status 1. *)
Definition selected_ids : option (list Z) :=
  let (status, v) := solve problem in
  if negb (status =? 1) then None else Some (selected v).

(** Lines 8-105. *)
Definition optimize_squad : outcome SquadResult :=
  match selected_ids with
  | None => Return (Failed "No optimal solution found")
  | Some ids => build_squad ids
  end.

End Squad.

(** [excluded_players.update(...)] over all selected players (lines 137-139). *)
Definition mark_used (available_df : DataFrame) (all_selected : list PlayerInfo)
    (excluded_players : list Z) : list Z :=
  fold_left (fun excl player =>
               (excl ++ index_of_name available_df (name player))%list)
            all_selected excluded_players.

(** Lines 126-131. *)
Definition squad_option (i : nat) (s : Squad) : SquadOption :=
  {| squad_number := i + 1;
     squad_name := "Squad Option " ++ str_of_nat (i + 1);
     description := "Optimal squad #" ++ str_of_nat (i + 1)
                    ++ " maximizing predicted points";
     option_squad := s |}.

(** Lines 114-142: [for i in range(num_squads)] with [n] iterations left;
    [break] returns the squads collected so far. *)
Fixpoint squads_loop (players_df : DataFrame) (budget : Q) (n i : nat)
    (excluded_players : list Z) (squads : list SquadOption)
  : outcome (list SquadOption) :=
  match n with
  | O => Return squads
  | S n' =>
      let available_df := drop_excluded players_df excluded_players in
      if (List.length (rows available_df) <? 15)%nat then Return squads
      else
        match optimize_squad available_df budget with
        | Raise e => Raise e
        | Return (Success squad) =>
            squads_loop players_df budget n' (S i)
              (mark_used available_df (all_players squad) excluded_players)
              (squads ++ [squad_option i squad])%list
        | Return (Failed _) => Return squads
        end
  end.

Definition optimize_multiple_squads (players_df : DataFrame)
    (num_squads : nat) (budget : Q) : outcome (list SquadOption) :=
  squads_loop players_df budget num_squads 0 [] [].

(** Ghost log of [optimize_multiple_squads]: for every round that appended a
    squad, the frame it solved over and its [selected_ids] (the returned
    dictionaries carry names, not index labels). *)
Fixpoint rounds_log (players_df : DataFrame) (budget : Q) (n : nat)
    (excluded_players : list Z) : list (DataFrame * list Z) :=
  match n with
  | O => []
  | S n' =>
      let available_df := drop_excluded players_df excluded_players in
      if (List.length (rows available_df) <? 15)%nat then []
      else
        match selected_ids available_df budget with
        | None => []
        | Some ids =>
            match build_squad available_df ids with
            | Return (Success squad) =>
                (available_df, ids)
                  :: rounds_log players_df budget n'
                       (mark_used available_df (all_players squad)
                                  excluded_players)
            | _ => []
            end
        end
  end.

End Optimizer.

(* ================================================================== *)
(** ** A reference solver

    Exhaustive search over the 0/1 valuations of the variables that occur in
    the programme.  It shows that the solver contract can be met and lets the
    optimiser run on concrete frames. *)

Fixpoint sublists {A} (l : list A) : list (list A) :=
  match l with
  | [] => [[]]
  | x :: l' => let r := sublists l' in (map (cons x) r ++ r)%list
  end.

Definition expr_vars (e : LpAffineExpression) : list Z := map snd e.

Definition problem_vars (p : LpProblem) : list Z :=
  nodup Z.eq_dec
    (expr_vars (objective p)
       ++ flat_map (fun c => expr_vars (c_expr c)) (constraints p))%list.

Definition feasible_selections (p : LpProblem) : list (list Z) :=
  filter (fun s => lp_feasibleb p (isin s)) (sublists (problem_vars p)).

Definition reference_solve (p : LpProblem) : Z * Assignment :=
  match max_by (fun s => expr_value (isin s) (objective p))
               (feasible_selections p) with
  | Return s => (LpStatusOptimal, isin s)
  | Raise _ => (LpStatusInfeasible, fun _ => false)
  end.

(** The same search with the rows read within a tolerance, as a solver with
    a primal tolerance reads them: it takes the best of the selections that
    break no row by more than [tol]. *)
Definition tolerant_selections (tol : Q) (p : LpProblem) : list (list Z) :=
  filter (fun s => lp_feasible_withinb tol p (isin s)) (sublists (problem_vars p)).

Definition tolerant_solve (tol : Q) (p : LpProblem) : Z * Assignment :=
  match max_by (fun s => expr_value (isin s) (objective p))
               (tolerant_selections tol p) with
  | Return s => (LpStatusOptimal, isin s)
  | Raise _ => (LpStatusInfeasible, fun _ => false)
  end.

(* ================================================================== *)
(** ** Certificates

    Boolean checks that fix what every exact solver answers on a concrete
    frame. *)

Fixpoint list_Z_eqb (a b : list Z) : bool :=
  match a, b with
  | [], [] => true
  | x :: a', y :: b' => (x =? y) && list_Z_eqb a' b'
  | _, _ => false
  end.

(** No selection is feasible (by search). *)
Definition infeasible_by_search (df : DataFrame) (budget : Q) : bool :=
  match feasible_selections (problem df budget) with
  | [] => true
  | _ :: _ => false
  end.

(** For frames too large to search, [slack_optimum]: the budget and the team
    constraints cannot bind, and in every position the chosen labels have
    strictly more predicted points than the others. *)

(** A [<=] constraint that holds under every valuation: its coefficients are
    non-negative and sum to at most the right-hand side. *)
Definition always_satisfiedb (c : LpConstraint) : bool :=
  match c_sense c with
  | LpConstraintLE =>
      forallb (fun t => Qle_bool 0 (fst t)) (c_expr c)
      && Qle_bool (fold_right Qplus 0%Q (map fst (c_expr c))) (c_rhs c)
  | LpConstraintEQ => false
  end.

Definition points (df : DataFrame) (i : Z) : Q :=
  getitem 0%Q (predicted_points_d df) i.

(** [top] are [k] distinct labels of position [pos], each with strictly more
    predicted points than every other label of that position. *)
Definition top_of (df : DataFrame) (pos : string) (k : nat) (top : list Z)
  : bool :=
  let ids := filter (has_position (positions df) pos) (player_ids df) in
  (List.length top =? k)%nat
  && list_Z_eqb (nodup Z.eq_dec top) top
  && forallb (isin ids) top
  && forallb (fun i =>
       forallb (fun j => isin top j || Qgtb (points df i) (points df j)) ids)
       top.

Definition slack_optimum (df : DataFrame) (budget : Q)
    (gk def mid fwd : list Z) : bool :=
  list_Z_eqb (nodup Z.eq_dec (player_ids df)) (player_ids df)
  && lp_feasibleb (problem df budget) (isin (gk ++ def ++ mid ++ fwd)%list)
  && always_satisfiedb
       {| c_expr := lpSum (getitem 0%Q (prices df)) (player_ids df);
          c_sense := LpConstraintLE; c_rhs := budget |}
  && forallb always_satisfiedb (team_constraints df)
  && top_of df "GK" 2 gk && top_of df "DEF" 5 def
  && top_of df "MID" 5 mid && top_of df "FWD" 3 fwd.

(** Valuation [v] with label [i] switched on and label [j] switched off. *)
Definition swap (v : Assignment) (i j : Z) : Assignment :=
  fun x => if x =? i then true else if x =? j then false else v x.

(* ================================================================== *)
(** ** Feasible squads, as the specification words them *)

Definition count_position (df : DataFrame) (pos : string) (sq : list Z) : nat :=
  List.length (filter (has_position (positions df) pos) sq).

Definition squad_price (df : DataFrame) (sq : list Z) : Q :=
  sum (map (getitem 0%Q (prices df)) sq).

Definition squad_score (df : DataFrame) (sq : list Z) : Q :=
  sum (map (getitem 0%Q (predicted_points_d df)) sq).

(** The group a candidate is reported under. *)
Definition group_of (df : DataFrame) (i : Z) : string :=
  get_default (teams df) i "Unknown".

Definition count_group (df : DataFrame) (g : string) (sq : list Z) : nat :=
  List.length (filter (fun i => String.eqb (group_of df i) g) sq).

(** Quotas GK:2 / DEF:5 / MID:5 / FWD:3, 15 members, price within budget, at
    most 3 members per group. *)
Record meets_constraints (df : DataFrame) (budget : Q) (sq : list Z) : Prop := {
  mc_size : List.length sq = 15%nat;
  mc_gk : count_position df "GK" sq = 2%nat;
  mc_def : count_position df "DEF" sq = 5%nat;
  mc_mid : count_position df "MID" sq = 5%nat;
  mc_fwd : count_position df "FWD" sq = 3%nat;
  mc_budget : (squad_price df sq <= budget)%Q;
  mc_group : forall g, (count_group df g sq <= 3)%nat
}.

(** A feasible squad from the pool: distinct candidates of the pool that meet
    the constraints. *)
Record feasible_squad (df : DataFrame) (budget : Q) (sq : list Z) : Prop := {
  fs_pool : incl sq (player_ids df);
  fs_distinct : NoDup sq;
  fs_meets : meets_constraints df budget sq
}.

Definition meets_constraintsb (df : DataFrame) (budget : Q) (sq : list Z) : bool :=
  (List.length sq =? 15)%nat
  && (count_position df "GK" sq =? 2)%nat
  && (count_position df "DEF" sq =? 5)%nat
  && (count_position df "MID" sq =? 5)%nat
  && (count_position df "FWD" sq =? 3)%nat
  && Qle_bool (squad_price df sq) budget
  && forallb (fun i => (count_group df (group_of df i) sq <=? 3)%nat) sq.

(** The same on the rows of the pool, without the optimiser's dictionaries:
    a squad is a list of rows, its score and price are the sums of the
    columns 'predicted_points' and 'price' over them. *)
Definition rows_count (pos : string) (sq : list Row) : nat :=
  List.length (filter (fun r => String.eqb (r_position r) pos) sq).

Definition rows_price (sq : list Row) : Q := sum (map r_price sq).


Definition rows_team (t : string) (sq : list Row) : nat :=
  List.length (filter (fun r => String.eqb (r_team r) t) sq).

Record feasible_rows (df : DataFrame) (budget : Q) (sq : list Row) : Prop := {
  fr_pool : incl sq (rows df);
  fr_distinct : NoDup (map r_index sq);
  fr_size : List.length sq = 15%nat;
  fr_gk : rows_count "GK" sq = 2%nat;
  fr_def : rows_count "DEF" sq = 5%nat;
  fr_mid : rows_count "MID" sq = 5%nat;
  fr_fwd : rows_count "FWD" sq = 3%nat;
  fr_budget : (rows_price sq <= budget)%Q;
  fr_team : forall t, (rows_team t sq <= 3)%nat
}.



(** The rows of the frame whose variable the valuation sets to 1. *)
Definition picked (df : DataFrame) (v : Assignment) : list Row :=
  filter (fun r => v (r_index r)) (rows df).

(** [excluded_players] after the rounds that appended [squads], in order:
    each round marks the players of its squad in the frame it solved over. *)
Definition excluded_after (players_df : DataFrame) (squads : list Squad)
  : list Z :=
  fold_left (fun excl squad =>
               mark_used (drop_excluded players_df excl) (all_players squad) excl)
            squads [].

(** [available_df] of the round that follows the rounds of [squads]. *)
Definition frame_after (players_df : DataFrame) (squads : list Squad)
  : DataFrame :=
  drop_excluded players_df (excluded_after players_df squads).

(** Members of a returned squad reported under group [g]. *)
Definition count_team (g : string) (l : list PlayerInfo) : nat :=
  List.length (filter (fun p => String.eqb (team p) g) l).

(* ================================================================== *)
(** ** Frames used in the examples *)

Definition mk (i : Z) (n pos t : string) (pr pts : Q) : Row :=
  {| r_index := i; r_name := n; r_position := pos; r_team := t;
     r_price := pr; r_predicted_points := pts |}.

(** Fifteen candidates that fill the quotas exactly. *)
Definition pool15 : DataFrame :=
  {| has_team_column := true;
     rows := [ mk 0 "g0" "GK" "A" 4 3; mk 1 "g1" "GK" "B" 5 4;
               mk 2 "d0" "DEF" "A" 4 2; mk 3 "d1" "DEF" "B" 5 6;
               mk 4 "d2" "DEF" "C" 5 6; mk 5 "d3" "DEF" "D" 6 1;
               mk 6 "d4" "DEF" "E" 4 5;
               mk 7 "m0" "MID" "A" 5 7; mk 8 "m1" "MID" "B" 9 9;
               mk 9 "m2" "MID" "C" 6 3; mk 10 "m3" "MID" "D" 7 4;
               mk 11 "m4" "MID" "E" 8 8;
               mk 12 "f0" "FWD" "C" 10 9; mk 13 "f1" "FWD" "D" 5 2;
               mk 14 "f2" "FWD" "E" 7 5 ] |}.

(** The same candidates in a frame without a 'team' column. *)
Definition pool15_no_team : DataFrame :=
  {| has_team_column := false; rows := rows pool15 |}.

(** One more forward than the quota needs. *)
Definition pool16 : DataFrame :=
  {| has_team_column := true;
     rows := (rows pool15 ++ [ mk 15 "f3" "FWD" "F" 6 4 ])%list |}.

(** Defenders listed first; the defender with label 0 and the goalkeeper with
    label 5 tie for the greatest predicted points. *)
Definition pool_tie : DataFrame :=
  {| has_team_column := true;
     rows := [ mk 0 "d0" "DEF" "A" 4 9; mk 1 "d1" "DEF" "B" 5 6;
               mk 2 "d2" "DEF" "C" 5 6; mk 3 "d3" "DEF" "D" 6 1;
               mk 4 "d4" "DEF" "E" 4 5;
               mk 5 "g0" "GK" "A" 4 9; mk 6 "g1" "GK" "B" 5 4;
               mk 7 "m0" "MID" "A" 5 7; mk 8 "m1" "MID" "B" 9 8;
               mk 9 "m2" "MID" "C" 6 3; mk 10 "m3" "MID" "D" 7 4;
               mk 11 "m4" "MID" "E" 8 8;
               mk 12 "f0" "FWD" "C" 10 8; mk 13 "f1" "FWD" "D" 5 2;
               mk 14 "f2" "FWD" "E" 7 5 ] |}.

(** [pool15] without the goalkeeper of label 1: one goalkeeper short. *)
Definition pool14 : DataFrame :=
  {| has_team_column := true;
     rows := filter (fun r => negb (r_index r =? 1)) (rows pool15) |}.

(** The candidates of [pool15], all from one team. *)
Definition pool15_one_team : DataFrame :=
  {| has_team_column := true;
     rows := map (fun r => mk (r_index r) (r_name r) (r_position r) "A"
                             (r_price r) (r_predicted_points r))
                 (rows pool15) |}.


(** Two squads' worth of candidates, three per team: labels 0..14 outscore
    the labels 15..29 of their position. *)
Definition pool30 : DataFrame :=
  {| has_team_column := true;
     rows := [ mk 0 "a_g0" "GK" "T0" 4 12; mk 1 "a_g1" "GK" "T1" 4 11;
               mk 2 "a_d0" "DEF" "T0" 4 15; mk 3 "a_d1" "DEF" "T1" 4 14;
               mk 4 "a_d2" "DEF" "T2" 4 13; mk 5 "a_d3" "DEF" "T3" 4 12;
               mk 6 "a_d4" "DEF" "T4" 4 11;
               mk 7 "a_m0" "MID" "T0" 4 19; mk 8 "a_m1" "MID" "T1" 4 18;
               mk 9 "a_m2" "MID" "T2" 4 17; mk 10 "a_m3" "MID" "T3" 4 16;
               mk 11 "a_m4" "MID" "T4" 4 15;
               mk 12 "a_f0" "FWD" "T2" 4 18; mk 13 "a_f1" "FWD" "T3" 4 17;
               mk 14 "a_f2" "FWD" "T4" 4 16;
               mk 15 "b_g0" "GK" "T5" 2 5; mk 16 "b_g1" "GK" "T6" 2 4;
               mk 17 "b_d0" "DEF" "T5" 2 9; mk 18 "b_d1" "DEF" "T6" 2 8;
               mk 19 "b_d2" "DEF" "T7" 2 7; mk 20 "b_d3" "DEF" "T8" 2 6;
               mk 21 "b_d4" "DEF" "T9" 2 5;
               mk 22 "b_m0" "MID" "T5" 2 9; mk 23 "b_m1" "MID" "T6" 2 8;
               mk 24 "b_m2" "MID" "T7" 2 7; mk 25 "b_m3" "MID" "T8" 2 6;
               mk 26 "b_m4" "MID" "T9" 2 5;
               mk 27 "b_f0" "FWD" "T7" 2 8; mk 28 "b_f1" "FWD" "T8" 2 7;
               mk 29 "b_f2" "FWD" "T9" 2 6 ] |}.

(** [pool30], but the forward of label 29 carries the display name "a_f2" of
    the forward of label 14. *)
Definition pool30_namesake : DataFrame :=
  {| has_team_column := true;
     rows := map (fun r => if r_index r =? 29
                           then mk 29 "a_f2" "FWD" "T9" 2 6 else r)
                 (rows pool30) |}.

(** The results the optimiser computes on these frames. *)

Definition info (n t : string) (pr pts : Q) : PlayerInfo :=
  {| name := n; team := t; price := pr; predicted_points := pts |}.

Definition squad16 : Squad :=
  {| total_cost := 91; total_predicted := 76;
     goalkeepers := [ info "g0" "A" 4 3; info "g1" "B" 5 4 ];
     defenders := [ info "d1" "B" 5 6; info "d2" "C" 5 6; info "d4" "E" 4 5;
                    info "d0" "A" 4 2; info "d3" "D" 6 1 ];
     midfielders := [ info "m1" "B" 9 9; info "m4" "E" 8 8; info "m0" "A" 5 7;
                      info "m3" "D" 7 4; info "m2" "C" 6 3 ];
     forwards := [ info "f0" "C" 10 9; info "f2" "E" 7 5; info "f3" "F" 6 4 ];
     captain := "m1"; captain_points := 9; total_with_captain := 85 |}.

(** The only squad of [pool15]; a budget that misses its price of 90 by 1e-8
    and one that misses the price 91 of [squad16] by 1e-10, both by less than
    the primal tolerance of CBC, 1e-7. *)
Definition squad15 : Squad :=
  {| total_cost := 90; total_predicted := 74;
     goalkeepers := [ info "g0" "A" 4 3; info "g1" "B" 5 4 ];
     defenders := [ info "d1" "B" 5 6; info "d2" "C" 5 6; info "d4" "E" 4 5;
                    info "d0" "A" 4 2; info "d3" "D" 6 1 ];
     midfielders := [ info "m1" "B" 9 9; info "m4" "E" 8 8; info "m0" "A" 5 7;
                      info "m3" "D" 7 4; info "m2" "C" 6 3 ];
     forwards := [ info "f0" "C" 10 9; info "f2" "E" 7 5; info "f1" "D" 5 2 ];
     captain := "m1"; captain_points := 9; total_with_captain := 83 |}.

Definition primal_tolerance : Q := 1 # 10000000.
Definition budget_below_90 : Q := 8999999999 # 100000000.

Definition squad15_no_team : Squad :=
  {| total_cost := 90; total_predicted := 74;
     goalkeepers := [ info "g0" "Unknown" 4 3; info "g1" "Unknown" 5 4 ];
     defenders := [ info "d1" "Unknown" 5 6; info "d2" "Unknown" 5 6;
                    info "d4" "Unknown" 4 5; info "d0" "Unknown" 4 2;
                    info "d3" "Unknown" 6 1 ];
     midfielders := [ info "m1" "Unknown" 9 9; info "m4" "Unknown" 8 8;
                      info "m0" "Unknown" 5 7; info "m3" "Unknown" 7 4;
                      info "m2" "Unknown" 6 3 ];
     forwards := [ info "f0" "Unknown" 10 9; info "f2" "Unknown" 7 5;
                   info "f1" "Unknown" 5 2 ];
     captain := "m1"; captain_points := 9; total_with_captain := 83 |}.

Definition squad_tie : Squad :=
  {| total_cost := 90; total_predicted := 85;
     goalkeepers := [ info "g0" "A" 4 9; info "g1" "B" 5 4 ];
     defenders := [ info "d0" "A" 4 9; info "d1" "B" 5 6; info "d2" "C" 5 6;
                    info "d4" "E" 4 5; info "d3" "D" 6 1 ];
     midfielders := [ info "m1" "B" 9 8; info "m4" "E" 8 8; info "m0" "A" 5 7;
                      info "m3" "D" 7 4; info "m2" "C" 6 3 ];
     forwards := [ info "f0" "C" 10 8; info "f2" "E" 7 5; info "f1" "D" 5 2 ];
     captain := "g0"; captain_points := 9; total_with_captain := 94 |}.

Definition squad30_a : Squad :=
  {| total_cost := 60; total_predicted := 224;
     goalkeepers := [ info "a_g0" "T0" 4 12; info "a_g1" "T1" 4 11 ];
     defenders := [ info "a_d0" "T0" 4 15; info "a_d1" "T1" 4 14;
                    info "a_d2" "T2" 4 13; info "a_d3" "T3" 4 12;
                    info "a_d4" "T4" 4 11 ];
     midfielders := [ info "a_m0" "T0" 4 19; info "a_m1" "T1" 4 18;
                      info "a_m2" "T2" 4 17; info "a_m3" "T3" 4 16;
                      info "a_m4" "T4" 4 15 ];
     forwards := [ info "a_f0" "T2" 4 18; info "a_f1" "T3" 4 17;
                   info "a_f2" "T4" 4 16 ];
     captain := "a_m0"; captain_points := 19; total_with_captain := 243 |}.

Definition squad30_b : Squad :=
  {| total_cost := 30; total_predicted := 100;
     goalkeepers := [ info "b_g0" "T5" 2 5; info "b_g1" "T6" 2 4 ];
     defenders := [ info "b_d0" "T5" 2 9; info "b_d1" "T6" 2 8;
                    info "b_d2" "T7" 2 7; info "b_d3" "T8" 2 6;
                    info "b_d4" "T9" 2 5 ];
     midfielders := [ info "b_m0" "T5" 2 9; info "b_m1" "T6" 2 8;
                      info "b_m2" "T7" 2 7; info "b_m3" "T8" 2 6;
                      info "b_m4" "T9" 2 5 ];
     forwards := [ info "b_f0" "T7" 2 8; info "b_f1" "T8" 2 7;
                   info "b_f2" "T9" 2 6 ];
     captain := "b_d0"; captain_points := 9; total_with_captain := 109 |}.

(** [squad30_b] with the forward of label 29 under its name in
    [pool30_namesake]. *)
Definition squad30_b_namesake : Squad :=
  {| total_cost := 30; total_predicted := 100;
     goalkeepers := goalkeepers squad30_b;
     defenders := defenders squad30_b;
     midfielders := midfielders squad30_b;
     forwards := [ info "b_f0" "T7" 2 8; info "b_f1" "T8" 2 7;
                   info "a_f2" "T9" 2 6 ];
     captain := "b_d0"; captain_points := 9; total_with_captain := 109 |}.

(** The frame of round 2 on [pool30]. *)
Definition pool30_round2 : DataFrame :=
  drop_excluded pool30 (mark_used pool30 (all_players squad30_a) []).

(* ================================================================== *)
(** ** Rows behind the dictionaries *)

(** The row a label denotes in every column dictionary of a frame: the last
    row that carries the label. *)
Definition row_of (df : DataFrame) (k : Z) : option Row :=
  dict_get (to_dict (fun r => r) df) k.

(** The player dictionary of a row. *)
Definition info_of_row (df : DataFrame) (r : Row) : PlayerInfo :=
  {| name := r_name r;
     team := if has_team_column df then r_team r else "Unknown";
     price := r_price r;
     predicted_points := r_predicted_points r |}.

(** The valuation of a whole frame that agrees with [v] outside [excl] and
    selects nothing in [excl]. *)
Definition restrict (excl : list Z) (v : Assignment) : Assignment :=
  fun i => negb (isin excl i) && v i.

(** Descending order of predicted points. *)
Definition points_desc (a b : PlayerInfo) : Prop :=
  (predicted_points b <= predicted_points a)%Q.

(* ================================================================== *)
(** ** [app.py]: the endpoints *)

(** [DataFrame.nsmallest] needs the ascending counterpart of [sort_desc]:
    a stable sort into ascending key order. *)
Fixpoint insert_asc {A} (key : A -> Q) (x : A) (l : list A) : list A :=
  match l with
  | [] => [x]
  | y :: l' => if Qle_bool (key x) (key y) then x :: l
               else y :: insert_asc key x l'
  end.

Definition sort_asc {A} (key : A -> Q) (l : list A) : list A :=
  fold_right (insert_asc key) [] l.

(** [df.nlargest(n, col)] and [df.nsmallest(n, col)] with the default
    [keep='first']: the first [n] rows in descending (ascending) order of the
    column, rows of equal value in their original order. *)
Definition nlargest {A} (n : nat) (key : A -> Q) (l : list A) : list A :=
  firstn n (sort_desc key l).

Definition nsmallest {A} (n : nat) (key : A -> Q) (l : list A) : list A :=
  firstn n (sort_asc key l).

(** What a [try] block catches: the value, or the exception with its
    [str(e)]. *)
Inductive pyresult (A : Type) :=
| Ok (a : A)
| Exception (message : string).
Arguments Ok {A} a.
Arguments Exception {A} message.

(** A record of
    [df[['name', 'position', 'team', 'price', 'predicted_points']].to_dict('records')]. *)
Record Prediction := {
  pr_name : string;
  pr_position : string;
  pr_team : string;
  pr_price : Q;
  pr_predicted_points : Q
}.

Definition prediction_of_row (r : Row) : Prediction :=
  {| pr_name := r_name r; pr_position := r_position r; pr_team := r_team r;
     pr_price := r_price r; pr_predicted_points := r_predicted_points r |}.

(** The JSON bodies of the endpoints. *)
Inductive Body :=
| TopBody (count : nat) (description : string) (predictions : list Prediction)
| BottomBody (count : nat) (description : string) (predictions : list Prediction)
| SquadBody (squad : SquadResult)
| MultipleBody (count : nat) (message : string) (squads : list SquadOption)
| ErrorBody (message : string).

(** A Flask response: the body and the HTTP status code.  [jsonify] is given
    dictionaries of strings and numbers only and does not raise on them. *)
Definition Response : Type := Body * Z.

Section App.

Variable solve : LpProblem -> Z * Assignment.

(** The first two lines of every [try] block: [load_latest_data()] and the
    assignment of [predictor.predict_points(df)] to the column
    'predicted_points'.  Database and model are outside; what they give is
    the scored frame, or the exception they raise. *)
Variable scored_frame : pyresult DataFrame.

(** [str(e)] for the exception the optimiser can raise, and for the
    [KeyError] of selecting a column the frame does not have. *)
Variable str_exn : exn -> string.
Variable missing_column : string.

Definition error_response (message : string) : Response :=
  (ErrorBody message, 500).

(** Lines 72-94. *)
Definition api_predictions_top : Response :=
  match scored_frame with
  | Exception message => error_response message
  | Ok df =>
      if has_team_column df then
        let top_10 := map prediction_of_row
                          (nlargest 10 r_predicted_points (rows df)) in
        (TopBody (List.length top_10) "Players with highest predicted points"
                 top_10, 200)
      else error_response missing_column
  end.

(** Lines 99-127. *)
Definition api_predictions_bottom : Response :=
  match scored_frame with
  | Exception message => error_response message
  | Ok df =>
      if has_team_column df then
        let bottom_10 := map prediction_of_row
                             (nsmallest 10 r_predicted_points (rows df)) in
        (BottomBody (List.length bottom_10)
           "Players with lowest predicted points - consider avoiding"
           bottom_10, 200)
      else error_response missing_column
  end.

(** Lines 167-181. *)
Definition api_optimize : Response :=
  match scored_frame with
  | Exception message => error_response message
  | Ok df =>
      match optimize_squad solve df 100 with
      | Raise e => error_response (str_exn e)
      | Return squad => (SquadBody squad, 200)
      end
  end.

(** Lines 185-204. *)
Definition api_optimize_multiple : Response :=
  match scored_frame with
  | Exception message => error_response message
  | Ok df =>
      match optimize_multiple_squads solve df 3 100 with
      | Raise e => error_response (str_exn e)
      | Return squads =>
          (MultipleBody (List.length squads)
             ("Generated " ++ str_of_nat (List.length squads)
                ++ " optimal squad options")
             squads, 200)
      end
  end.

End App.

(* ================================================================== *)
(** ** [utils/predictor.py] *)

(** A row of the frame [predict_by_position] gets: the columns it reads and
    the model's feature columns, kept abstract. *)
Record PlayerData (F : Type) := {
  d_name : string;
  d_team : string;
  d_position : string;
  d_price : Q;
  d_features : F
}.
Arguments d_name {F} _.
Arguments d_team {F} _.
Arguments d_position {F} _.
Arguments d_price {F} _.
Arguments d_features {F} _.

Section Predictor.

Variable F : Type.

(** [self.model.predict(X)] on the feature columns of some rows: an array,
    or the exception the library raises. *)
Variable model_predict : list F -> pyresult (list Q).

(** The message of the [ValueError] pandas raises when a column is assigned
    an array of another length than the frame. *)
Variable length_mismatch : string.

(** Lines 26-30. *)
Definition predict_points (player_data : list (PlayerData F))
  : pyresult (list Q) :=
  model_predict (map d_features player_data).

(** Lines 33-41; the records have the keys of [PlayerInfo]. *)
Definition predict_by_position (df : list (PlayerData F)) (position : string)
  : pyresult (list PlayerInfo) :=
  let pos_df := filter (fun r => String.eqb (d_position r) position) df in
  match predict_points pos_df with
  | Exception message => Exception message
  | Ok predicted =>
      if (List.length predicted =? List.length pos_df)%nat then
        Ok (map (fun rp => {| name := d_name (fst rp);
                              team := d_team (fst rp);
                              price := d_price (fst rp);
                              predicted_points := snd rp |})
                (nlargest 10 snd (combine pos_df predicted)))
      else Exception length_mismatch
  end.

End Predictor.

(* ================================================================== *)
(** ** [utils/data_fetcher.py] *)

(** An element of [data['events']]. *)
Record Event := {
  event_id : Z;
  is_current : bool;
  is_next : bool
}.

(** One of the two loops of lines 65-76: the id of the first event with the
    flag, [None] when the loop ends without [break]. *)
Fixpoint first_event (flag : Event -> bool) (events : list Event) : option Z :=
  match events with
  | [] => None
  | event :: rest =>
      if flag event then Some (event_id event) else first_event flag rest
  end.

(** Lines 65-76: [current_gw]. *)
Definition current_gw (events : list Event) : option Z :=
  match first_event is_current events with
  | Some gw => Some gw
  | None => first_event is_next events
  end.

(** A row of [data['teams']] and of [data['elements']]; a missing value (NaN
    or NULL) is [None]. *)
Record Team := {
  team_id : Z;
  team_name : string
}.

Record Element := {
  e_id : Z;
  e_first_name : string;
  e_second_name : string;
  e_team : Z;
  e_element_type : Z;
  e_form : Q;                          (* players['form'].astype(float) *)
  e_minutes : option Q;
  e_now_cost : Q;
  e_clean_sheets : option Q
}.

(** Line 33: [dict(zip(teams['id'], teams['name']))]. *)
Definition team_mapping (teams : list Team) : dict string :=
  map (fun t => (team_id t, team_name t)) teams.

(** Line 34: an entry of [players['team'].map(team_mapping)]. *)
Definition team_name_of (teams : list Team) (player : Element) : option string :=
  dict_get (team_mapping teams) (e_team player).

(** [Series.fillna(d)], entry by entry. *)
Definition fillna {A} (d : A) (x : option A) : A :=
  match x with Some a => a | None => d end.

(** [np.maximum(a, b)]. *)
Definition maximum (a b : Q) : Q := if Qle_bool a b then b else a.

(** Line 120-121: [position_map] and [Series.map] with it. *)
Definition position_map (element_type : Z) : option string :=
  if element_type =? 1 then Some "GK"
  else if element_type =? 2 then Some "DEF"
  else if element_type =? 3 then Some "MID"
  else if element_type =? 4 then Some "FWD"
  else None.

(** A cell of a text column after [fillna(0)]. *)
Inductive cell :=
| Text (s : string)
| Number (q : Q).

Definition fill_text (x : option string) : cell :=
  match x with Some s => Text s | None => Number 0 end.

(** [(features_df['position'] == pos).astype(int)] *)
Definition is_position (position : option string) (pos : string) : Z :=
  match position with
  | Some s => if String.eqb s pos then 1 else 0
  | None => 0
  end.

(** [features_df['position'].isin(['GK', 'DEF'])] *)
Definition keeps_clean_sheets (position : option string) : bool :=
  match position with
  | Some s => String.eqb s "GK" || String.eqb s "DEF"
  | None => false
  end.

(** A row of the table 'features'. *)
Record Features := {
  f_player_id : Z;
  f_name : string;
  f_team : cell;
  f_gameweek : Z;
  f_position : cell;
  f_rolling_avg_points : Q;
  f_opponent_difficulty : Q;
  f_minutes : Q;
  f_is_home : Q;
  f_price : Q;
  f_pos_GK : Z;
  f_pos_DEF : Z;
  f_pos_MID : Z;
  f_pos_FWD : Z;
  f_clean_sheets_rolling_avg : Q
}.

(** Lines 113-162 for one row of 'players_raw', with the team name stored for
    it and the gameweek read from the database. *)
Definition feature_row (gw : option Z) (team : option string)
    (player : Element) : Features :=
  let position := position_map (e_element_type player) in
  {| f_player_id := e_id player;
     f_name := e_first_name player ++ " " ++ e_second_name player;
     f_team := fill_text team;
     f_gameweek := fillna 0 gw;
     f_position := fill_text position;
     f_rolling_avg_points := e_form player;
     f_opponent_difficulty := 3%Q;
     f_minutes := fillna 0%Q (e_minutes player);
     f_is_home := (1 # 2)%Q;
     f_price := (e_now_cost player / 10)%Q;
     f_pos_GK := is_position position "GK";
     f_pos_DEF := is_position position "DEF";
     f_pos_MID := is_position position "MID";
     f_pos_FWD := is_position position "FWD";
     f_clean_sheets_rolling_avg :=
       if keeps_clean_sheets position then
         (fillna 0%Q (e_clean_sheets player)
          / maximum (fillna 1%Q (e_minutes player) / 90) 1)%Q
       else 0%Q |}.

(** Lines 29-43: the rows of 'players_raw', each element with its
    'team_name'. *)
Definition fetch_all_players (teams : list Team) (elements : list Element)
  : list (Element * option string) :=
  map (fun player => (player, team_name_of teams player)) elements.

(** Lines 113-165: the table 'features' written from 'players_raw' and the
    stored gameweek. *)
Definition update_features (gw : option Z)
    (players_raw : list (Element * option string)) : list Features :=
  map (fun player => feature_row gw (snd player) (fst player)) players_raw.

(** [app.py], lines 20-25:
    [SELECT * FROM features WHERE gameweek = (SELECT MAX(gameweek) FROM features)]. *)
Definition max_gameweek (features : list Features) : option Z :=
  match features with
  | [] => None
  | f :: rest => Some (fold_left Z.max (map f_gameweek rest) (f_gameweek f))
  end.

Definition load_latest_data (features : list Features) : list Features :=
  match max_gameweek features with
  | None => []
  | Some latest => filter (fun f => f_gameweek f =? latest) features
  end.

(** ** Small inputs for the predictor and the fetcher *)

(** Five rows with one feature column, and a model that predicts twice the
    feature. *)
Definition player_data5 : list (PlayerData Q) :=
  [ {| d_name := "Raya"; d_team := "Arsenal"; d_position := "GK";
       d_price := 5; d_features := 2%Q |};
    {| d_name := "Saka"; d_team := "Arsenal"; d_position := "MID";
       d_price := 10; d_features := 4%Q |};
    {| d_name := "Pickford"; d_team := "Everton"; d_position := "GK";
       d_price := 5; d_features := 3%Q |};
    {| d_name := "Haaland"; d_team := "Man City"; d_position := "FWD";
       d_price := 14; d_features := 5%Q |};
    {| d_name := "Sanchez"; d_team := "Chelsea"; d_position := "GK";
       d_price := 5; d_features := 3%Q |} ].

Definition doubling_model (X : list Q) : pyresult (list Q) :=
  Ok (map (fun x => (2 * x)%Q) X).

Definition teams2 : list Team :=
  [ {| team_id := 1; team_name := "Arsenal" |};
    {| team_id := 2; team_name := "Aston Villa" |} ].

Definition element (id team type : Z) (first second : string)
    (minutes clean_sheets : option Q) : Element :=
  {| e_id := id; e_first_name := first; e_second_name := second;
     e_team := team; e_element_type := type; e_form := 3;
     e_minutes := minutes; e_now_cost := 55; e_clean_sheets := clean_sheets |}.

Definition elements3 : list Element :=
  [ element 1 1 1 "David" "Raya" (Some 900%Q) (Some 4%Q);
    element 2 2 3 "John" "McGinn" (Some 45%Q) None;
    element 3 7 2 "New" "Signing" None (Some 1%Q) ].

(* ================================================================== *)
(** * Properties *)

(** ** Sums of rationals *)

Lemma fold_left_Qplus (l : list Q) (a : Q) :
  (fold_left Qplus l a == a + fold_right Qplus 0 l)%Q.
Proof.
  revert a; induction l as [|x l IH]; intros a; simpl.
  - ring.
  - rewrite IH. ring.
Qed.

Lemma sum_cons (x : Q) (l : list Q) : (sum (x :: l) == x + sum l)%Q.
Proof.
  unfold sum; simpl. rewrite !fold_left_Qplus. ring.
Qed.

Lemma sum_perm (l1 l2 : list Q) : Permutation l1 l2 -> (sum l1 == sum l2)%Q.
Proof.
  induction 1 as [|x l1 l2 _ IH|x y l|l1 l2 l3 _ IH1 _ IH2].
  - reflexivity.
  - rewrite !sum_cons, IH. reflexivity.
  - rewrite !sum_cons. ring.
  - rewrite IH1. exact IH2.
Qed.

(** ** Values of affine expressions *)

Lemma expr_value_lpSum (v : Assignment) (coef : Z -> Q) (ids : list Z) :
  (expr_value v (lpSum coef ids) == sum (map coef (filter v ids)))%Q.
Proof.
  induction ids as [|i ids IH]; simpl.
  - reflexivity.
  - unfold term_value at 1; simpl. destruct (v i); simpl.
    + rewrite sum_cons, IH. reflexivity.
    + rewrite IH. ring.
Qed.

Lemma sum_ones (ids : list Z) :
  (sum (map one ids) == inject_Z (Z.of_nat (List.length ids)))%Q.
Proof.
  induction ids as [|i ids IH].
  - reflexivity.
  - cbn [map List.length]. rewrite sum_cons, IH, Nat2Z.inj_succ.
    unfold one, Z.succ. rewrite inject_Z_plus. ring.
Qed.

Lemma expr_value_count (v : Assignment) (ids : list Z) :
  (expr_value v (lpSum one ids)
   == inject_Z (Z.of_nat (List.length (filter v ids))))%Q.
Proof. rewrite expr_value_lpSum. apply sum_ones. Qed.

Lemma count_eq (v : Assignment) (ids : list Z) (k : nat) :
  (expr_value v (lpSum one ids) == inject_Z (Z.of_nat k))%Q
  <-> List.length (filter v ids) = k.
Proof.
  rewrite expr_value_count, inject_Z_injective. lia.
Qed.

Lemma count_le (v : Assignment) (ids : list Z) (k : nat) :
  (expr_value v (lpSum one ids) <= inject_Z (Z.of_nat k))%Q
  <-> (List.length (filter v ids) <= k)%nat.
Proof.
  rewrite expr_value_count, <- Zle_Qle. lia.
Qed.

Lemma expr_value_ext (v v' : Assignment) (e : LpAffineExpression) :
  (forall i, In i (expr_vars e) -> v i = v' i) ->
  expr_value v e = expr_value v' e.
Proof.
  induction e as [|[c i] e IH]; simpl; intros H.
  - reflexivity.
  - unfold term_value; simpl. rewrite (H i) by auto. rewrite IH by auto.
    reflexivity.
Qed.

(** ** Lists *)

Lemma filter_comm {A} (f g : A -> bool) (l : list A) :
  filter f (filter g l) = filter g (filter f l).
Proof.
  induction l as [|x l IH]; simpl; [reflexivity|].
  destruct (g x) eqn:Hg, (f x) eqn:Hf; simpl; rewrite ?Hg, ?Hf, IH; reflexivity.
Qed.

Lemma filter_perm {A} (f : A -> bool) (l l' : list A) :
  Permutation l l' -> Permutation (filter f l) (filter f l').
Proof.
  induction 1 as [|x l1 l2 _ IH|x y l|l1 l2 l3 _ IH1 _ IH2]; simpl.
  - constructor.
  - destruct (f x); auto.
  - destruct (f x), (f y); auto. constructor.
  - now transitivity (filter f l2).
Qed.

Lemma filter_nil_iff {A} (f : A -> bool) (l : list A) :
  filter f l = [] <-> forall x, In x l -> f x = false.
Proof.
  induction l as [|x l IH]; simpl.
  - split; [intros _ y []|reflexivity].
  - destruct (f x) eqn:Hx; split.
    + discriminate.
    + intros H. rewrite (H x) in Hx by auto. discriminate.
    + intros H y [<-|Hy]; [assumption|]. now apply IH.
    + intros H. apply IH. auto.
Qed.

Lemma length_zero_nil {A} (l : list A) : List.length l = 0%nat -> l = [].
Proof. destruct l; [reflexivity|discriminate]. Qed.

Lemma isin_In (l : list Z) (i : Z) : isin l i = true <-> In i l.
Proof.
  unfold isin. rewrite existsb_exists. split.
  - intros (x & Hx & E). apply Z.eqb_eq in E. now subst.
  - intros H. exists i. split; [assumption|apply Z.eqb_refl].
Qed.

Lemma filter_isin_perm (l sq : list Z) :
  NoDup l -> NoDup sq -> incl sq l -> Permutation (filter (isin sq) l) sq.
Proof.
  intros Hl Hsq Hincl. apply NoDup_Permutation.
  - now apply NoDup_filter.
  - assumption.
  - intros x. rewrite filter_In, isin_In. split; [tauto|]. auto.
Qed.

Lemma sublists_filter {A} (f : A -> bool) (l : list A) :
  In (filter f l) (sublists l).
Proof.
  induction l as [|x l IH]; simpl; [auto|].
  apply in_or_app. destruct (f x).
  - left. now apply in_map.
  - now right.
Qed.



(** ** Dictionaries built from a frame *)

Lemma dict_get_In {V} (d : dict V) (k : Z) (v : V) :
  dict_get d k = Some v -> In (k, v) d.
Proof.
  induction d as [|[k' w] d IH]; simpl; [discriminate|].
  destruct (dict_get d k) as [u|].
  - intros [= ->]. right. now apply IH.
  - destruct (Z.eqb_spec k k') as [->|_]; [|discriminate].
    intros [= ->]. now left.
Qed.

Lemma dict_get_key {V} (d : dict V) (k : Z) :
  In k (map fst d) -> exists v, dict_get d k = Some v.
Proof.
  induction d as [|[k' w] d IH]; simpl; [intros []|].
  intros [->|H].
  - destruct (dict_get d k) as [u|]; [now exists u|].
    rewrite Z.eqb_refl. now exists w.
  - destruct (IH H) as (u & ->). now exists u.
Qed.

Lemma dict_get_value {V} (d : dict V) (k : Z) (v : V) :
  dict_get d k = Some v -> In v (values d).
Proof.
  intros E. apply dict_get_In in E. now apply (in_map snd) in E.
Qed.

Lemma to_dict_keys {V} (col : Row -> V) (df : DataFrame) :
  map fst (to_dict col df) = index df.
Proof.
  unfold to_dict, index. rewrite map_map. reflexivity.
Qed.

(** A subscript with an index label never misses: it reads the column in a
    row that carries this label. *)
Lemma dict_get_to_dict {V} (col : Row -> V) (df : DataFrame) (k : Z) :
  In k (index df) ->
  exists r, In r (rows df) /\ r_index r = k
            /\ dict_get (to_dict col df) k = Some (col r).
Proof.
  intros H. rewrite <- (to_dict_keys col) in H.
  destruct (dict_get_key _ _ H) as (v & E).
  pose proof (dict_get_In _ _ _ E) as Hin.
  unfold to_dict in Hin. apply in_map_iff in Hin.
  destruct Hin as (r & [= <- <-] & Hr). now exists r.
Qed.

Lemma getitem_to_dict {V} (dflt : V) (col : Row -> V) (df : DataFrame) (k : Z) :
  In k (index df) ->
  exists r, In r (rows df) /\ r_index r = k
            /\ getitem dflt (to_dict col df) k = col r.
Proof.
  intros H. destruct (dict_get_to_dict col df k H) as (r & Hr & Hk & E).
  exists r. unfold getitem. now rewrite E.
Qed.

(** ** Positions *)

Lemma position_split (positions : dict string) (l : list Z) :
  List.length l =
  (List.length (filter (has_position positions "GK") l)
   + List.length (filter (has_position positions "DEF") l)
   + List.length (filter (has_position positions "MID") l)
   + List.length (filter (has_position positions "FWD") l)
   + List.length (filter (other_position positions) l))%nat.
Proof.
  induction l as [|i l IH]; simpl; [reflexivity|].
  unfold other_position, has_position in *.
  destruct (String.eqb_spec (getitem "" positions i) "GK") as [->|_];
    [simpl; lia|].
  destruct (String.eqb_spec (getitem "" positions i) "DEF") as [->|_];
    [simpl; lia|].
  destruct (String.eqb_spec (getitem "" positions i) "MID") as [->|_];
    [simpl; lia|].
  destruct (String.eqb_spec (getitem "" positions i) "FWD") as [_|_];
    simpl; lia.
Qed.

(** ** What the constraints of [problem] say about the selected labels *)

Section Feasibility.

Variable df : DataFrame.
Variable budget : Q.
Variable v : Assignment.

Lemma selected_incl : incl (selected df v) (player_ids df).
Proof. intros i Hi. apply filter_In in Hi. tauto. Qed.

Lemma count_selected (pos : string) :
  List.length (filter v (filter (has_position (positions df) pos) (player_ids df)))
  = count_position df pos (selected df v).
Proof. unfold count_position, selected. now rewrite filter_comm. Qed.

Lemma lp_feasible_iff :
  lp_feasible (problem df budget) v <->
  (squad_price df (selected df v) <= budget)%Q
  /\ List.length (selected df v) = 15%nat
  /\ count_position df "GK" (selected df v) = 2%nat
  /\ count_position df "DEF" (selected df v) = 5%nat
  /\ count_position df "MID" (selected df v) = 5%nat
  /\ count_position df "FWD" (selected df v) = 3%nat
  /\ Forall (satisfies v) (team_constraints df).
Proof.
  unfold lp_feasible, problem. cbn [constraints].
  rewrite !Forall_cons_iff. unfold satisfies. cbn [c_sense c_expr c_rhs].
  rewrite expr_value_lpSum.
  change 15%Q with (inject_Z (Z.of_nat 15)).
  change 2%Q with (inject_Z (Z.of_nat 2)).
  change 5%Q with (inject_Z (Z.of_nat 5)).
  change 3%Q with (inject_Z (Z.of_nat 3)).
  rewrite !count_eq. unfold gk_ids, def_ids, mid_ids, fwd_ids.
  rewrite !count_selected. reflexivity.
Qed.

Lemma team_constraints_iff :
  Forall (satisfies v) (team_constraints df) <->
  forall t, In t (values (teams df)) ->
    (List.length (filter (same_team (teams df) t) (selected df v)) <= 3)%nat.
Proof.
  unfold team_constraints.
  assert (Hone : forall t,
    Forall (satisfies v)
      match filter (same_team (teams df) t) (player_ids df) with
      | [] => []
      | _ :: _ =>
          [ {| c_expr := lpSum one (filter (same_team (teams df) t) (player_ids df));
               c_sense := LpConstraintLE; c_rhs := 3%Q |} ]
      end
    <-> (List.length (filter (same_team (teams df) t) (selected df v)) <= 3)%nat).
  { intros t. unfold selected. rewrite (filter_comm _ v).
    destruct (filter (same_team (teams df) t) (player_ids df)) as [|i l] eqn:E.
    - simpl. split; [lia|constructor].
    - rewrite Forall_cons_iff. unfold satisfies. cbn [c_sense c_expr c_rhs].
      change 3%Q with (inject_Z (Z.of_nat 3)). rewrite count_le.
      split; [tauto|]. intros H; split; [exact H|constructor]. }
  destruct (teams df) as [|kv tm] eqn:E.
  - simpl. split; [intros _ t []|constructor].
  - rewrite Forall_flat_map, Forall_forall. unfold team_set.
    split; intros H t Ht.
    + apply Hone. apply H. now apply nodup_In.
    + apply Hone. apply H. now apply nodup_In in Ht.
Qed.

Lemma group_of_same_team (g : string) (i : Z) :
  has_team_column df = true -> In i (player_ids df) ->
  String.eqb (group_of df i) g = same_team (teams df) g i.
Proof.
  intros Ht Hi. unfold group_of, get_default, same_team, teams. rewrite Ht.
  destruct (dict_get_to_dict r_team df i Hi) as (r & _ & _ & ->).
  reflexivity.
Qed.

Lemma count_group_same_team (g : string) (sq : list Z) :
  has_team_column df = true -> incl sq (player_ids df) ->
  count_group df g sq = List.length (filter (same_team (teams df) g) sq).
Proof.
  intros Ht Hincl. unfold count_group. f_equal.
  apply filter_ext_in. intros i Hi. apply group_of_same_team; auto.
Qed.

Lemma same_team_value (g : string) (i : Z) :
  same_team (teams df) g i = true -> In g (values (teams df)).
Proof.
  unfold same_team. destruct (dict_get (teams df) i) as [t|] eqn:E; [|discriminate].
  intros H. apply String.eqb_eq in H. subst t. now apply dict_get_value in E.
Qed.

Lemma team_constraints_groups :
  has_team_column df = true ->
  (Forall (satisfies v) (team_constraints df) <->
   forall g, (count_group df g (selected df v) <= 3)%nat).
Proof.
  intros Ht. rewrite team_constraints_iff. split; intros H g.
  - rewrite count_group_same_team by (auto using selected_incl).
    destruct (in_dec string_dec g (values (teams df))) as [Hin|Hout].
    + now apply H.
    + replace (filter (same_team (teams df) g) (selected df v)) with (@nil Z).
      * simpl. lia.
      * symmetry. apply filter_nil_iff. intros i _.
        destruct (same_team (teams df) g i) eqn:E; [|reflexivity].
        exfalso. apply Hout. now apply same_team_value in E.
  - intros _. rewrite <- count_group_same_team by (auto using selected_incl).
    apply H.
Qed.


Lemma lp_feasible_meets :
  has_team_column df = true ->
  (lp_feasible (problem df budget) v
   <-> meets_constraints df budget (selected df v)).
Proof.
  intros Ht. rewrite lp_feasible_iff, (team_constraints_groups Ht).
  split.
  - intros (? & ? & ? & ? & ? & ? & ?). now constructor.
  - intros []. tauto.
Qed.

(** A selected label always carries one of the four positions. *)
Lemma selected_positions :
  lp_feasible (problem df budget) v ->
  forall i, In i (selected df v) -> other_position (positions df) i = false.
Proof.
  intros H. apply lp_feasible_iff in H.
  destruct H as (_ & Hn & Hg & Hd & Hm & Hf & _).
  apply filter_nil_iff. apply length_zero_nil.
  pose proof (position_split (positions df) (selected df v)) as Hs.
  unfold count_position in *. lia.
Qed.

End Feasibility.

(** ** [sort] and [max] *)

Lemma insert_desc_perm {A} (key : A -> Q) (x : A) (l : list A) :
  Permutation (insert_desc key x l) (x :: l).
Proof.
  induction l as [|y l IH]; simpl; [reflexivity|].
  destruct (Qle_bool (key y) (key x)); [reflexivity|].
  rewrite IH. apply perm_swap.
Qed.

Lemma sort_desc_perm {A} (key : A -> Q) (l : list A) :
  Permutation (sort_desc key l) l.
Proof.
  induction l as [|x l IH]; simpl; [reflexivity|].
  rewrite insert_desc_perm. now constructor.
Qed.

Lemma Qgtb_true (a b : Q) : Qgtb a b = true <-> (b < a)%Q.
Proof.
  unfold Qgtb. rewrite negb_true_iff, <- not_true_iff_false, Qle_bool_iff.
  split; [apply Qnot_le_lt|apply Qlt_not_le].
Qed.

Lemma Qgtb_false (a b : Q) : Qgtb a b = false <-> (a <= b)%Q.
Proof.
  unfold Qgtb. rewrite negb_false_iff. apply Qle_bool_iff.
Qed.

(** [max] returns the first element of greatest key: everything before it is
    strictly smaller, nothing after it is greater. *)
Lemma max_from_first {A} (key : A -> Q) (l : list A) (b : A) :
  exists l1 l2,
    b :: l = (l1 ++ max_from key b l :: l2)%list
    /\ (forall x, In x l1 -> (key x < key (max_from key b l))%Q)
    /\ (forall x, In x l2 -> (key x <= key (max_from key b l))%Q).
Proof.
  revert b; induction l as [|x l IH]; intros b; simpl.
  - exists [], []. simpl. split; [reflexivity|]. split; intros ? [].
  - destruct (Qgtb (key x) (key b)) eqn:E.
    + apply Qgtb_true in E.
      destruct (IH x) as (l1 & l2 & Heq & H1 & H2).
      exists (b :: l1), l2. split; [simpl; now rewrite <- Heq|].
      split; [|exact H2].
      intros y [<-|Hy]; [|now apply H1].
      destruct l1 as [|z l1]; simpl in Heq; injection Heq as Hx _.
      * now rewrite <- Hx.
      * apply Qlt_trans with (key x); [exact E|]. apply H1. left. now symmetry.
    + apply Qgtb_false in E.
      destruct (IH b) as (l1 & l2 & Heq & H1 & H2).
      destruct l1 as [|z l1]; simpl in Heq; injection Heq as Hb Hl.
      * exists [], (x :: l2). simpl. split; [now rewrite <- Hb, Hl|].
        split; [intros ? []|].
        intros y [<-|Hy]; [now rewrite <- Hb|now apply H2].
      * subst z. exists (b :: x :: l1), l2. simpl.
        split; [do 2 f_equal; exact Hl|]. split; [|exact H2].
        assert (Hbc : (key b < key (max_from key b l))%Q) by (apply H1; now left).
        intros y [<-|[<-|Hy]].
        -- exact Hbc.
        -- now apply Qle_lt_trans with (key b).
        -- apply H1. now right.
Qed.

Lemma max_by_first {A} (key : A -> Q) (l : list A) (c : A) :
  max_by key l = Return c ->
  exists l1 l2,
    l = (l1 ++ c :: l2)%list
    /\ (forall x, In x l1 -> (key x < key c)%Q)
    /\ (forall x, In x l2 -> (key x <= key c)%Q).
Proof.
  destruct l as [|b l]; simpl; [discriminate|].
  intros [= <-]. apply max_from_first.
Qed.

(** ** [build_squad] *)

Lemma four_positions_perm (positions : dict string) (l : list Z) :
  (forall i, In i l -> other_position positions i = false) ->
  Permutation
    (filter (has_position positions "GK") l
       ++ filter (has_position positions "DEF") l
       ++ filter (has_position positions "MID") l
       ++ filter (has_position positions "FWD") l) l.
Proof.
  induction l as [|i l IH]; intros H; [reflexivity|].
  assert (Hi := H i (or_introl eq_refl)).
  specialize (IH (fun j Hj => H j (or_intror Hj))).
  assert (Hx : forall p q, has_position positions p i = true -> p <> q ->
                           has_position positions q i = false).
  { unfold has_position. intros p q Hp Hq. apply String.eqb_eq in Hp.
    rewrite Hp. now apply String.eqb_neq. }
  unfold other_position in Hi. cbn [filter].
  destruct (has_position positions "GK" i) eqn:EG.
  { rewrite (Hx "GK" "DEF"), (Hx "GK" "MID"), (Hx "GK" "FWD")
      by (assumption || discriminate).
    simpl. now apply perm_skip. }
  destruct (has_position positions "DEF" i) eqn:ED.
  { rewrite (Hx "DEF" "MID"), (Hx "DEF" "FWD") by (assumption || discriminate).
    symmetry. apply Permutation_cons_app. now symmetry. }
  destruct (has_position positions "MID" i) eqn:EM.
  { rewrite (Hx "MID" "FWD") by (assumption || discriminate).
    symmetry. rewrite app_assoc.
    apply Permutation_cons_app. rewrite <- app_assoc. now symmetry. }
  destruct (has_position positions "FWD" i) eqn:EF; [|discriminate].
  symmetry. rewrite 2!app_assoc.
  apply Permutation_cons_app. rewrite <- 2!app_assoc. now symmetry.
Qed.

Lemma build_squad_inv (df : DataFrame) (ids : list Z) (s : Squad) :
  build_squad df ids = Return (Success s) ->
  goalkeepers s = by_position df "GK" ids
  /\ defenders s = sort_desc predicted_points (by_position df "DEF" ids)
  /\ midfielders s = sort_desc predicted_points (by_position df "MID" ids)
  /\ forwards s = sort_desc predicted_points (by_position df "FWD" ids)
  /\ total_cost s = squad_price df ids
  /\ total_predicted s = squad_score df ids
  /\ exists c, max_by predicted_points (all_players s) = Return c
               /\ captain s = name c
               /\ captain_points s = predicted_points c
               /\ total_with_captain s
                  = (squad_score df ids + predicted_points c)%Q.
Proof.
  unfold build_squad.
  destruct (max_by _ _) as [c|e] eqn:E; [|discriminate].
  intros [= <-]. unfold all_players. cbn.
  repeat (split; [reflexivity|]). exists c. auto.
Qed.

Lemma by_position_length (df : DataFrame) (pos : string) (ids : list Z) :
  List.length (by_position df pos ids) = count_position df pos ids.
Proof. unfold by_position, count_position. apply length_map. Qed.

Lemma all_players_perm (df : DataFrame) (ids : list Z) (s : Squad) :
  build_squad df ids = Return (Success s) ->
  (forall i, In i ids -> other_position (positions df) i = false) ->
  Permutation (all_players s) (map (player_info df) ids).
Proof.
  intros Hb Hpos. destruct (build_squad_inv _ _ _ Hb) as (Hg & Hd & Hm & Hf & _).
  unfold all_players. rewrite Hg, Hd, Hm, Hf, !sort_desc_perm.
  unfold by_position. rewrite <- !map_app. apply Permutation_map.
  now apply four_positions_perm.
Qed.

(** [build_squad] raises only on an empty selection of known positions. *)
Lemma build_squad_returns (df : DataFrame) (ids : list Z) :
  (forall i, In i ids -> other_position (positions df) i = false) ->
  ids <> [] ->
  exists s, build_squad df ids = Return (Success s).
Proof.
  intros Hpos Hne. unfold build_squad.
  destruct (max_by _ _) as [c|e] eqn:E; [eauto|].
  exfalso. unfold max_by in E.
  destruct (_ ++ _)%list as [|x l] eqn:El; [|discriminate].
  apply Hne.
  assert (Hp : Permutation
            (by_position df "GK" ids
               ++ sort_desc predicted_points (by_position df "DEF" ids)
               ++ sort_desc predicted_points (by_position df "MID" ids)
               ++ sort_desc predicted_points (by_position df "FWD" ids))
            (map (player_info df) ids)).
  { rewrite !sort_desc_perm. unfold by_position. rewrite <- !map_app.
    apply Permutation_map. now apply four_positions_perm. }
  rewrite El in Hp. apply Permutation_nil in Hp.
  now apply map_eq_nil in Hp.
Qed.

(** ** The reference solver meets the solver contract *)

Lemma satisfiesb_iff (v : Assignment) (c : LpConstraint) :
  satisfiesb v c = true <-> satisfies v c.
Proof.
  unfold satisfiesb, satisfies. destruct (c_sense c).
  - apply Qle_bool_iff.
  - apply Qeq_bool_iff.
Qed.

Lemma lp_feasibleb_iff (p : LpProblem) (v : Assignment) :
  lp_feasibleb p v = true <-> lp_feasible p v.
Proof.
  unfold lp_feasibleb, lp_feasible. rewrite forallb_forall, Forall_forall.
  split; intros H c Hc; apply satisfiesb_iff; auto.
Qed.

Lemma problem_vars_objective (p : LpProblem) (i : Z) :
  In i (expr_vars (objective p)) -> In i (problem_vars p).
Proof.
  intros H. unfold problem_vars. apply nodup_In, in_or_app. now left.
Qed.

Lemma problem_vars_constraint (p : LpProblem) (c : LpConstraint) (i : Z) :
  In c (constraints p) -> In i (expr_vars (c_expr c)) -> In i (problem_vars p).
Proof.
  intros Hc H. unfold problem_vars. apply nodup_In, in_or_app. right.
  apply in_flat_map. now exists c.
Qed.

(** A valuation and its trace on the variables of the programme agree on
    every expression of the programme. *)
Lemma trace_agrees (p : LpProblem) (v : Assignment) (i : Z) :
  In i (problem_vars p) -> isin (filter v (problem_vars p)) i = v i.
Proof.
  intros Hi. destruct (v i) eqn:E.
  - apply isin_In, filter_In. auto.
  - apply not_true_iff_false. rewrite isin_In, filter_In. intros [_ H].
    congruence.
Qed.

Lemma trace_feasible (p : LpProblem) (v : Assignment) :
  lp_feasible p v -> lp_feasible p (isin (filter v (problem_vars p))).
Proof.
  unfold lp_feasible. rewrite !Forall_forall. intros H c Hc.
  specialize (H c Hc). unfold satisfies in *.
  rewrite (expr_value_ext _ v); [exact H|].
  intros i Hi. apply trace_agrees. now apply (problem_vars_constraint p c).
Qed.

Lemma trace_objective (p : LpProblem) (v : Assignment) :
  expr_value (isin (filter v (problem_vars p))) (objective p)
  = expr_value v (objective p).
Proof.
  apply expr_value_ext. intros i Hi. apply trace_agrees.
  now apply problem_vars_objective.
Qed.

Lemma feasible_selections_In (p : LpProblem) (s : list Z) :
  In s (feasible_selections p) <->
  In s (sublists (problem_vars p)) /\ lp_feasible p (isin s).
Proof.
  unfold feasible_selections. now rewrite filter_In, lp_feasibleb_iff.
Qed.

Lemma reference_solve_sound : solver_sound reference_solve.
Proof.
  intros p v. unfold reference_solve.
  destruct (max_by _ _) as [s|e] eqn:E; [|discriminate].
  intros [= <-]. apply max_by_first in E.
  destruct E as (l1 & l2 & Heq & H1 & H2).
  assert (Hs : In s (feasible_selections p))
    by (rewrite Heq; apply in_or_app; right; now left).
  split; [now apply feasible_selections_In in Hs|].
  intros v' Hv'. rewrite <- (trace_objective p v').
  assert (Hin : In (filter v' (problem_vars p)) (feasible_selections p)).
  { apply feasible_selections_In. split.
    - apply sublists_filter.
    - now apply trace_feasible. }
  rewrite Heq in Hin. apply in_app_or in Hin. destruct Hin as [Hin|[<-|Hin]].
  - apply Qlt_le_weak. now apply (H1 _ Hin).
  - apply Qle_refl.
  - now apply (H2 _ Hin).
Qed.

Lemma reference_solve_complete : solver_complete reference_solve.
Proof.
  intros p [v' Hv']. unfold reference_solve.
  destruct (max_by _ _) as [s|e] eqn:E; [reflexivity|].
  exfalso. unfold max_by in E.
  destruct (feasible_selections p) as [|s l] eqn:El; [|discriminate].
  assert (Hin : In (filter v' (problem_vars p)) (feasible_selections p)).
  { apply feasible_selections_In. split.
    - apply sublists_filter.
    - now apply trace_feasible. }
  rewrite El in Hin. destruct Hin.
Qed.

(** ** More on feasible squads *)

Lemma filter_map_length {A B} (f : A -> B) (P : B -> bool) (l : list A) :
  List.length (filter P (map f l)) = List.length (filter (fun x => P (f x)) l).
Proof.
  induction l as [|x l IH]; simpl; [reflexivity|].
  destruct (P (f x)); simpl; now rewrite IH.
Qed.

Lemma count_team_perm (g : string) (l l' : list PlayerInfo) :
  Permutation l l' -> count_team g l = count_team g l'.
Proof.
  intros H. unfold count_team. apply Permutation_length. now apply filter_perm.
Qed.

Lemma count_team_group (df : DataFrame) (g : string) (ids : list Z) :
  count_team g (map (player_info df) ids) = count_group df g ids.
Proof. unfold count_team, count_group. apply filter_map_length. Qed.


Lemma squad_score_perm (df : DataFrame) (sq sq' : list Z) :
  Permutation sq sq' -> (squad_score df sq == squad_score df sq')%Q.
Proof. intros H. unfold squad_score. now apply sum_perm, Permutation_map. Qed.

Lemma squad_price_perm (df : DataFrame) (sq sq' : list Z) :
  Permutation sq sq' -> (squad_price df sq == squad_price df sq')%Q.
Proof. intros H. unfold squad_price. now apply sum_perm, Permutation_map. Qed.

Lemma count_position_perm (df : DataFrame) (pos : string) (sq sq' : list Z) :
  Permutation sq sq' -> count_position df pos sq = count_position df pos sq'.
Proof.
  intros H. unfold count_position. now apply Permutation_length, filter_perm.
Qed.

Lemma count_group_perm (df : DataFrame) (g : string) (sq sq' : list Z) :
  Permutation sq sq' -> count_group df g sq = count_group df g sq'.
Proof.
  intros H. unfold count_group. now apply Permutation_length, filter_perm.
Qed.

Lemma meets_constraints_perm (df : DataFrame) (budget : Q) (sq sq' : list Z) :
  Permutation sq sq' ->
  meets_constraints df budget sq -> meets_constraints df budget sq'.
Proof.
  intros Hp [Hn Hg Hd Hm Hf Hb Ht]. constructor.
  - now rewrite <- (Permutation_length Hp).
  - now rewrite <- (count_position_perm df _ _ _ Hp).
  - now rewrite <- (count_position_perm df _ _ _ Hp).
  - now rewrite <- (count_position_perm df _ _ _ Hp).
  - now rewrite <- (count_position_perm df _ _ _ Hp).
  - now rewrite <- (squad_price_perm df _ _ Hp).
  - intros g. now rewrite <- (count_group_perm df g _ _ Hp).
Qed.

(** Without a 'team' column every candidate is reported under "Unknown". *)
Lemma group_of_no_team (df : DataFrame) (i : Z) :
  has_team_column df = false -> group_of df i = "Unknown".
Proof.
  intros Ht. unfold group_of, get_default, teams. now rewrite Ht.
Qed.

Lemma count_group_no_team (df : DataFrame) (sq : list Z) :
  has_team_column df = false ->
  count_group df "Unknown" sq = List.length sq.
Proof.
  intros Ht. unfold count_group. f_equal.
  rewrite <- (filter_ext_in (fun _ => true)).
  - induction sq as [|x sq IH]; simpl; [reflexivity|now rewrite IH].
  - intros i _. now rewrite (group_of_no_team df i Ht).
Qed.

Lemma meets_constraints_has_team (df : DataFrame) (budget : Q) (sq : list Z) :
  meets_constraints df budget sq -> has_team_column df = true.
Proof.
  intros [Hn _ _ _ _ _ Ht]. destruct (has_team_column df) eqn:E; [reflexivity|].
  specialize (Ht "Unknown"). rewrite (count_group_no_team df sq E) in Ht. lia.
Qed.

Lemma group_cap_iff (df : DataFrame) (sq : list Z) :
  forallb (fun i => (count_group df (group_of df i) sq <=? 3)%nat) sq = true
  <-> forall g, (count_group df g sq <= 3)%nat.
Proof.
  rewrite forallb_forall. split.
  - intros H g. unfold count_group.
    destruct (filter (fun i => String.eqb (group_of df i) g) sq) as [|i l] eqn:E;
      [simpl; lia|].
    assert (Hi : In i (filter (fun i => String.eqb (group_of df i) g) sq))
      by (rewrite E; now left).
    apply filter_In in Hi. destruct Hi as [Hi Hg]. apply String.eqb_eq in Hg.
    specialize (H i Hi). apply Nat.leb_le in H. rewrite Hg in H.
    unfold count_group in H. now rewrite E in H.
  - intros H i _. apply Nat.leb_le. apply H.
Qed.

Lemma meets_constraintsb_iff (df : DataFrame) (budget : Q) (sq : list Z) :
  meets_constraintsb df budget sq = true <-> meets_constraints df budget sq.
Proof.
  unfold meets_constraintsb.
  rewrite !andb_true_iff, !Nat.eqb_eq, Qle_bool_iff, group_cap_iff.
  split.
  - intros [[[[[[? ?] ?] ?] ?] ?] ?]. now constructor.
  - intros []. tauto.
Qed.

(** A feasible squad, read as a valuation, satisfies the programme. *)
Lemma feasible_squad_lp (df : DataFrame) (budget : Q) (sq : list Z) :
  NoDup (index df) -> feasible_squad df budget sq ->
  lp_feasible (problem df budget) (isin sq)
  /\ Permutation (selected df (isin sq)) sq.
Proof.
  intros Hnd [Hincl Hsq Hm].
  assert (Hp : Permutation (selected df (isin sq)) sq)
    by (now apply filter_isin_perm).
  split; [|exact Hp].
  apply lp_feasible_meets.
  - now apply (meets_constraints_has_team df budget sq).
  - apply (meets_constraints_perm df budget sq); [now symmetry|exact Hm].
Qed.

Lemma objective_score (df : DataFrame) (budget : Q) (v : Assignment) :
  (expr_value v (objective (problem df budget))
   == squad_score df (selected df v))%Q.
Proof. unfold problem; cbn [objective]. apply expr_value_lpSum. Qed.

(* ================================================================== *)
(** * The solver's tolerances *)

(** ** Rows read within a tolerance *)

Lemma satisfies_withinb_iff (tol : Q) (v : Assignment) (c : LpConstraint) :
  satisfies_withinb tol v c = true <-> satisfies_within tol v c.
Proof.
  unfold satisfies_withinb, satisfies_within. destruct (c_sense c).
  - apply Qle_bool_iff.
  - now rewrite andb_true_iff, !Qle_bool_iff.
Qed.

Lemma lp_feasible_withinb_iff (tol : Q) (p : LpProblem) (v : Assignment) :
  lp_feasible_withinb tol p v = true <-> lp_feasible_within tol p v.
Proof.
  unfold lp_feasible_withinb, lp_feasible_within.
  rewrite forallb_forall, Forall_forall.
  split; intros H c Hc; apply satisfies_withinb_iff; auto.
Qed.

Lemma satisfies_weaken (tol : Q) (v : Assignment) (c : LpConstraint) :
  (0 <= tol)%Q -> satisfies v c -> satisfies_within tol v c.
Proof.
  unfold satisfies, satisfies_within. destruct (c_sense c); intros Ht H.
  - lra.
  - rewrite H. split; lra.
Qed.

Lemma lp_feasible_weaken (tol : Q) (p : LpProblem) (v : Assignment) :
  (0 <= tol)%Q -> lp_feasible p v -> lp_feasible_within tol p v.
Proof.
  intros Ht H. unfold lp_feasible, lp_feasible_within in *.
  eapply Forall_impl; [|exact H]. intros c. now apply satisfies_weaken.
Qed.

(** An exact solver is a tolerant one, for every tolerance and gap. *)
Lemma solver_sound_tolerant (tol gap : Q) (solve : LpProblem -> Z * Assignment) :
  (0 <= tol)%Q -> (0 <= gap)%Q -> solver_sound solve ->
  solver_tolerant tol gap solve.
Proof.
  intros Ht Hg Hs p v E. destruct (Hs p v E) as [Hf Hopt]. split.
  - now apply lp_feasible_weaken.
  - intros v' Hv'. specialize (Hopt v' Hv'). lra.
Qed.

(** A counting row has integer values on both sides: within a tolerance
    below 1 it holds exactly. *)
Lemma count_value (v : Assignment) (ids : list Z) :
  (expr_value v (lpSum one ids)
   == inject_Z (Z.of_nat (List.length (filter v ids))))%Q.
Proof. now rewrite expr_value_lpSum, sum_ones. Qed.

Lemma integers_within (tol : Q) (a b : Z) :
  (tol < 1)%Q -> (inject_Z a <= inject_Z b + tol)%Q -> a <= b.
Proof.
  intros Ht H.
  assert (Hlt : (inject_Z a < inject_Z (b + 1))%Q)
    by (rewrite inject_Z_plus; change (inject_Z 1) with 1%Q; lra).
  rewrite <- Zlt_Qlt in Hlt. lia.
Qed.

Lemma count_eq_within (tol : Q) (v : Assignment) (ids : list Z) (k : Z) :
  (tol < 1)%Q ->
  satisfies_within tol v {| c_expr := lpSum one ids; c_sense := LpConstraintEQ;
                            c_rhs := inject_Z k |} ->
  satisfies v {| c_expr := lpSum one ids; c_sense := LpConstraintEQ;
                 c_rhs := inject_Z k |}.
Proof.
  unfold satisfies_within, satisfies. cbn [c_expr c_sense c_rhs].
  rewrite count_value. intros Ht [Hlo Hhi].
  assert (H1 : Z.of_nat (List.length (filter v ids)) <= k)
    by (now apply (integers_within tol)).
  assert (H2 : k <= Z.of_nat (List.length (filter v ids)))
    by (apply (integers_within tol); [exact Ht|lra]).
  now replace k with (Z.of_nat (List.length (filter v ids))) by lia.
Qed.

Lemma count_le_within (tol : Q) (v : Assignment) (ids : list Z) (k : Z) :
  (tol < 1)%Q ->
  satisfies_within tol v {| c_expr := lpSum one ids; c_sense := LpConstraintLE;
                            c_rhs := inject_Z k |} ->
  satisfies v {| c_expr := lpSum one ids; c_sense := LpConstraintLE;
                 c_rhs := inject_Z k |}.
Proof.
  unfold satisfies_within, satisfies. cbn [c_expr c_sense c_rhs].
  rewrite count_value. intros Ht H. rewrite <- Zle_Qle.
  now apply (integers_within tol).
Qed.

Lemma team_constraints_shape (df : DataFrame) (c : LpConstraint) :
  In c (team_constraints df) ->
  exists ids, c = {| c_expr := lpSum one ids; c_sense := LpConstraintLE;
                     c_rhs := inject_Z 3 |}.
Proof.
  unfold team_constraints. destruct (teams df) as [|e d]; [intros []|].
  intros H. apply in_flat_map in H. destruct H as (t & _ & H).
  destruct (filter _ _) as [|i l]; [destruct H|].
  destruct H as [<-|[]]. now exists (i :: l).
Qed.

(** Read within a tolerance below 1, the programme of [optimize_squad] is
    the same programme with the budget raised by the tolerance: only the
    budget row can be broken. *)
Lemma lp_feasible_within_budget (df : DataFrame) (budget tol : Q)
    (v : Assignment) :
  (tol < 1)%Q ->
  lp_feasible_within tol (problem df budget) v ->
  lp_feasible (problem df (budget + tol)) v.
Proof.
  intros Ht. unfold lp_feasible_within, lp_feasible, problem.
  cbn [constraints]. rewrite !Forall_cons_iff.
  intros (Hb & Hn & Hg & Hd & Hm & Hf & Hteam).
  split; [exact Hb|].
  split; [exact (count_eq_within tol v _ 15 Ht Hn)|].
  split; [exact (count_eq_within tol v _ 2 Ht Hg)|].
  split; [exact (count_eq_within tol v _ 5 Ht Hd)|].
  split; [exact (count_eq_within tol v _ 5 Ht Hm)|].
  split; [exact (count_eq_within tol v _ 3 Ht Hf)|].
  rewrite Forall_forall in *. intros c Hc.
  destruct (team_constraints_shape df c Hc) as (ids & ->).
  apply (count_le_within tol v ids 3 Ht). now apply Hteam.
Qed.

(** ** The tolerant search meets the contract of a tolerant solver *)

Lemma tolerant_selections_In (tol : Q) (p : LpProblem) (s : list Z) :
  In s (tolerant_selections tol p) <->
  In s (sublists (problem_vars p)) /\ lp_feasible_within tol p (isin s).
Proof.
  unfold tolerant_selections. now rewrite filter_In, lp_feasible_withinb_iff.
Qed.

Lemma tolerant_solve_tolerant (tol : Q) :
  (0 <= tol)%Q -> solver_tolerant tol 0 (tolerant_solve tol).
Proof.
  intros Ht p v. unfold tolerant_solve.
  destruct (max_by _ _) as [s|e] eqn:E; [|discriminate].
  intros [= <-]. apply max_by_first in E.
  destruct E as (l1 & l2 & Heq & H1 & H2).
  assert (Hs : In s (tolerant_selections tol p))
    by (rewrite Heq; apply in_or_app; right; now left).
  split; [now apply tolerant_selections_In in Hs|].
  intros v' Hv'. rewrite <- (trace_objective p v'), Qplus_0_r.
  assert (Hin : In (filter v' (problem_vars p)) (tolerant_selections tol p)).
  { apply tolerant_selections_In. split.
    - apply sublists_filter.
    - apply lp_feasible_weaken; [exact Ht|]. now apply trace_feasible. }
  rewrite Heq in Hin. apply in_app_or in Hin. destruct Hin as [Hin|[<-|Hin]].
  - apply Qlt_le_weak. now apply (H1 _ Hin).
  - apply Qle_refl.
  - now apply (H2 _ Hin).
Qed.


Lemma reference_solve_tolerant : solver_tolerant 0 0 reference_solve.
Proof.
  apply solver_sound_tolerant;
    [apply Qle_refl|apply Qle_refl|exact reference_solve_sound].
Qed.

(* ================================================================== *)
(** * [optimize_squad] *)

Section Squad_properties.

Variable solve : LpProblem -> Z * Assignment.

(** A 'success' result is the squad built from the labels the solver set
    to 1, and the solve ended with status 1. *)
Lemma optimize_squad_success (df : DataFrame) (budget : Q) (s : Squad) :
  optimize_squad solve df budget = Return (Success s) ->
  exists v, solve (problem df budget) = (LpStatusOptimal, v)
            /\ selected_ids solve df budget = Some (selected df v)
            /\ build_squad df (selected df v) = Return (Success s).
Proof.
  unfold optimize_squad, selected_ids.
  destruct (solve (problem df budget)) as [st v] eqn:E.
  destruct (Z.eqb_spec st 1) as [->|_]; simpl.
  - intros H. now exists v.
  - discriminate.
Qed.

Lemma selected_ids_inv (df : DataFrame) (budget : Q) (ids : list Z) :
  selected_ids solve df budget = Some ids ->
  exists v, solve (problem df budget) = (LpStatusOptimal, v)
            /\ ids = selected df v.
Proof.
  unfold selected_ids. destruct (solve (problem df budget)) as [st v].
  destruct (Z.eqb_spec st 1) as [->|_]; simpl; [|discriminate].
  intros [= <-]. now exists v.
Qed.

Lemma optimize_squad_status (df : DataFrame) (budget : Q) :
  fst (solve (problem df budget)) <> LpStatusOptimal ->
  optimize_squad solve df budget = Return (Failed "No optimal solution found").
Proof.
  unfold optimize_squad, selected_ids.
  destruct (solve (problem df budget)) as [st v]. simpl. intros H.
  destruct (Z.eqb_spec st 1) as [->|_]; [now elim H|reflexivity].
Qed.

Lemma all_players_info (df : DataFrame) (ids : list Z) (s : Squad) :
  build_squad df ids = Return (Success s) ->
  forall p, In p (all_players s) ->
  exists i, In i ids /\ p = player_info df i.
Proof.
  intros Hb p Hp. destruct (build_squad_inv _ _ _ Hb) as (Hg & Hd & Hm & Hf & _).
  unfold all_players in Hp. rewrite Hg, Hd, Hm, Hf in Hp.
  assert (Hin : forall pos, In p (by_position df pos ids) ->
                            exists i, In i ids /\ p = player_info df i).
  { intros pos H. unfold by_position in H. apply in_map_iff in H.
    destruct H as (i & <- & Hi). apply filter_In in Hi. exists i. tauto. }
  repeat (apply in_app_or in Hp; destruct Hp as [Hp|Hp]);
    try (apply (Permutation_in _ (sort_desc_perm _ _)) in Hp); eauto.
Qed.

Hypothesis solve_sound : solver_sound solve.


Lemma infeasible_status (df : DataFrame) (budget : Q) :
  (forall v, ~ lp_feasible (problem df budget) v) ->
  fst (solve (problem df budget)) <> LpStatusOptimal.
Proof.
  intros Hinf Hst.
  destruct (solve (problem df budget)) as [st v] eqn:E. simpl in Hst. subst st.
  destruct (solve_sound _ _ E) as [Hf _]. now apply (Hinf v).
Qed.

Lemma selected_ids_perm (df : DataFrame) (budget : Q) (ids : list Z) (s : Squad) :
  selected_ids solve df budget = Some ids ->
  build_squad df ids = Return (Success s) ->
  Permutation (all_players s) (map (player_info df) ids).
Proof.
  intros Hsel Hb. destruct (selected_ids_inv _ _ _ Hsel) as (v & E & ->).
  destruct (solve_sound _ _ E) as [Hf _].
  apply (all_players_perm _ _ _ Hb). now apply (selected_positions df budget).
Qed.



(** C6 (as amended): the captain is a squad member of greatest predicted
    points; among members tied for the greatest value it is the first one in
    the order goalkeepers, defenders, midfielders, forwards of the result. *)
Theorem captain_first_greatest (df : DataFrame) (budget : Q) (s : Squad) :
  optimize_squad solve df budget = Return (Success s) ->
  exists l1 c l2,
    all_players s = (l1 ++ c :: l2)%list
    /\ captain s = name c
    /\ captain_points s = predicted_points c
    /\ (forall x, In x l1 -> (predicted_points x < predicted_points c)%Q)
    /\ (forall x, In x l2 -> (predicted_points x <= predicted_points c)%Q).
Proof.
  intros H. destruct (optimize_squad_success _ _ _ H) as (v & _ & _ & Hb).
  destruct (build_squad_inv _ _ _ Hb)
    as (_ & _ & _ & _ & _ & _ & c & Hmax & Hc & Hcp & _).
  destruct (max_by_first _ _ _ Hmax) as (l1 & l2 & Heq & H1 & H2).
  exists l1, c, l2. auto.
Qed.


End Squad_properties.

(** ** [optimize_squad] over a tolerant solver *)

Section Tolerant_basics.

Variable solve : LpProblem -> Z * Assignment.
Variables tol gap : Q.
Hypothesis tol_small : (tol < 1)%Q.
Hypothesis solve_tolerant : solver_tolerant tol gap solve.

(** What status 1 brings: a valuation that meets every counting row and the
    team caps, the budget within [tol], and whose score is within [gap] of
    every feasible one. *)
Lemma tolerant_answer (df : DataFrame) (budget : Q) (v : Assignment) :
  solve (problem df budget) = (LpStatusOptimal, v) ->
  lp_feasible_within tol (problem df budget) v
  /\ lp_feasible (problem df (budget + tol)) v
  /\ forall v', lp_feasible (problem df budget) v' ->
       (squad_score df (selected df v')
        <= squad_score df (selected df v) + gap)%Q.
Proof.
  intros E. destruct (solve_tolerant _ _ E) as [Hw Hopt].
  split; [exact Hw|]. split; [now apply lp_feasible_within_budget|].
  intros v' Hv'. rewrite <- !(objective_score df budget). now apply Hopt.
Qed.

Lemma tolerant_build (df : DataFrame) (budget : Q) (v : Assignment) :
  solve (problem df budget) = (LpStatusOptimal, v) ->
  exists s, build_squad df (selected df v) = Return (Success s).
Proof.
  intros E. destruct (tolerant_answer df budget v E) as (_ & Hf & _).
  apply build_squad_returns.
  - now apply (selected_positions df (budget + tol)).
  - apply lp_feasible_iff in Hf. destruct Hf as (_ & Hn & _).
    intros E0. now rewrite E0 in Hn.
Qed.

(** [optimize_squad] never raises. *)
Lemma tolerant_returns (df : DataFrame) (budget : Q) :
  exists r, optimize_squad solve df budget = Return r.
Proof.
  unfold optimize_squad, selected_ids.
  destruct (solve (problem df budget)) as [st v] eqn:E.
  destruct (Z.eqb_spec st 1) as [->|_]; simpl; [|eauto].
  destruct (tolerant_build df budget v E) as (s & ->). eauto.
Qed.

(** A 'success' result comes from such a valuation. *)
Lemma tolerant_feasible (df : DataFrame) (budget : Q) (s : Squad) :
  optimize_squad solve df budget = Return (Success s) ->
  exists v, selected_ids solve df budget = Some (selected df v)
            /\ build_squad df (selected df v) = Return (Success s)
            /\ lp_feasible (problem df (budget + tol)) v
            /\ forall v', lp_feasible (problem df budget) v' ->
                 (squad_score df (selected df v')
                  <= squad_score df (selected df v) + gap)%Q.
Proof.
  intros H. destruct (optimize_squad_success solve _ _ _ H) as (v & E & Hsel & Hb).
  destruct (tolerant_answer df budget v E) as (_ & Hf & Hopt).
  now exists v.
Qed.

(** Without a selection that meets the counting rows, the team caps and the
    budget raised by [tol], the status is not 1. *)
Lemma tolerant_status (df : DataFrame) (budget : Q) :
  (forall v, ~ lp_feasible (problem df (budget + tol)) v) ->
  fst (solve (problem df budget)) <> LpStatusOptimal.
Proof.
  intros Hinf Hst.
  destruct (solve (problem df budget)) as [st v] eqn:E. simpl in Hst. subst st.
  destruct (tolerant_answer df budget v E) as (_ & Hf & _). now apply (Hinf v).
Qed.

Lemma tolerant_selected (df : DataFrame) (budget : Q) (ids : list Z) :
  selected_ids solve df budget = Some ids ->
  exists v, ids = selected df v
            /\ lp_feasible (problem df (budget + tol)) v
            /\ forall v', lp_feasible (problem df budget) v' ->
                 (squad_score df (selected df v')
                  <= squad_score df (selected df v) + gap)%Q.
Proof.
  intros Hsel. destruct (selected_ids_inv solve _ _ _ Hsel) as (v & E & ->).
  destruct (tolerant_answer df budget v E) as (_ & Hf & Hopt).
  now exists v.
Qed.

(** The loop of [optimize_multiple_squads] never raises. *)
Lemma tolerant_loop_returns (players_df : DataFrame) (budget : Q) (n i : nat)
    (excl : list Z) (squads : list SquadOption) :
  exists out,
    squads_loop solve players_df budget n i excl squads = Return out
    /\ (List.length out <= List.length squads + n)%nat.
Proof.
  revert i excl squads; induction n as [|n IH]; intros i excl squads; simpl.
  - exists squads. split; [reflexivity|lia].
  - destruct (_ <? 15)%nat; [exists squads; split; [reflexivity|lia]|].
    destruct (tolerant_returns (drop_excluded players_df excl) budget)
      as ([m|s] & ->).
    + exists squads. split; [reflexivity|lia].
    + destruct (IH (S i) (mark_used (drop_excluded players_df excl)
                            (all_players s) excl)
                   (squads ++ [squad_option i s])%list) as (out & -> & Hlen).
      exists out. split; [reflexivity|].
      rewrite last_length in Hlen. lia.
Qed.

End Tolerant_basics.

(* ================================================================== *)
(** * [optimize_multiple_squads] *)

Lemma mark_used_spec (df : DataFrame) (ps : list PlayerInfo) (excl : list Z)
    (x : Z) :
  In x (mark_used df ps excl) <->
  In x excl \/ exists p, In p ps /\ In x (index_of_name df (name p)).
Proof.
  unfold mark_used. revert excl; induction ps as [|q ps IH]; intros excl; simpl.
  - split; [auto|]. intros [H|(p & [] & _)]. exact H.
  - rewrite IH, in_app_iff. split.
    + intros [[H|H]|(p & Hp & H)]; eauto.
    + intros [H|(p & [<-|Hp] & H)]; eauto.
Qed.

Lemma index_of_name_In (df : DataFrame) (n : string) (x : Z) :
  In x (index_of_name df n) <->
  exists r, In r (rows df) /\ r_index r = x /\ r_name r = n.
Proof.
  unfold index_of_name. rewrite in_map_iff. split.
  - intros (r & Hx & Hr). apply filter_In in Hr. destruct Hr as [Hr Hn].
    apply String.eqb_eq in Hn. now exists r.
  - intros (r & Hr & Hx & Hn). exists r. split; [exact Hx|].
    apply filter_In. split; [exact Hr|]. now apply String.eqb_eq.
Qed.

Lemma drop_excluded_index (df : DataFrame) (excl : list Z) (x : Z) :
  In x (index (drop_excluded df excl)) <-> In x (index df) /\ ~ In x excl.
Proof.
  unfold index, drop_excluded. cbn [rows]. rewrite !in_map_iff. split.
  - intros (r & <- & Hr). apply filter_In in Hr. destruct Hr as [Hr Hn].
    apply negb_true_iff, not_true_iff_false in Hn. rewrite isin_In in Hn.
    split; [now exists r|exact Hn].
  - intros [(r & <- & Hr) Hn]. exists r. split; [reflexivity|].
    apply filter_In. split; [exact Hr|].
    apply negb_true_iff, not_true_iff_false. now rewrite isin_In.
Qed.

(** Every label selected in a round is marked as used afterwards. *)
Lemma mark_used_selected (df : DataFrame) (ids : list Z) (s : Squad)
    (excl : list Z) :
  build_squad df ids = Return (Success s) ->
  (forall i, In i ids -> other_position (positions df) i = false) ->
  incl ids (index df) ->
  incl ids (mark_used df (all_players s) excl).
Proof.
  intros Hb Hpos Hincl x Hx. apply mark_used_spec. right.
  exists (player_info df x). split.
  - apply (Permutation_in _ (Permutation_sym (all_players_perm _ _ _ Hb Hpos))).
    now apply in_map.
  - cbn [name player_info]. apply index_of_name_In.
    destruct (getitem_to_dict "" r_name df x (Hincl x Hx)) as (r & Hr & Hi & Hn).
    exists r. unfold names. now rewrite Hn.
Qed.

Section Multiple_squads.

Variable solve : LpProblem -> Z * Assignment.
Variable players_df : DataFrame.
Variable budget : Q.

(** The returned list extends the accumulator by one option per entry of the
    ghost log, numbered from [i + 1] on. *)
Lemma squads_loop_log (n i : nat) (excl : list Z) (squads out : list SquadOption) :
  squads_loop solve players_df budget n i excl squads = Return out ->
  exists more,
    out = (squads ++ more)%list
    /\ map squad_number more = seq (i + 1) (List.length more)
    /\ Forall2 (fun opt e =>
                  selected_ids solve (fst e) budget = Some (snd e)
                  /\ build_squad (fst e) (snd e)
                     = Return (Success (option_squad opt)))
               more (rounds_log solve players_df budget n excl).
Proof.
  revert i excl squads; induction n as [|n IH]; intros i excl squads; simpl.
  - intros [= <-]. exists []. rewrite app_nil_r. repeat split. constructor.
  - destruct (_ <? 15)%nat.
    { intros [= <-]. exists []. rewrite app_nil_r. repeat split. constructor. }
    unfold optimize_squad.
    destruct (selected_ids solve (drop_excluded players_df excl) budget)
      as [ids|] eqn:Hsel.
    2:{ intros [= <-]. exists []. rewrite app_nil_r. repeat split. constructor. }
    destruct (build_squad (drop_excluded players_df excl) ids)
      as [[m|s]|e] eqn:Hb.
    + intros [= <-]. exists []. rewrite app_nil_r. repeat split. constructor.
    + intros H. destruct (IH _ _ _ H) as (more & -> & Hnum & Hall).
      exists (squad_option i s :: more). split; [now rewrite <- app_assoc|].
      split.
      * cbn [map List.length seq squad_number squad_option]. f_equal.
        rewrite Hnum. reflexivity.
      * constructor; [|exact Hall]. now split.
    + discriminate.
Qed.

Lemma squads_loop_stops (n i : nat) (excl : list Z) (squads : list SquadOption) :
  (List.length (rows (drop_excluded players_df excl)) < 15)%nat
  \/ (exists m, optimize_squad solve (drop_excluded players_df excl) budget
                = Return (Failed m)) ->
  squads_loop solve players_df budget (S n) i excl squads = Return squads.
Proof.
  intros H. cbn [squads_loop]. destruct (Nat.ltb_spec
    (List.length (rows (drop_excluded players_df excl))) 15) as [Hlt|Hge].
  - reflexivity.
  - destruct H as [H|(m & ->)]; [lia|reflexivity].
Qed.

Hypothesis solve_sound : solver_sound solve.

(** Labels selected by logged rounds are labels of the pool that were not
    excluded when the log started. *)
Lemma rounds_log_fresh (n : nat) (excl : list Z) :
  Forall (fun e => forall x, In x (snd e) ->
                     In x (index players_df) /\ ~ In x excl)
         (rounds_log solve players_df budget n excl).
Proof.
  revert excl; induction n as [|n IH]; intros excl; simpl; [constructor|].
  destruct (_ <? 15)%nat; [constructor|].
  unfold selected_ids.
  destruct (solve (problem (drop_excluded players_df excl) budget))
    as [st v] eqn:E.
  destruct (negb (st =? 1)); [constructor|].
  destruct (build_squad _ _) as [[m|s]|e] eqn:Hb; try constructor.
  - cbn [snd]. intros x Hx. apply drop_excluded_index.
    now apply (selected_incl (drop_excluded players_df excl) v).
  - eapply Forall_impl; [|apply IH]. cbn beta. intros e H x Hx.
    destruct (H x Hx) as [H1 H2]. split; [exact H1|].
    intros Hin. apply H2. apply mark_used_spec. now left.
Qed.


(** After a round, the labels marked as used are those of every row of the
    round's frame whose display name is that of a selected candidate, whether
    or not the row itself was selected. *)
Lemma used_labels_by_name (df : DataFrame) (excl ids : list Z) (s : Squad) :
  selected_ids solve df budget = Some ids ->
  build_squad df ids = Return (Success s) ->
  forall y, In y (mark_used df (all_players s) excl) <->
    In y excl
    \/ exists x r, In x ids /\ In r (rows df) /\ r_index r = y
                   /\ r_name r = getitem "" (names df) x.
Proof.
  intros Hsel Hb y. pose proof (selected_ids_perm solve solve_sound _ _ _ _ Hsel Hb)
    as Hperm.
  rewrite mark_used_spec. split; (intros [H|H]; [now left|right]).
  - destruct H as (p & Hp & Hy).
    apply (Permutation_in _ Hperm) in Hp. apply in_map_iff in Hp.
    destruct Hp as (x & <- & Hx). apply index_of_name_In in Hy.
    destruct Hy as (r & Hr & Hi & Hn). now exists x, r.
  - destruct H as (x & r & Hx & Hr & Hi & Hn).
    exists (player_info df x). split.
    + apply (Permutation_in _ (Permutation_sym Hperm)). now apply in_map.
    + apply index_of_name_In. now exists r.
Qed.


End Multiple_squads.

(* ================================================================== *)
(** * Frames on which only the quotas bind *)

Lemma expr_value_bound (v : Assignment) (e : LpAffineExpression) :
  forallb (fun t => Qle_bool 0 (fst t)) e = true ->
  (expr_value v e <= fold_right Qplus 0 (map fst e))%Q.
Proof.
  induction e as [|[c i] e IH]; simpl; intros H.
  - apply Qle_refl.
  - apply andb_true_iff in H. destruct H as [Hc He].
    apply Qle_bool_iff in Hc. simpl in Hc.
    apply Qplus_le_compat; [|now apply IH].
    unfold term_value. simpl. destruct (v i); [apply Qle_refl|exact Hc].
Qed.

Lemma always_satisfiedb_spec (c : LpConstraint) (v : Assignment) :
  always_satisfiedb c = true -> satisfies v c.
Proof.
  unfold always_satisfiedb, satisfies.
  destruct (c_sense c); [|discriminate].
  intros H. apply andb_true_iff in H. destruct H as [Hpos Hsum].
  apply Qle_bool_iff in Hsum.
  eapply Qle_trans; [now apply expr_value_bound|exact Hsum].
Qed.

Lemma isin_cons (x : Z) (l : list Z) (y : Z) :
  isin (x :: l) y = (y =? x) || isin l y.
Proof. reflexivity. Qed.

Lemma isin_false (l : list Z) (y : Z) : ~ In y l -> isin l y = false.
Proof. intros H. apply not_true_iff_false. now rewrite isin_In. Qed.

Lemma swap_other (v : Assignment) (i j x : Z) :
  x <> i -> x <> j -> swap v i j x = v x.
Proof.
  intros Hi Hj. unfold swap.
  destruct (Z.eqb_spec x i); [contradiction|].
  destruct (Z.eqb_spec x j); [contradiction|reflexivity].
Qed.

Lemma swap_on (v : Assignment) (i j : Z) : swap v i j i = true.
Proof. unfold swap. now rewrite Z.eqb_refl. Qed.

Lemma swap_off (v : Assignment) (i j : Z) : i <> j -> swap v i j j = false.
Proof.
  intros H. unfold swap. destruct (Z.eqb_spec j i); [congruence|].
  now rewrite Z.eqb_refl.
Qed.

Section Swap.

Variable v : Assignment.
Variables i j : Z.
Hypothesis i_off : v i = false.
Hypothesis j_on : v j = true.

Lemma swap_distinct : i <> j.
Proof. intros ->. congruence. Qed.

Lemma filter_swap_length (l : list Z) :
  NoDup l ->
  (List.length (filter (swap v i j) l) + (if isin l j then 1 else 0)
   = List.length (filter v l) + (if isin l i then 1 else 0))%nat.
Proof.
  pose proof swap_distinct as Hij.
  induction l as [|x l IH]; intros Hnd; [reflexivity|].
  inversion Hnd as [|? ? Hx Hl]; subst. specialize (IH Hl).
  cbn [filter]. rewrite !isin_cons.
  destruct (Z.eq_dec x i) as [->|Hxi].
  - rewrite swap_on, i_off, Z.eqb_refl, (isin_false l i Hx) in *.
    destruct (Z.eqb_spec j i); [congruence|]. simpl in *. lia.
  - destruct (Z.eq_dec x j) as [->|Hxj].
    + rewrite (swap_off v i j Hij), j_on, Z.eqb_refl, (isin_false l j Hx) in *.
      destruct (Z.eqb_spec i j); [congruence|]. simpl in *. lia.
    + rewrite (swap_other v i j x Hxi Hxj).
      destruct (Z.eqb_spec j x); [congruence|].
      destruct (Z.eqb_spec i x); [congruence|]. simpl.
      destruct (v x); simpl; lia.
Qed.

Lemma sum_swap (f : Z -> Q) (l : list Z) :
  NoDup l ->
  (sum (map f (filter (swap v i j) l)) + (if isin l j then f j else 0)
   == sum (map f (filter v l)) + (if isin l i then f i else 0))%Q.
Proof.
  pose proof swap_distinct as Hij.
  induction l as [|x l IH]; intros Hnd; [reflexivity|].
  inversion Hnd as [|? ? Hx Hl]; subst. specialize (IH Hl).
  cbn [filter]. rewrite !isin_cons.
  destruct (Z.eq_dec x i) as [->|Hxi].
  - rewrite swap_on, i_off, Z.eqb_refl. rewrite (isin_false l i Hx) in IH.
    destruct (Z.eqb_spec j i); [congruence|]. cbn [orb map].
    pose proof (sum_cons (f i) (map f (filter (swap v i j) l))). lra.
  - destruct (Z.eq_dec x j) as [->|Hxj].
    + rewrite (swap_off v i j Hij), j_on, Z.eqb_refl.
      rewrite (isin_false l j Hx) in IH.
      destruct (Z.eqb_spec i j); [congruence|]. cbn [orb map].
      pose proof (sum_cons (f j) (map f (filter v l))). lra.
    + rewrite (swap_other v i j x Hxi Hxj).
      destruct (Z.eqb_spec j x); [congruence|].
      destruct (Z.eqb_spec i x); [congruence|]. cbn [orb].
      destruct (v x); cbn [map]; [|exact IH].
      pose proof (sum_cons (f x) (map f (filter (swap v i j) l))).
      pose proof (sum_cons (f x) (map f (filter v l))). lra.
Qed.

End Swap.

Lemma list_Z_eqb_eq (a b : list Z) : list_Z_eqb a b = true -> a = b.
Proof.
  revert b; induction a as [|x a IH]; intros [|y b]; simpl; try discriminate.
  - reflexivity.
  - intros H. apply andb_true_iff in H. destruct H as [Hx Hab].
    apply Z.eqb_eq in Hx. subst y. f_equal. now apply IH.
Qed.

Lemma NoDup_by_nodup (l : list Z) : nodup Z.eq_dec l = l -> NoDup l.
Proof. intros <-. apply NoDup_nodup. Qed.

Lemma top_of_spec (df : DataFrame) (pos : string) (k : nat) (top : list Z) :
  top_of df pos k top = true ->
  List.length top = k
  /\ NoDup top
  /\ incl top (filter (has_position (positions df) pos) (player_ids df))
  /\ forall i j, In i top ->
       In j (filter (has_position (positions df) pos) (player_ids df)) ->
       ~ In j top -> (points df j < points df i)%Q.
Proof.
  unfold top_of. rewrite !andb_true_iff. intros [[[Hk Hnd] Hin] Hdom].
  apply Nat.eqb_eq in Hk. apply list_Z_eqb_eq, NoDup_by_nodup in Hnd.
  rewrite forallb_forall in Hin, Hdom.
  split; [exact Hk|]. split; [exact Hnd|]. split.
  - intros x Hx. now apply isin_In, Hin.
  - intros i j Hi Hj Hout. specialize (Hdom i Hi).
    rewrite forallb_forall in Hdom. specialize (Hdom j Hj).
    apply orb_true_iff in Hdom. destruct Hdom as [H|H].
    + apply isin_In in H. contradiction.
    + now apply Qgtb_true.
Qed.

Section Slack.

Variable solve : LpProblem -> Z * Assignment.
Variable df : DataFrame.
Variable budget : Q.
Variables gk def mid fwd : list Z.

Hypothesis solve_sound : solver_sound solve.
Hypothesis solve_complete : solver_complete solve.
Hypothesis certificate : slack_optimum df budget gk def mid fwd = true.

Lemma slack_parts :
  NoDup (player_ids df)
  /\ lp_feasible (problem df budget) (isin (gk ++ def ++ mid ++ fwd)%list)
  /\ (forall v, (squad_price df (selected df v) <= budget)%Q)
  /\ (forall v, Forall (satisfies v) (team_constraints df))
  /\ top_of df "GK" 2 gk = true /\ top_of df "DEF" 5 def = true
  /\ top_of df "MID" 5 mid = true /\ top_of df "FWD" 3 fwd = true.
Proof.
  pose proof certificate as H. unfold slack_optimum in H.
  rewrite !andb_true_iff in H.
  destruct H as [[[[[[[Hnd Hfe] Hbud] Hteam] Hg] Hd] Hm] Hf].
  split; [now apply NoDup_by_nodup, list_Z_eqb_eq|].
  split; [now apply lp_feasibleb_iff|]. split.
  { intros v. pose proof (always_satisfiedb_spec _ v Hbud) as Hs.
    unfold satisfies in Hs. cbn [c_sense c_expr c_rhs] in Hs.
    now rewrite expr_value_lpSum in Hs. }
  split.
  { intros v. rewrite forallb_forall in Hteam. apply Forall_forall.
    intros c Hc. now apply always_satisfiedb_spec, Hteam. }
  auto.
Qed.

Lemma slack_feasible_iff (v : Assignment) :
  lp_feasible (problem df budget) v <->
  List.length (selected df v) = 15%nat
  /\ forall pos k, In (pos, k) [("GK", 2); ("DEF", 5); ("MID", 5); ("FWD", 3)]%nat ->
       count_position df pos (selected df v) = k.
Proof.
  destruct slack_parts as (_ & _ & Hbud & Hteam & _).
  rewrite lp_feasible_iff. split.
  - intros (_ & Hn & Hg & Hd & Hm & Hf & _). split; [exact Hn|].
    intros pos k [[= <- <-]|[[= <- <-]|[[= <- <-]|[[= <- <-]|[]]]]]; assumption.
  - intros [Hn Hq]. split; [apply Hbud|]. split; [exact Hn|].
    repeat (split; [apply Hq; simpl; tauto|]). apply Hteam.
Qed.

Lemma isin_filter (f : Z -> bool) (l : list Z) (x : Z) :
  isin (filter f l) x = isin l x && f x.
Proof.
  apply eq_true_iff_eq. rewrite andb_true_iff, !isin_In, filter_In. tauto.
Qed.

(** Switching two labels of one position keeps a valuation feasible. *)
Lemma swap_feasible (v : Assignment) (i j : Z) :
  lp_feasible (problem df budget) v ->
  In i (player_ids df) -> In j (player_ids df) ->
  getitem "" (positions df) i = getitem "" (positions df) j ->
  v i = false -> v j = true ->
  lp_feasible (problem df budget) (swap v i j).
Proof.
  destruct slack_parts as (Hnd & _).
  rewrite !slack_feasible_iff. intros [Hn Hq] Hi Hj Hpos Hvi Hvj.
  apply isin_In in Hi, Hj. split.
  - pose proof (filter_swap_length v i j Hvi Hvj _ Hnd) as H.
    rewrite Hi, Hj in H. unfold selected in *. lia.
  - intros pos k Hk. specialize (Hq pos k Hk).
    unfold count_position, selected in *. rewrite filter_comm in Hq |- *.
    pose proof (filter_swap_length v i j Hvi Hvj
                  (filter (has_position (positions df) pos) (player_ids df))
                  (NoDup_filter _ Hnd)) as H.
    rewrite !isin_filter, Hi, Hj in H. unfold has_position in H at 2 4.
    rewrite Hpos in H.
    destruct (String.eqb (getitem "" (positions df) j) pos); simpl in H; lia.
Qed.

Lemma swap_score (v : Assignment) (i j : Z) :
  In i (player_ids df) -> In j (player_ids df) ->
  v i = false -> v j = true ->
  (squad_score df (selected df (swap v i j)) + points df j
   == squad_score df (selected df v) + points df i)%Q.
Proof.
  destruct slack_parts as (Hnd & _). intros Hi Hj Hvi Hvj.
  apply isin_In in Hi, Hj.
  pose proof (sum_swap v i j Hvi Hvj (points df) _ Hnd) as H.
  rewrite Hi, Hj in H. exact H.
Qed.

(** In an optimal valuation the selected labels of a position are its
    certified top labels. *)
Lemma top_selected (pos : string) (k : nat) (top : list Z) (v : Assignment) :
  In (pos, k) [("GK", 2); ("DEF", 5); ("MID", 5); ("FWD", 3)]%nat ->
  top_of df pos k top = true ->
  lp_feasible (problem df budget) v ->
  (forall v', lp_feasible (problem df budget) v' ->
     (squad_score df (selected df v') <= squad_score df (selected df v))%Q) ->
  forall x, In x (filter (has_position (positions df) pos) (player_ids df)) ->
            v x = isin top x.
Proof.
  intros Hk Htop Hf Hopt.
  destruct slack_parts as (Hnd & _).
  destruct (top_of_spec _ _ _ _ Htop) as (Hlen & Hndt & Hincl & Hdom).
  set (ids := filter (has_position (positions df) pos) (player_ids df)) in *.
  set (S := filter v ids).
  assert (HS : List.length S = k).
  { pose proof (proj1 (slack_feasible_iff v) Hf) as [_ Hq].
    specialize (Hq pos k Hk). unfold count_position, selected in Hq.
    now rewrite filter_comm in Hq. }
  assert (HndS : NoDup S) by (apply NoDup_filter; now apply NoDup_filter).
  assert (Hpos_of : forall y, In y ids ->
            In y (player_ids df) /\ getitem "" (positions df) y = pos).
  { intros y Hy. apply filter_In in Hy. destruct Hy as [Hy Hp].
    apply String.eqb_eq in Hp. auto. }
  assert (Hsub : incl top S).
  { intros i Hi. apply filter_In. split; [now apply Hincl|].
    destruct (v i) eqn:Hvi; [reflexivity|exfalso].
    destruct (filter (fun y => negb (isin top y)) S) as [|j R] eqn:ER.
    - assert (HST : incl (i :: S) top).
      { intros y [<-|Hy]; [exact Hi|].
        pose proof (proj1 (filter_nil_iff _ _) ER y Hy) as Hy'.
        apply negb_false_iff in Hy'. now apply isin_In. }
      assert (Hnd' : NoDup (i :: S)).
      { constructor; [|exact HndS]. intros Hin. apply filter_In in Hin.
        destruct Hin as [_ Hin]. congruence. }
      pose proof (NoDup_incl_length Hnd' HST) as Hle. simpl in Hle. lia.
    - assert (Hj : In j (filter (fun y => negb (isin top y)) S))
        by (rewrite ER; now left).
      apply filter_In in Hj. destruct Hj as [HjS Hjt].
      apply negb_true_iff in Hjt.
      apply filter_In in HjS. destruct HjS as [Hjids Hvj].
      assert (Hlt : (points df j < points df i)%Q).
      { apply Hdom; [exact Hi|exact Hjids|].
        intros Hin. apply isin_In in Hin. congruence. }
      destruct (Hpos_of i (Hincl i Hi)) as [Hii Hpi].
      destruct (Hpos_of j Hjids) as [Hji Hpj].
      pose proof (swap_feasible v i j Hf Hii Hji (eq_trans Hpi (eq_sym Hpj))
                    Hvi Hvj) as Hf'.
      pose proof (Hopt _ Hf') as Hle.
      pose proof (swap_score v i j Hii Hji Hvi Hvj) as Hsc. lra. }
  assert (Hsup : incl S top).
  { apply NoDup_length_incl; [exact Hndt|lia|exact Hsub]. }
  intros x Hx. destruct (v x) eqn:Hvx.
  - symmetry. apply isin_In, Hsup, filter_In. auto.
  - symmetry. apply isin_false. intros Hin. apply Hsub, filter_In in Hin.
    destruct Hin as [_ Hin]. congruence.
Qed.

Lemma top_position (pos : string) (k : nat) (top : list Z) (x : Z) :
  top_of df pos k top = true -> In x top ->
  getitem "" (positions df) x = pos.
Proof.
  intros Htop Hx. destruct (top_of_spec _ _ _ _ Htop) as (_ & _ & Hincl & _).
  apply Hincl, filter_In in Hx. destruct Hx as [_ Hx].
  now apply String.eqb_eq in Hx.
Qed.

Lemma isin_app (l1 l2 : list Z) (x : Z) : isin (l1 ++ l2) x = isin l1 x || isin l2 x.
Proof. unfold isin. apply existsb_app. Qed.

(** On a frame certified by [slack_optimum], every exact solver makes
    [optimize_squad] select the certified labels. *)
Lemma slack_optimum_selected :
  selected_ids solve df budget
  = Some (filter (isin (gk ++ def ++ mid ++ fwd)%list) (player_ids df)).
Proof.
  destruct slack_parts as (Hnd & Hfe & _ & _ & Hg & Hd & Hm & Hf).
  pose proof (solve_complete _ (ex_intro _ _ Hfe)) as Hst.
  unfold selected_ids.
  destruct (solve (problem df budget)) as [st v] eqn:E. simpl in Hst. subst st.
  simpl. f_equal. destruct (solve_sound _ _ E) as [Hv Hopt].
  assert (Hopt' : forall v', lp_feasible (problem df budget) v' ->
            (squad_score df (selected df v') <= squad_score df (selected df v))%Q).
  { intros v' Hv'. rewrite <- !(objective_score df budget). now apply Hopt. }
  unfold selected. apply filter_ext_in. intros x Hx.
  rewrite !isin_app.
  assert (Hout : forall pos k top, top_of df pos k top = true ->
            getitem "" (positions df) x <> pos -> isin top x = false).
  { intros pos k top Htop Hne. apply isin_false. intros Hin.
    apply Hne. now apply (top_position pos k top). }
  assert (Hin : forall pos k top,
            In (pos, k) [("GK", 2); ("DEF", 5); ("MID", 5); ("FWD", 3)]%nat ->
            top_of df pos k top = true ->
            getitem "" (positions df) x = pos -> v x = isin top x).
  { intros pos k top Hk Htop Hp. apply (top_selected pos k top v Hk Htop Hv Hopt').
    apply filter_In. split; [exact Hx|]. now apply String.eqb_eq. }
  destruct (string_dec (getitem "" (positions df) x) "GK") as [Ep|Ng].
  { rewrite (Hin "GK" 2%nat gk), (Hout "DEF" 5%nat def), (Hout "MID" 5%nat mid),
      (Hout "FWD" 3%nat fwd)
      by first [assumption | simpl; tauto | rewrite Ep; discriminate].
    now rewrite !orb_false_r. }
  destruct (string_dec (getitem "" (positions df) x) "DEF") as [Ep|Nd].
  { rewrite (Hout "GK" 2%nat gk), (Hin "DEF" 5%nat def), (Hout "MID" 5%nat mid),
      (Hout "FWD" 3%nat fwd)
      by first [assumption | simpl; tauto | rewrite Ep; discriminate].
    now rewrite !orb_false_r. }
  destruct (string_dec (getitem "" (positions df) x) "MID") as [Ep|Nm].
  { rewrite (Hout "GK" 2%nat gk), (Hout "DEF" 5%nat def), (Hin "MID" 5%nat mid),
      (Hout "FWD" 3%nat fwd)
      by first [assumption | simpl; tauto | rewrite Ep; discriminate].
    now rewrite !orb_false_r. }
  destruct (string_dec (getitem "" (positions df) x) "FWD") as [Ep|Nf].
  { rewrite (Hout "GK" 2%nat gk), (Hout "DEF" 5%nat def), (Hout "MID" 5%nat mid),
      (Hin "FWD" 3%nat fwd)
      by first [assumption | simpl; tauto | rewrite Ep; discriminate].
    reflexivity. }
  rewrite (Hout "GK" 2%nat gk), (Hout "DEF" 5%nat def), (Hout "MID" 5%nat mid),
    (Hout "FWD" 3%nat fwd) by assumption.
  simpl. destruct (v x) eqn:Hvx; [|reflexivity].
  assert (Hsel : In x (selected df v)) by (apply filter_In; auto).
  pose proof (selected_positions df budget v Hv x Hsel) as Ho.
  unfold other_position, has_position in Ho.
  apply negb_false_iff in Ho. rewrite !orb_true_iff, !String.eqb_eq in Ho.
  tauto.
Qed.

End Slack.

(* ================================================================== *)
(** * The optimiser on concrete frames *)

Lemma infeasible_by_search_spec (df : DataFrame) (budget : Q) :
  infeasible_by_search df budget = true ->
  forall v, ~ lp_feasible (problem df budget) v.
Proof.
  unfold infeasible_by_search. intros H v Hv.
  assert (Hin : In (filter v (problem_vars (problem df budget)))
                   (feasible_selections (problem df budget))).
  { apply feasible_selections_In. split.
    - apply sublists_filter.
    - now apply trace_feasible. }
  destruct (feasible_selections (problem df budget)); [destruct Hin|discriminate].
Qed.

Lemma incl_by_isin (sq l : list Z) :
  forallb (isin l) sq = true -> incl sq l.
Proof.
  rewrite forallb_forall. intros H x Hx. now apply isin_In, H.
Qed.

(** The certificates. *)

Lemma pool16_certificate :
  slack_optimum pool16 100 [0; 1] [2; 3; 4; 5; 6] [7; 8; 9; 10; 11] [12; 14; 15]
  = true.
Proof. vm_compute. reflexivity. Qed.

Lemma pool15_no_team_certificate :
  slack_optimum pool15_no_team 100
    [0; 1] [2; 3; 4; 5; 6] [7; 8; 9; 10; 11] [12; 13; 14] = true.
Proof. vm_compute. reflexivity. Qed.


Lemma pool_tie_certificate :
  slack_optimum pool_tie 100
    [5; 6] [0; 1; 2; 3; 4] [7; 8; 9; 10; 11] [12; 13; 14] = true.
Proof. vm_compute. reflexivity. Qed.

Lemma pool30_certificate :
  slack_optimum pool30 100
    [0; 1] [2; 3; 4; 5; 6] [7; 8; 9; 10; 11] [12; 13; 14] = true.
Proof. vm_compute. reflexivity. Qed.

Lemma pool30_round2_certificate :
  slack_optimum pool30_round2 100
    [15; 16] [17; 18; 19; 20; 21] [22; 23; 24; 25; 26] [27; 28; 29] = true.
Proof. vm_compute. reflexivity. Qed.

Lemma pool30_namesake_certificate :
  slack_optimum pool30_namesake 100
    [0; 1] [2; 3; 4; 5; 6] [7; 8; 9; 10; 11] [12; 13; 14] = true.
Proof. vm_compute. reflexivity. Qed.

Lemma pool30_namesake_by_id_certificate :
  slack_optimum
    (drop_excluded pool30_namesake
       [0; 1; 2; 3; 4; 5; 6; 7; 8; 9; 10; 11; 12; 13; 14]) 100
    [15; 16] [17; 18; 19; 20; 21] [22; 23; 24; 25; 26] [27; 28; 29] = true.
Proof. vm_compute. reflexivity. Qed.

Lemma pool14_certificate : infeasible_by_search pool14 100 = true.
Proof. vm_cast_no_check (@eq_refl bool true). Qed.

Lemma pool15_low_budget_certificate : infeasible_by_search pool15 10 = true.
Proof. vm_cast_no_check (@eq_refl bool true). Qed.

Lemma pool15_one_team_certificate :
  infeasible_by_search pool15_one_team 100 = true.
Proof. vm_cast_no_check (@eq_refl bool true). Qed.

Section Any_exact_solver.

Variable solve : LpProblem -> Z * Assignment.
Hypothesis solve_sound : solver_sound solve.

Lemma infeasible_by_search_failed (df : DataFrame) (budget : Q) :
  infeasible_by_search df budget = true ->
  optimize_squad solve df budget = Return (Failed "No optimal solution found").
Proof.
  intros H. apply optimize_squad_status, (infeasible_status solve solve_sound).
  now apply infeasible_by_search_spec.
Qed.

Hypothesis solve_complete : solver_complete solve.

Lemma slack_result (df : DataFrame) (budget : Q) (gk def mid fwd : list Z)
    (s : Squad) :
  slack_optimum df budget gk def mid fwd = true ->
  build_squad df (filter (isin (gk ++ def ++ mid ++ fwd)%list) (player_ids df))
  = Return (Success s) ->
  optimize_squad solve df budget = Return (Success s).
Proof.
  intros Hc Hb. unfold optimize_squad.
  now rewrite (slack_optimum_selected solve df budget gk def mid fwd
                 solve_sound solve_complete Hc).
Qed.

Lemma pool16_result :
  optimize_squad solve pool16 100 = Return (Success squad16).
Proof. apply (slack_result _ _ _ _ _ _ _ pool16_certificate). reflexivity. Qed.

Lemma pool15_no_team_result :
  optimize_squad solve pool15_no_team 100 = Return (Success squad15_no_team).
Proof.
  apply (slack_result _ _ _ _ _ _ _ pool15_no_team_certificate). reflexivity.
Qed.


Lemma pool_tie_result :
  optimize_squad solve pool_tie 100 = Return (Success squad_tie).
Proof. apply (slack_result _ _ _ _ _ _ _ pool_tie_certificate). reflexivity. Qed.

Lemma pool30_result :
  optimize_squad solve pool30 100 = Return (Success squad30_a).
Proof. apply (slack_result _ _ _ _ _ _ _ pool30_certificate). reflexivity. Qed.

Lemma pool30_round2_result :
  optimize_squad solve pool30_round2 100 = Return (Success squad30_b).
Proof.
  apply (slack_result _ _ _ _ _ _ _ pool30_round2_certificate). reflexivity.
Qed.

Lemma pool30_namesake_result :
  optimize_squad solve pool30_namesake 100 = Return (Success squad30_a).
Proof.
  apply (slack_result _ _ _ _ _ _ _ pool30_namesake_certificate). reflexivity.
Qed.

Lemma pool30_namesake_by_id_result :
  optimize_squad solve
    (drop_excluded pool30_namesake
       [0; 1; 2; 3; 4; 5; 6; 7; 8; 9; 10; 11; 12; 13; 14]) 100
  = Return (Success squad30_b_namesake).
Proof.
  apply (slack_result _ _ _ _ _ _ _ pool30_namesake_by_id_certificate).
  reflexivity.
Qed.

(** Two rounds produce squads on [pool30]; the third finds no rows left. *)
Lemma pool30_multiple :
  optimize_multiple_squads solve pool30 3 100
  = Return [squad_option 0 squad30_a; squad_option 1 squad30_b].
Proof.
  unfold optimize_multiple_squads. cbn [squads_loop].
  change (drop_excluded pool30 []) with pool30.
  rewrite pool30_result.
  change (List.length (rows pool30) <? 15)%nat with false. cbv iota.
  fold pool30_round2. rewrite pool30_round2_result.
  change (List.length (rows pool30_round2) <? 15)%nat with false. cbv iota.
  reflexivity.
Qed.

(** On [pool30_namesake] round 2 finds 14 rows and the loop ends. *)
Lemma pool30_namesake_multiple :
  optimize_multiple_squads solve pool30_namesake 3 100
  = Return [squad_option 0 squad30_a].
Proof.
  unfold optimize_multiple_squads. cbn [squads_loop].
  change (drop_excluded pool30_namesake []) with pool30_namesake.
  rewrite pool30_namesake_result.
  change (List.length (rows pool30_namesake) <? 15)%nat with false. cbv iota.
  reflexivity.
Qed.

End Any_exact_solver.

Lemma pool16_feasible :
  feasible_squad pool16 100 [0; 1; 2; 3; 4; 5; 6; 7; 8; 9; 10; 11; 12; 13; 14].
Proof.
  constructor.
  - apply incl_by_isin. vm_compute. reflexivity.
  - apply NoDup_by_nodup. vm_compute. reflexivity.
  - apply meets_constraintsb_iff. vm_compute. reflexivity.
Qed.


(** ** The theorems at concrete frames *)

(** C2 (as stated) fails on a frame without a 'team' column: whatever exact
    solver is used, [pool15_no_team] gives a squad with status 'success' whose
    15 members are all reported under the one group "Unknown". *)
Lemma no_team_column_exceeds_group_cap :
  (forall solve, solver_sound solve -> solver_complete solve ->
     optimize_squad solve pool15_no_team 100
     = Return (Success squad15_no_team))
  /\ optimize_squad reference_solve pool15_no_team 100
     = Return (Success squad15_no_team)
  /\ count_team "Unknown" (all_players squad15_no_team) = 15%nat
  /\ ~ (count_team "Unknown" (all_players squad15_no_team) <= 3)%nat.
Proof.
  split; [exact pool15_no_team_result|].
  split; [exact (pool15_no_team_result reference_solve reference_solve_sound
                   reference_solve_complete)|].
  split; [reflexivity|]. vm_compute. intros H. repeat apply le_S_n in H.
  inversion H.
Qed.

(** C3 (code defect) on [pool30_namesake], whatever exact solver is used.
    Round 1 selects the labels 0..14.  Label 29 is not selected but shares the
    display name "a_f2" with label 14 and is marked as used all the same, so
    round 2 finds the 14 rows 15..28 and the loop ends with one squad.  The
    frame that excludes exactly the selected labels has the 15 rows 15..29,
    on which [optimize_squad] succeeds; and on [pool30], which differs only in
    the display name of row 29, two squads are returned. *)
Theorem namesake_excluded_unselected :
  (forall solve, solver_sound solve -> solver_complete solve ->
     selected_ids solve pool30_namesake 100
     = Some [0; 1; 2; 3; 4; 5; 6; 7; 8; 9; 10; 11; 12; 13; 14]
     /\ optimize_multiple_squads solve pool30_namesake 3 100
        = Return [squad_option 0 squad30_a]
     /\ optimize_squad solve
          (drop_excluded pool30_namesake
             [0; 1; 2; 3; 4; 5; 6; 7; 8; 9; 10; 11; 12; 13; 14]) 100
        = Return (Success squad30_b_namesake)
     /\ optimize_multiple_squads solve pool30 3 100
        = Return [squad_option 0 squad30_a; squad_option 1 squad30_b])
  /\ getitem "" (names pool30_namesake) 14 = "a_f2"
  /\ index_of_name pool30_namesake "a_f2" = [14; 29]
  /\ isin [0; 1; 2; 3; 4; 5; 6; 7; 8; 9; 10; 11; 12; 13; 14] 29 = false
  /\ mark_used pool30_namesake (all_players squad30_a) []
     = [0; 1; 2; 3; 4; 5; 6; 7; 8; 9; 10; 11; 12; 13; 14; 29]
  /\ index (drop_excluded pool30_namesake
              (mark_used pool30_namesake (all_players squad30_a) []))
     = [15; 16; 17; 18; 19; 20; 21; 22; 23; 24; 25; 26; 27; 28]
  /\ index (drop_excluded pool30_namesake
              [0; 1; 2; 3; 4; 5; 6; 7; 8; 9; 10; 11; 12; 13; 14])
     = [15; 16; 17; 18; 19; 20; 21; 22; 23; 24; 25; 26; 27; 28; 29].
Proof.
  split.
  { intros solve Hs Hc.
    split; [exact (slack_optimum_selected solve _ _ _ _ _ _ Hs Hc
                     pool30_namesake_certificate)|].
    split; [exact (pool30_namesake_multiple solve Hs Hc)|].
    split; [exact (pool30_namesake_by_id_result solve Hs Hc)|].
    exact (pool30_multiple solve Hs Hc). }
  repeat (split; [reflexivity|]). reflexivity.
Qed.



(** C6 (as stated) fails on [pool_tie], whatever exact solver is used: the
    defender of label 0 ("d0") and the goalkeeper of label 5 ("g0") are both
    selected and tie for the greatest predicted points, 9; the captain is
    "g0", not the candidate of the smaller label. *)
Lemma captain_tie_not_smallest_id :
  (forall solve, solver_sound solve -> solver_complete solve ->
     selected_ids solve pool_tie 100
     = Some [0; 1; 2; 3; 4; 5; 6; 7; 8; 9; 10; 11; 12; 13; 14]
     /\ optimize_squad solve pool_tie 100 = Return (Success squad_tie))
  /\ optimize_squad reference_solve pool_tie 100 = Return (Success squad_tie)
  /\ forallb (fun i => Qle_bool (getitem 0%Q (predicted_points_d pool_tie) i) 9)
             [0; 1; 2; 3; 4; 5; 6; 7; 8; 9; 10; 11; 12; 13; 14] = true
  /\ getitem 0%Q (predicted_points_d pool_tie) 0 = 9%Q
  /\ getitem 0%Q (predicted_points_d pool_tie) 5 = 9%Q
  /\ getitem "" (names pool_tie) 0 = "d0"
  /\ getitem "" (names pool_tie) 5 = "g0"
  /\ captain squad_tie = "g0"
  /\ captain squad_tie <> "d0".
Proof.
  split.
  { intros solve Hs Hc.
    split; [exact (slack_optimum_selected solve _ _ _ _ _ _ Hs Hc
                     pool_tie_certificate)|].
    exact (pool_tie_result solve Hs Hc). }
  split; [exact (pool_tie_result reference_solve reference_solve_sound
                   reference_solve_complete)|].
  repeat (split; [reflexivity|]). discriminate.
Qed.

Lemma captain_first_greatest_witness :
  optimize_squad reference_solve pool_tie 100 = Return (Success squad_tie)
  /\ exists l1 c l2,
       all_players squad_tie = (l1 ++ c :: l2)%list
       /\ captain squad_tie = name c
       /\ captain_points squad_tie = predicted_points c
       /\ (forall x, In x l1 -> (predicted_points x < predicted_points c)%Q)
       /\ (forall x, In x l2 -> (predicted_points x <= predicted_points c)%Q).
Proof.
  pose proof (pool_tie_result reference_solve reference_solve_sound
                reference_solve_complete) as Hr.
  split; [exact Hr|].
  exact (captain_first_greatest reference_solve pool_tie 100 squad_tie Hr).
Defined.

(** C8 (as stated) fails: whatever sound solver is used, a frame one
    goalkeeper short, a budget below the price of the only quota-satisfying
    combination, and a frame whose candidates all share one team give the
    very same failure dictionary, which names no cause. *)
Lemma failure_does_not_name_cause :
  (forall solve, solver_sound solve ->
     optimize_squad solve pool14 100
     = Return (Failed "No optimal solution found")
     /\ optimize_squad solve pool15 10
        = Return (Failed "No optimal solution found")
     /\ optimize_squad solve pool15_one_team 100
        = Return (Failed "No optimal solution found"))
  /\ optimize_squad reference_solve pool14 100
     = optimize_squad reference_solve pool15 10
  /\ optimize_squad reference_solve pool15 10
     = optimize_squad reference_solve pool15_one_team 100
  /\ List.length (gk_ids pool14) = 1%nat
  /\ meets_constraintsb pool15 100 (player_ids pool15) = true
  /\ squad_price pool15 (player_ids pool15) = 90%Q
  /\ meets_constraintsb pool15 10 (player_ids pool15) = false
  /\ count_group pool15_one_team "A" (player_ids pool15_one_team) = 15%nat.
Proof.
  assert (H : forall solve, solver_sound solve ->
     optimize_squad solve pool14 100
     = Return (Failed "No optimal solution found")
     /\ optimize_squad solve pool15 10
        = Return (Failed "No optimal solution found")
     /\ optimize_squad solve pool15_one_team 100
        = Return (Failed "No optimal solution found")).
  { intros solve Hs.
    split; [exact (infeasible_by_search_failed solve Hs _ _ pool14_certificate)|].
    split; [exact (infeasible_by_search_failed solve Hs _ _
                     pool15_low_budget_certificate)|].
    exact (infeasible_by_search_failed solve Hs _ _
             pool15_one_team_certificate). }
  split; [exact H|].
  destruct (H reference_solve reference_solve_sound) as (-> & -> & ->).
  repeat (split; [reflexivity|]). reflexivity.
Qed.



(* ================================================================== *)
(** * Further properties of [optimize_squad] *)

Lemma insert_desc_sorted {A} (key : A -> Q) (x : A) (l : list A) :
  StronglySorted (fun a b => (key b <= key a)%Q) l ->
  StronglySorted (fun a b => (key b <= key a)%Q) (insert_desc key x l).
Proof.
  induction l as [|y l IH]; intros Hs; simpl.
  - constructor; constructor.
  - inversion Hs as [|? ? Hl Hy]; subst.
    destruct (Qle_bool (key y) (key x)) eqn:E.
    + apply Qle_bool_iff in E. constructor; [exact Hs|].
      constructor; [exact E|].
      eapply Forall_impl; [|exact Hy]. cbn beta. intros z Hz.
      now apply Qle_trans with (key y).
    + constructor; [now apply IH|].
      apply (Permutation_Forall (Permutation_sym (insert_desc_perm key x l))).
      constructor; [|exact Hy].
      apply Qlt_le_weak, Qnot_le_lt. intros H.
      apply Qle_bool_iff in H. congruence.
Qed.

Lemma sort_desc_sorted {A} (key : A -> Q) (l : list A) :
  StronglySorted (fun a b => (key b <= key a)%Q) (sort_desc key l).
Proof.
  induction l as [|x l IH]; simpl; [constructor|].
  now apply insert_desc_sorted.
Qed.

Lemma row_of_to_dict {V} (col : Row -> V) (df : DataFrame) (k : Z) :
  dict_get (to_dict col df) k = option_map col (row_of df k).
Proof.
  unfold row_of, to_dict. induction (rows df) as [|r l IH]; simpl; [reflexivity|].
  rewrite IH.
  destruct (dict_get (map (fun r0 : Row => (r_index r0, r0)) l) k) as [r'|];
    simpl; [reflexivity|].
  now destruct (k =? r_index r).
Qed.

Lemma row_of_In (df : DataFrame) (k : Z) (r : Row) :
  row_of df k = Some r -> In r (rows df) /\ r_index r = k.
Proof.
  intros H. apply dict_get_In in H. unfold to_dict in H.
  apply in_map_iff in H. destruct H as (r' & [= <- <-] & Hr). auto.
Qed.

Lemma row_of_index (df : DataFrame) (k : Z) :
  In k (index df) -> exists r, row_of df k = Some r.
Proof.
  intros H. apply dict_get_key. now rewrite to_dict_keys.
Qed.

Lemma player_info_row (df : DataFrame) (k : Z) (r : Row) :
  row_of df k = Some r -> player_info df k = info_of_row df r.
Proof.
  intros H. unfold player_info, info_of_row, getitem, get_default, names,
    prices, predicted_points_d, teams.
  rewrite !row_of_to_dict, H. simpl.
  destruct (has_team_column df); [|reflexivity].
  now rewrite row_of_to_dict, H.
Qed.

(** The players of some labels of a frame are the dictionaries of rows of
    the frame with these labels. *)
Lemma player_infos_rows (df : DataFrame) (ids : list Z) :
  incl ids (index df) ->
  exists rs, map (player_info df) ids = map (info_of_row df) rs
             /\ map r_index rs = ids /\ incl rs (rows df).
Proof.
  induction ids as [|k ids IH]; intros Hincl.
  - exists []. repeat split. intros x [].
  - destruct IH as (rs & Hm & Hi & Hr);
      [intros x Hx; apply Hincl; now right|].
    destruct (row_of_index df k (Hincl k (or_introl eq_refl))) as (r & Hk).
    destruct (row_of_In _ _ _ Hk) as [Hin Hidx].
    exists (r :: rs). simpl. rewrite (player_info_row _ _ _ Hk), Hm, Hi, Hidx.
    repeat split. intros x [<-|Hx]; auto.
Qed.

Section More_squad_properties.

Variable solve : LpProblem -> Z * Assignment.

(** X1: in a successful result the defenders, the midfielders and the
    forwards are each listed in descending order of predicted points. *)
Theorem position_lists_sorted (df : DataFrame) (budget : Q) (s : Squad) :
  optimize_squad solve df budget = Return (Success s) ->
  StronglySorted points_desc (defenders s)
  /\ StronglySorted points_desc (midfielders s)
  /\ StronglySorted points_desc (forwards s).
Proof.
  intros H. destruct (optimize_squad_success solve _ _ _ H) as (v & _ & _ & Hb).
  destruct (build_squad_inv _ _ _ Hb) as (_ & -> & -> & -> & _).
  repeat split; apply (sort_desc_sorted predicted_points).
Qed.

Variables tol gap : Q.
Hypothesis tol_small : (tol < 1)%Q.
Hypothesis solve_tolerant : solver_tolerant tol gap solve.

(** X2: the 15 members of a returned squad are the player dictionaries of 15
    rows of the input frame (name, team, price and predicted points of one
    row each); when the index labels are distinct these are 15 different
    rows, so no candidate is listed twice. *)
Theorem squad_members_are_rows (df : DataFrame) (budget : Q) (s : Squad) :
  optimize_squad solve df budget = Return (Success s) ->
  exists rs,
    Permutation (all_players s) (map (info_of_row df) rs)
    /\ incl rs (rows df)
    /\ List.length rs = 15%nat
    /\ selected_ids solve df budget = Some (map r_index rs)
    /\ (NoDup (index df) -> NoDup rs).
Proof.
  intros H.
  destruct (tolerant_feasible solve tol gap tol_small solve_tolerant _ _ _ H)
    as (v & Hsel & Hb & Hf & _).
  pose proof (all_players_perm _ _ _ Hb (selected_positions df _ v Hf))
    as Hperm.
  destruct (player_infos_rows df (selected df v) (selected_incl df v))
    as (rs & Hm & Hi & Hr).
  exists rs. split; [now rewrite <- Hm|]. split; [exact Hr|]. split.
  { rewrite <- (length_map r_index), Hi. apply lp_feasible_iff in Hf. tauto. }
  split; [now rewrite Hi|].
  intros Hnd. apply (NoDup_map_inv r_index). rewrite Hi.
  now apply NoDup_filter.
Qed.

(** X3: [total_cost] is the sum of the prices of the listed players, and
    this sum is within the budget up to the feasibility tolerance of the
    solver. *)
Theorem total_cost_of_listed (df : DataFrame) (budget : Q) (s : Squad) :
  optimize_squad solve df budget = Return (Success s) ->
  (total_cost s == sum (map price (all_players s)))%Q
  /\ (sum (map price (all_players s)) <= budget + tol)%Q.
Proof.
  intros H.
  destruct (tolerant_feasible solve tol gap tol_small solve_tolerant _ _ _ H)
    as (v & Hsel & Hb & Hf & _).
  pose proof (all_players_perm _ _ _ Hb (selected_positions df _ v Hf))
    as Hperm.
  destruct (build_squad_inv _ _ _ Hb) as (_ & _ & _ & _ & Hcost & _).
  assert (E : (sum (map price (all_players s))
               == squad_price df (selected df v))%Q).
  { rewrite (sum_perm _ _ (Permutation_map price Hperm)), map_map.
    reflexivity. }
  split; [now rewrite Hcost, E|].
  rewrite E. apply lp_feasible_iff in Hf. tauto.
Qed.

(** X4: a frame with fewer than 15 rows, or with fewer than 2 goalkeepers,
    5 defenders, 5 midfielders or 3 forwards, gets the 'failed' dictionary. *)
Theorem shortfall_fails (df : DataFrame) (budget : Q) :
  (List.length (rows df) < 15)%nat
  \/ (List.length (gk_ids df) < 2)%nat \/ (List.length (def_ids df) < 5)%nat
  \/ (List.length (mid_ids df) < 5)%nat \/ (List.length (fwd_ids df) < 3)%nat ->
  optimize_squad solve df budget = Return (Failed "No optimal solution found").
Proof.
  intros Hshort.
  apply optimize_squad_status,
    (tolerant_status solve tol gap tol_small solve_tolerant).
  intros v Hf. apply lp_feasible_iff in Hf.
  destruct Hf as (_ & Hn & Hg & Hd & Hm & Hfw & _).
  assert (Hle : forall pos,
            (count_position df pos (selected df v)
             <= List.length (filter (has_position (positions df) pos)
                               (player_ids df)))%nat).
  { intros pos. rewrite <- count_selected. apply filter_length_le. }
  pose proof (Hle "GK") as H1. pose proof (Hle "DEF") as H2.
  pose proof (Hle "MID") as H3. pose proof (Hle "FWD") as H4.
  pose proof (filter_length_le v (player_ids df)) as H5.
  assert (H6 : List.length (player_ids df) = List.length (rows df))
    by apply length_map.
  unfold selected in Hn.
  unfold gk_ids, def_ids, mid_ids, fwd_ids in Hshort. lia.
Qed.

Hypothesis solve_complete : solver_complete solve.

(** X5: raising the budget by the feasibility tolerance or more never loses
    the squad, nor lowers its total by more than the gap of the solver: if a
    squad is found at [budget], one is found at every [budget'] from
    [budget + tol] on, with at least the same total predicted points up to
    [gap]. *)
Theorem larger_budget_no_worse (df : DataFrame) (budget budget' : Q) (s : Squad) :
  optimize_squad solve df budget = Return (Success s) ->
  (budget + tol <= budget')%Q ->
  exists s', optimize_squad solve df budget' = Return (Success s')
             /\ (total_predicted s <= total_predicted s' + gap)%Q.
Proof.
  intros H Hle.
  destruct (tolerant_feasible solve tol gap tol_small solve_tolerant _ _ _ H)
    as (v & Hsel & Hb & Hf & _).
  destruct (build_squad_inv _ _ _ Hb) as (_ & _ & _ & _ & _ & Htp & _).
  assert (Hf' : lp_feasible (problem df budget') v).
  { apply lp_feasible_iff. apply lp_feasible_iff in Hf.
    destruct Hf as (Hp & Hrest). split; [|exact Hrest].
    now apply Qle_trans with (budget + tol)%Q. }
  pose proof (solve_complete _ (ex_intro _ _ Hf')) as Hst.
  destruct (solve (problem df budget')) as [st v'] eqn:E. simpl in Hst. subst st.
  destruct (tolerant_answer solve tol gap tol_small solve_tolerant _ _ _ E)
    as (_ & _ & Hopt).
  destruct (tolerant_build solve tol gap tol_small solve_tolerant _ _ _ E)
    as (s' & Hb').
  exists s'. split.
  - unfold optimize_squad, selected_ids. now rewrite E.
  - destruct (build_squad_inv _ _ _ Hb') as (_ & _ & _ & _ & _ & Htp' & _).
    rewrite Htp, Htp'. now apply Hopt.
Qed.

End More_squad_properties.

(* ================================================================== *)
(** * Further properties of [optimize_multiple_squads] *)

(** ** A frame and what is left of it after exclusions *)

Lemma drop_excluded_ids (df : DataFrame) (excl : list Z) :
  index (drop_excluded df excl)
  = filter (fun i => negb (isin excl i)) (index df).
Proof.
  unfold index, drop_excluded. cbn [rows].
  induction (rows df) as [|r l IH]; simpl; [reflexivity|].
  destruct (negb (isin excl (r_index r))); simpl; now rewrite IH.
Qed.

Lemma filter_andb {A} (f g : A -> bool) (l : list A) :
  filter (fun x => f x && g x) l = filter g (filter f l).
Proof.
  induction l as [|x l IH]; simpl; [reflexivity|].
  destruct (f x); simpl; [destruct (g x)|]; now rewrite IH.
Qed.

Lemma drop_excluded_twice (df : DataFrame) (e1 e2 : list Z) :
  incl e1 e2 ->
  drop_excluded (drop_excluded df e1) e2 = drop_excluded df e2.
Proof.
  intros Hincl. unfold drop_excluded. cbn [rows has_team_column]. f_equal.
  rewrite <- filter_andb. apply filter_ext. intros r.
  destruct (isin e2 (r_index r)) eqn:E2; simpl.
  - apply andb_false_r.
  - rewrite andb_true_r. apply negb_true_iff, not_true_iff_false.
    rewrite isin_In. intros H. apply Hincl, isin_In in H. congruence.
Qed.

(** A label that is not excluded reads the same in the dictionaries of the
    reduced frame. *)
Lemma drop_excluded_dict {V} (col : Row -> V) (df : DataFrame) (excl : list Z)
    (i : Z) :
  isin excl i = false ->
  dict_get (to_dict col (drop_excluded df excl)) i = dict_get (to_dict col df) i.
Proof.
  intros Hi. unfold to_dict, drop_excluded. cbn [rows].
  induction (rows df) as [|r l IH]; simpl; [reflexivity|].
  destruct (isin excl (r_index r)) eqn:E; simpl.
  - rewrite IH.
    destruct (dict_get (map (fun r0 : Row => (r_index r0, col r0)) l) i);
      [reflexivity|].
    destruct (Z.eqb_spec i (r_index r)) as [->|_]; [congruence|reflexivity].
  - now rewrite IH.
Qed.

Section Subframe.

Variable df : DataFrame.
Variable excl : list Z.
Variable budget : Q.
Variable v : Assignment.


Lemma restrict_selected :
  selected df (restrict excl v) = selected (drop_excluded df excl) v.
Proof.
  unfold selected, player_ids, restrict. now rewrite drop_excluded_ids, filter_andb.
Qed.

Lemma selected_kept (i : Z) :
  In i (selected (drop_excluded df excl) v) -> isin excl i = false.
Proof.
  unfold selected, player_ids. rewrite drop_excluded_ids.
  intros H. apply filter_In in H. destruct H as [H _].
  apply filter_In in H. destruct H as [_ H]. now apply negb_true_iff.
Qed.

Lemma subframe_score (ids : list Z) :
  (forall i, In i ids -> isin excl i = false) ->
  squad_score (drop_excluded df excl) ids = squad_score df ids
  /\ squad_price (drop_excluded df excl) ids = squad_price df ids
  /\ forall pos, count_position (drop_excluded df excl) pos ids
                 = count_position df pos ids.
Proof.
  intros Hk. unfold squad_score, squad_price, count_position.
  split; [|split].
  - f_equal. apply map_ext_in. intros i Hi.
    unfold getitem, predicted_points_d. now rewrite drop_excluded_dict by auto.
  - f_equal. apply map_ext_in. intros i Hi.
    unfold getitem, prices. now rewrite drop_excluded_dict by auto.
  - intros pos. f_equal. apply filter_ext_in. intros i Hi.
    unfold has_position, getitem, positions.
    now rewrite drop_excluded_dict by auto.
Qed.

Lemma subframe_same_team (t : string) (i : Z) :
  isin excl i = false ->
  same_team (teams (drop_excluded df excl)) t i = same_team (teams df) t i.
Proof.
  intros Hi. unfold same_team, teams. cbn [has_team_column drop_excluded].
  destruct (has_team_column df); [|reflexivity].
  now rewrite drop_excluded_dict.
Qed.

(** A selection that is feasible on the reduced frame is feasible on the
    whole frame. *)
Lemma subframe_feasible :
  lp_feasible (problem (drop_excluded df excl) budget) v ->
  lp_feasible (problem df budget) (restrict excl v).
Proof.
  rewrite !lp_feasible_iff, restrict_selected.
  set (sel := selected (drop_excluded df excl) v).
  destruct (subframe_score sel selected_kept) as (_ & Hp & Hc).
  rewrite Hp, !Hc. intros (H1 & H2 & H3 & H4 & H5 & H6 & Ht).
  repeat (split; [assumption|]).
  rewrite team_constraints_iff in Ht |- *. rewrite restrict_selected. fold sel.
  intros t _.
  assert (E : filter (same_team (teams df) t) sel
              = filter (same_team (teams (drop_excluded df excl)) t) sel).
  { apply filter_ext_in. intros i Hi. symmetry.
    apply subframe_same_team. now apply selected_kept. }
  rewrite E.
  destruct (in_dec string_dec t (values (teams (drop_excluded df excl))))
    as [Hin|Hout]; [now apply Ht|].
  replace (filter (same_team (teams (drop_excluded df excl)) t) sel)
    with (@nil Z); [simpl; lia|].
  symmetry. apply filter_nil_iff. intros i _.
  destruct (same_team (teams (drop_excluded df excl)) t i) eqn:Es;
    [|reflexivity].
  exfalso. apply Hout. now apply same_team_value in Es.
Qed.

End Subframe.

Section Rounds.

Variable solve : LpProblem -> Z * Assignment.
Variable players_df : DataFrame.
Variable budget : Q.

Lemma mark_used_incl (df : DataFrame) (ps : list PlayerInfo) (excl : list Z) :
  incl excl (mark_used df ps excl).
Proof. intros x Hx. apply mark_used_spec. now left. Qed.

(** Every logged round solved over the pool without a set of labels that
    contains all labels excluded before. *)
Lemma rounds_log_frames (n : nat) (excl : list Z) :
  Forall (fun e =>
            exists excl' s,
              incl excl excl'
              /\ fst e = drop_excluded players_df excl'
              /\ selected_ids solve (fst e) budget = Some (snd e)
              /\ build_squad (fst e) (snd e) = Return (Success s))
         (rounds_log solve players_df budget n excl).
Proof.
  revert excl; induction n as [|n IH]; intros excl; simpl; [constructor|].
  destruct (_ <? 15)%nat; [constructor|].
  destruct (selected_ids solve (drop_excluded players_df excl) budget)
    as [ids|] eqn:Hsel; [|constructor].
  destruct (build_squad _ ids) as [[m|s]|e] eqn:Hb; try constructor.
  - exists excl, s. cbn [fst snd]. repeat split; auto using incl_refl.
  - eapply Forall_impl; [|apply IH]. cbn beta.
    intros e (excl' & s' & Hi & Hrest). exists excl', s'.
    split; [|exact Hrest].
    eapply incl_tran; [apply mark_used_incl|exact Hi].
Qed.

Lemma rounds_log_head (n : nat) (excl : list Z) (e : DataFrame * list Z)
    (rest : list (DataFrame * list Z)) :
  rounds_log solve players_df budget n excl = e :: rest ->
  exists n' s,
    fst e = drop_excluded players_df excl
    /\ selected_ids solve (fst e) budget = Some (snd e)
    /\ build_squad (fst e) (snd e) = Return (Success s)
    /\ rest = rounds_log solve players_df budget n'
                (mark_used (fst e) (all_players s) excl).
Proof.
  destruct n as [|n]; simpl; [discriminate|].
  destruct (_ <? 15)%nat; [discriminate|].
  destruct (selected_ids solve (drop_excluded players_df excl) budget)
    as [ids|] eqn:Hsel; [|discriminate].
  destruct (build_squad _ ids) as [[m|s]|ex] eqn:Hb; try discriminate.
  intros [= <- <-]. exists n, s. cbn [fst snd]. auto.
Qed.

(** A relation that holds between every logged round and every later one
    holds between the returned squads in their order. *)
Lemma rounds_log_pairs (R : DataFrame * list Z -> DataFrame * list Z -> Prop) :
  (forall excl excl' e e' s,
      fst e = drop_excluded players_df excl ->
      selected_ids solve (fst e) budget = Some (snd e) ->
      build_squad (fst e) (snd e) = Return (Success s) ->
      incl (mark_used (fst e) (all_players s) excl) excl' ->
      fst e' = drop_excluded players_df excl' ->
      selected_ids solve (fst e') budget = Some (snd e') ->
      R e e') ->
  forall n excl,
    ForallOrdPairs R (rounds_log solve players_df budget n excl).
Proof.
  intros HR n. induction n as [|n IH]; intros excl; [constructor|].
  destruct (rounds_log solve players_df budget (S n) excl) as [|e rest] eqn:E;
    [constructor|].
  destruct (rounds_log_head _ _ _ _ E) as (n' & s & Hf & Hsel & Hb & ->).
  constructor.
  - eapply Forall_impl; [|apply rounds_log_frames]. cbn beta.
    intros e' (excl' & s' & Hi & Hf' & Hsel' & _).
    now apply (HR excl excl' e e' s).
  - simpl in E. destruct (_ <? 15)%nat; [discriminate|].
    destruct (selected_ids solve (drop_excluded players_df excl) budget)
      as [ids|]; [|discriminate].
    destruct (build_squad _ ids) as [[m|s0]|ex]; try discriminate.
    injection E as _ <-. apply IH.
Qed.

Lemma ForallOrdPairs_Forall2 {A B} (P : A -> B -> Prop)
    (RA : A -> A -> Prop) (RB : B -> B -> Prop) (la : list A) (lb : list B) :
  (forall a b a' b', P a b -> P a' b' -> RB b b' -> RA a a') ->
  Forall2 P la lb -> ForallOrdPairs RB lb -> ForallOrdPairs RA la.
Proof.
  intros Himp H2. induction H2 as [|a b la lb Hab H2 IH]; intros HB;
    [constructor|].
  inversion HB as [|? ? Hb HB']; subst. constructor; [|now apply IH].
  clear IH HB HB'. induction H2 as [|a' b' la lb Hab' H2 IH]; [constructor|].
  inversion Hb as [|? ? Hbb' Hb']; subst.
  constructor; [now apply (Himp a b a' b')|now apply IH].
Qed.

End Rounds.

Lemma Forall2_Forall_left {A B} (P : A -> B -> Prop) (Q : B -> Prop)
    (S : A -> Prop) (la : list A) (lb : list B) :
  (forall a b, P a b -> Q b -> S a) ->
  Forall2 P la lb -> Forall Q lb -> Forall S la.
Proof.
  intros Himp H2. induction H2 as [|a b la lb Hab H2 IH]; intros HQ;
    [constructor|].
  inversion HQ; subst. constructor; eauto.
Qed.

Lemma ForallOrdPairs_map {A B} (f : A -> B) (R : B -> B -> Prop) (l : list A) :
  ForallOrdPairs (fun a a' => R (f a) (f a')) l -> ForallOrdPairs R (map f l).
Proof.
  induction 1 as [|a l Ha _ IH]; simpl; constructor; [|exact IH].
  apply Forall_map. exact Ha.
Qed.

Lemma length_concat_const {A} (k : nat) (L : list (list A)) :
  Forall (fun l => List.length l = k) L ->
  List.length (List.concat L) = (k * List.length L)%nat.
Proof.
  induction 1 as [|l L Hl _ IH]; simpl; [lia|].
  rewrite length_app, IH, Hl. lia.
Qed.

Section Squad_list_properties.

Variable solve : LpProblem -> Z * Assignment.
Variable players_df : DataFrame.
Variable budget : Q.

(** X7: no display name occurs in two of the squads that
    [optimize_multiple_squads] returns. *)
Theorem squads_share_no_name (num_squads : nat) (out : list SquadOption) :
  optimize_multiple_squads solve players_df num_squads budget = Return out ->
  ForallOrdPairs
    (fun o1 o2 => forall p q,
         In p (all_players (option_squad o1)) ->
         In q (all_players (option_squad o2)) -> name p <> name q)
    out.
Proof.
  intros H. unfold optimize_multiple_squads in H.
  destruct (squads_loop_log _ _ _ _ _ _ _ _ H) as (more & -> & _ & Hall).
  simpl.
  apply (ForallOrdPairs_Forall2 _ _
           (fun e e' => forall s s',
                build_squad (fst e) (snd e) = Return (Success s) ->
                build_squad (fst e') (snd e') = Return (Success s') ->
                forall p q, In p (all_players s) -> In q (all_players s') ->
                            name p <> name q) _ _) with (2 := Hall).
  { intros o e o' e' [_ Hb] [_ Hb'] HR. now apply (HR _ _ Hb Hb'). }
  apply rounds_log_pairs.
  intros excl excl' e e' s0 Hf Hsel Hb0 Hincl Hf' Hsel' s s' Hb Hb' p q Hp Hq Heq.
  rewrite Hb0 in Hb. injection Hb as <-.
  destruct (all_players_info _ _ _ Hb' q Hq) as (j & Hj & ->).
  destruct (selected_ids_inv solve _ _ _ Hsel') as (v' & _ & Hids).
  assert (Hjin : In j (index (fst e')))
    by (rewrite Hids in Hj; now apply (selected_incl (fst e') v')).
  destruct (getitem_to_dict "" r_name (fst e') j Hjin) as (r & Hr & Hi & Hn).
  cbn [name player_info] in Heq. unfold names in Heq. rewrite Hn in Heq.
  assert (Hout : ~ In j excl').
  { rewrite Hf' in Hjin. now apply drop_excluded_index in Hjin. }
  apply Hout, Hincl, mark_used_spec. right. exists p. split; [exact Hp|].
  apply index_of_name_In. exists r. split; [|now split].
  rewrite Hf' in Hr. rewrite Hf. unfold drop_excluded in Hr |- *.
  cbn [rows] in Hr |- *. apply filter_In in Hr. destruct Hr as [Hr Hk].
  apply filter_In. split; [exact Hr|].
  apply negb_true_iff, not_true_iff_false. rewrite isin_In. intros Hx.
  apply negb_true_iff, not_true_iff_false in Hk. apply Hk, isin_In.
  apply Hincl, mark_used_incl. exact Hx.
Qed.

Variables tol gap : Q.
Hypothesis tol_small : (tol < 1)%Q.
Hypothesis solve_tolerant : solver_tolerant tol gap solve.

(** A later round, solving over what is left of an earlier round's frame,
    cannot reach a total that is greater by more than the gap with a
    selection that keeps the budget. *)
Lemma round_monotone (df : DataFrame) (excl : list Z) (ids ids' : list Z) :
  selected_ids solve df budget = Some ids ->
  selected_ids solve (drop_excluded df excl) budget = Some ids' ->
  (squad_price (drop_excluded df excl) ids' <= budget)%Q ->
  (squad_score (drop_excluded df excl) ids' <= squad_score df ids + gap)%Q.
Proof.
  intros Hsel Hsel' Hprice.
  destruct (tolerant_selected solve tol gap tol_small solve_tolerant _ _ _ Hsel)
    as (v & -> & _ & Hopt).
  destruct (tolerant_selected solve tol gap tol_small solve_tolerant _ _ _ Hsel')
    as (v' & -> & Hf' & _).
  assert (Hx : lp_feasible (problem (drop_excluded df excl) budget) v').
  { apply lp_feasible_iff. apply lp_feasible_iff in Hf'.
    destruct Hf' as (_ & Hrest). now split. }
  pose proof (Hopt _ (subframe_feasible df excl budget v' Hx)) as Hle.
  rewrite restrict_selected in Hle.
  destruct (subframe_score df excl (selected (drop_excluded df excl) v')
              (selected_kept df excl v')) as (-> & _).
  exact Hle.
Qed.

(** X6: the squads come out in ranked order, up to the tolerances of the
    solver: a returned squad whose total cost keeps the budget has at most the
    total predicted points of every squad before it, plus the gap. *)
Theorem squads_ranked (num_squads : nat) (out : list SquadOption) :
  optimize_multiple_squads solve players_df num_squads budget = Return out ->
  ForallOrdPairs
    (fun o1 o2 => (total_cost (option_squad o2) <= budget)%Q ->
                  (total_predicted (option_squad o2)
                   <= total_predicted (option_squad o1) + gap)%Q)
    out.
Proof.
  intros H. unfold optimize_multiple_squads in H.
  destruct (squads_loop_log _ _ _ _ _ _ _ _ H) as (more & -> & _ & Hall).
  simpl.
  apply (ForallOrdPairs_Forall2 _ _
           (fun e e' => (squad_price (fst e') (snd e') <= budget)%Q ->
                        (squad_score (fst e') (snd e')
                         <= squad_score (fst e) (snd e) + gap)%Q) _ _)
    with (2 := Hall).
  { intros o e o' e' [_ Hb] [_ Hb'] HR.
    destruct (build_squad_inv _ _ _ Hb) as (_ & _ & _ & _ & _ & -> & _).
    destruct (build_squad_inv _ _ _ Hb') as (_ & _ & _ & _ & -> & -> & _).
    exact HR. }
  apply rounds_log_pairs.
  intros excl excl' e e' s Hf Hsel Hb Hincl Hf' Hsel'.
  assert (E : fst e' = drop_excluded (fst e) excl').
  { rewrite Hf', Hf. symmetry. apply drop_excluded_twice.
    eapply incl_tran; [apply mark_used_incl|exact Hincl]. }
  rewrite E in Hsel' |- *. intros Hp. now apply round_monotone.
Qed.

Lemma success_valid (df : DataFrame) (s : Squad) :
  optimize_squad solve df budget = Return (Success s) ->
  List.length (goalkeepers s) = 2%nat /\ List.length (defenders s) = 5%nat
  /\ List.length (midfielders s) = 5%nat /\ List.length (forwards s) = 3%nat
  /\ (total_cost s <= budget + tol)%Q
  /\ (has_team_column df = true ->
      forall g, (count_team g (all_players s) <= 3)%nat).
Proof.
  intros H.
  destruct (tolerant_feasible solve tol gap tol_small solve_tolerant _ _ _ H)
    as (v & Hsel & Hb & Hf & _).
  pose proof (all_players_perm _ _ _ Hb (selected_positions df _ v Hf))
    as Hperm.
  destruct (build_squad_inv _ _ _ Hb) as (Hg & Hd & Hm & Hfw & Hcost & _).
  pose proof Hf as Hf'. apply lp_feasible_iff in Hf'.
  destruct Hf' as (Hbud & Hn & Hgk & Hde & Hmi & Hfo & Hteam).
  rewrite Hg, Hd, Hm, Hfw, Hcost,
    !(Permutation_length (sort_desc_perm _ _)), !by_position_length.
  repeat (split; [assumption|]).
  intros Ht g. rewrite (count_team_perm g _ _ Hperm), count_team_group.
  now apply (team_constraints_groups df v Ht).
Qed.

(** X8: every squad that [optimize_multiple_squads] returns is valid on its
    own: 2 goalkeepers, 5 defenders, 5 midfielders, 3 forwards, a total cost
    within the budget up to the feasibility tolerance of the solver and,
    when the pool has a 'team' column, at most 3 players of any team. *)
Theorem every_squad_valid (num_squads : nat) (out : list SquadOption) :
  optimize_multiple_squads solve players_df num_squads budget = Return out ->
  Forall (fun o =>
            List.length (goalkeepers (option_squad o)) = 2%nat
            /\ List.length (defenders (option_squad o)) = 5%nat
            /\ List.length (midfielders (option_squad o)) = 5%nat
            /\ List.length (forwards (option_squad o)) = 3%nat
            /\ (total_cost (option_squad o) <= budget + tol)%Q
            /\ (has_team_column players_df = true ->
                forall g, (count_team g (all_players (option_squad o)) <= 3)%nat))
         out.
Proof.
  intros H. unfold optimize_multiple_squads in H.
  destruct (squads_loop_log _ _ _ _ _ _ _ _ H) as (more & -> & _ & Hall).
  simpl.
  apply (Forall2_Forall_left _ _ _ _ _) with (2 := Hall)
                                             (3 := rounds_log_frames solve players_df budget num_squads []).
  intros o e [Hsel Hb] (excl' & s & _ & Hf & _).
  assert (Hopt : optimize_squad solve (fst e) budget
                 = Return (Success (option_squad o)))
    by (unfold optimize_squad; now rewrite Hsel).
  pose proof (success_valid _ _ Hopt) as Hv. rewrite Hf in Hv at 1.
  exact Hv.
Qed.

Lemma tolerant_log_disjoint (n : nat) (excl : list Z) :
  ForallOrdPairs (fun e1 e2 => forall x, In x (snd e1) -> ~ In x (snd e2))
                 (rounds_log solve players_df budget n excl).
Proof.
  revert excl; induction n as [|n IH]; intros excl; simpl; [constructor|].
  destruct (_ <? 15)%nat; [constructor|].
  unfold selected_ids.
  destruct (solve (problem (drop_excluded players_df excl) budget))
    as [st v] eqn:E.
  destruct (Z.eqb_spec st 1) as [->|_]; simpl; [|constructor].
  destruct (build_squad _ _) as [[m|s]|e] eqn:Hb; try constructor.
  - destruct (tolerant_answer solve tol gap tol_small solve_tolerant _ _ _ E) as (_ & Hf & _).
    pose proof (selected_positions _ _ v Hf) as Hpos.
    pose proof (mark_used_selected _ _ _ excl Hb Hpos
                  (selected_incl (drop_excluded players_df excl) v)) as Hused.
    eapply Forall_impl;
      [|apply (rounds_log_fresh solve players_df budget)]. cbn beta.
    intros e H x Hx Hin. cbn [snd] in Hx.
    destruct (H x Hin) as [_ Hout]. apply Hout. now apply Hused.
  - apply IH.
Qed.

(** X9: with distinct index labels every squad uses up 15 rows of the pool,
    so 15 times the number of returned squads is at most the number of
    rows. *)
Theorem squads_fit_pool (num_squads : nat) (out : list SquadOption) :
  NoDup (index players_df) ->
  optimize_multiple_squads solve players_df num_squads budget = Return out ->
  (15 * List.length out <= List.length (rows players_df))%nat.
Proof.
  intros Hnd H. unfold optimize_multiple_squads in H.
  destruct (squads_loop_log _ _ _ _ _ _ _ _ H) as (more & -> & _ & Hall).
  simpl. rewrite (Forall2_length Hall).
  set (log := rounds_log solve players_df budget num_squads []) in *.
  assert (Hfr : Forall (fun e => NoDup (snd e) /\ List.length (snd e) = 15%nat) log).
  { eapply Forall_impl; [|apply rounds_log_frames]. cbn beta.
    intros e (excl' & s & _ & Hf & Hsel & _).
    destruct (tolerant_selected solve tol gap tol_small solve_tolerant _ _ _ Hsel)
      as (v & -> & Hfe & _). split.
    - apply NoDup_filter. unfold player_ids.
      rewrite Hf, drop_excluded_ids. now apply NoDup_filter.
    - apply lp_feasible_iff in Hfe. tauto. }
  assert (Hnd' : NoDup (List.concat (map snd log))).
  { apply NoDup_concat.
    - apply Forall_map. eapply Forall_impl; [|exact Hfr]. cbn beta. tauto.
    - apply ForallOrdPairs_map.
      apply tolerant_log_disjoint. }
  assert (Hin : incl (List.concat (map snd log)) (index players_df)).
  { intros x Hx. apply in_concat in Hx. destruct Hx as (l & Hl & Hx).
    apply in_map_iff in Hl. destruct Hl as (e & <- & He).
    pose proof (rounds_log_fresh solve players_df budget num_squads []) as Hf.
    rewrite Forall_forall in Hf. now apply (Hf e He x). }
  pose proof (NoDup_incl_length Hnd' Hin) as Hle.
  rewrite (length_concat_const 15) in Hle.
  - rewrite length_map in Hle. unfold index in Hle. rewrite length_map in Hle.
    exact Hle.
  - apply Forall_map. eapply Forall_impl; [|exact Hfr]. cbn beta. tauto.
Qed.

End Squad_list_properties.

(* ================================================================== *)
(** * [optimize_multiple_squads] round by round *)

Lemma drop_excluded_none (df : DataFrame) : drop_excluded df [] = df.
Proof.
  destruct df as [t rs]. unfold drop_excluded. cbn [has_team_column rows].
  f_equal. induction rs as [|r rs IH]; [reflexivity|].
  simpl. now f_equal.
Qed.

Lemma Forall2_strengthen {A B} (P R : A -> B -> Prop) (Q : B -> Prop)
    (la : list A) (lb : list B) :
  (forall a b, P a b -> Q b -> R a b) ->
  Forall2 P la lb -> Forall Q lb -> Forall2 R la lb.
Proof.
  intros Himp H2. induction H2 as [|a b la lb Hab H2 IH]; intros HQ;
    [constructor|].
  inversion HQ; subst. constructor; eauto.
Qed.

Section Round_by_round.

Variable solve : LpProblem -> Z * Assignment.
Variables tol gap : Q.
Hypothesis tol_small : (tol < 1)%Q.
Hypothesis solve_tolerant : solver_tolerant tol gap solve.

(** X21: the first of the squads of [optimize_multiple_squads] is the result
    of [optimize_squad] on the whole pool: when that is a squad, it is the
    first option of every non-empty request; when that is the failure
    dictionary, no squad is returned at all. *)
Theorem first_squad_is_single_result (df : DataFrame) (budget : Q)
    (r : SquadResult) :
  optimize_squad solve df budget = Return r ->
  match r with
  | Success s =>
      forall n, exists rest,
        optimize_multiple_squads solve df (S n) budget
        = Return (squad_option 0 s :: rest)
  | Failed _ =>
      forall n, optimize_multiple_squads solve df n budget = Return []
  end.
Proof.
  intros E. destruct r as [m|s]; intros n; unfold optimize_multiple_squads.
  - destruct n as [|n]; [reflexivity|].
    apply squads_loop_stops. right. exists m. now rewrite drop_excluded_none.
  - cbn [squads_loop]. rewrite drop_excluded_none, E.
    destruct (tolerant_feasible solve tol gap tol_small solve_tolerant _ _ _ E)
      as (v & _ & _ & Hf & _).
    apply lp_feasible_iff in Hf. destruct Hf as (_ & Hn & _).
    assert (Hlen : (15 <= List.length (rows df))%nat).
    { rewrite <- Hn. unfold selected.
      etransitivity; [apply filter_length_le|].
      unfold player_ids, index. now rewrite length_map. }
    destruct (Nat.ltb_spec (List.length (rows df)) 15) as [Hlt|_]; [lia|].
    destruct (tolerant_loop_returns solve tol gap tol_small solve_tolerant df budget n 1
                (mark_used df (all_players s) [])
                ([] ++ [squad_option 0 s])%list) as (out & Eo & _).
    destruct (squads_loop_log solve df budget _ _ _ _ _ Eo) as (more & -> & _).
    exists more. exact Eo.
Qed.

(** X22: every squad that [optimize_multiple_squads] returns is the best of
    its round, up to the gap of the solver: the frame of the round is the
    pool without some excluded labels, and no feasible squad of that frame
    has a total of predicted points that exceeds the returned one by more
    than the gap. *)
Theorem every_squad_best_of_round (players_df : DataFrame) (budget : Q)
    (num_squads : nat) (out : list SquadOption) :
  NoDup (index players_df) ->
  optimize_multiple_squads solve players_df num_squads budget = Return out ->
  Forall2 (fun opt e =>
             (exists excl, fst e = drop_excluded players_df excl)
             /\ forall sq, feasible_squad (fst e) budget sq ->
                  (squad_score (fst e) sq
                   <= total_predicted (option_squad opt) + gap)%Q)
          out (rounds_log solve players_df budget num_squads []).
Proof.
  intros Hnd H. unfold optimize_multiple_squads in H.
  destruct (squads_loop_log _ _ _ _ _ _ _ _ H) as (more & -> & _ & Hall).
  simpl.
  apply (Forall2_strengthen _ _ _ _ _) with (2 := Hall)
    (3 := rounds_log_frames solve players_df budget num_squads []).
  intros opt e [Hsel Hb] (excl & s & _ & Hfr & _).
  split; [now exists excl|].
  intros sq Hsq.
  assert (Hnd' : NoDup (index (fst e))).
  { rewrite Hfr, drop_excluded_ids. now apply NoDup_filter. }
  destruct (tolerant_selected solve tol gap tol_small solve_tolerant _ _ _ Hsel)
    as (v & Hids & _ & Hopt).
  destruct (feasible_squad_lp (fst e) budget sq Hnd' Hsq) as [Hlp Hp].
  destruct (build_squad_inv _ _ _ Hb) as (_ & _ & _ & _ & _ & Htp & _).
  rewrite Htp, Hids, <- (squad_score_perm (fst e) _ _ Hp).
  now apply Hopt.
Qed.

End Round_by_round.

(* ================================================================== *)
(** * Properties of the endpoints ([app.py]) *)

(** ** [nlargest] and [nsmallest] *)

Lemma insert_asc_perm {A} (key : A -> Q) (x : A) (l : list A) :
  Permutation (insert_asc key x l) (x :: l).
Proof.
  induction l as [|y l IH]; simpl; [reflexivity|].
  destruct (Qle_bool (key x) (key y)); [reflexivity|].
  rewrite IH. apply perm_swap.
Qed.

Lemma sort_asc_perm {A} (key : A -> Q) (l : list A) :
  Permutation (sort_asc key l) l.
Proof.
  induction l as [|x l IH]; simpl; [reflexivity|].
  rewrite insert_asc_perm. now constructor.
Qed.

Lemma insert_asc_sorted {A} (key : A -> Q) (x : A) (l : list A) :
  StronglySorted (fun a b => (key a <= key b)%Q) l ->
  StronglySorted (fun a b => (key a <= key b)%Q) (insert_asc key x l).
Proof.
  induction l as [|y l IH]; intros Hs; simpl.
  - constructor; constructor.
  - inversion Hs as [|? ? Hl Hy]; subst.
    destruct (Qle_bool (key x) (key y)) eqn:E.
    + apply Qle_bool_iff in E. constructor; [exact Hs|].
      constructor; [exact E|].
      eapply Forall_impl; [|exact Hy]. cbn beta. intros z Hz.
      now apply Qle_trans with (key y).
    + constructor; [now apply IH|].
      apply (Permutation_Forall (Permutation_sym (insert_asc_perm key x l))).
      constructor; [|exact Hy].
      apply Qlt_le_weak, Qnot_le_lt. intros H.
      apply Qle_bool_iff in H. congruence.
Qed.

Lemma sort_asc_sorted {A} (key : A -> Q) (l : list A) :
  StronglySorted (fun a b => (key a <= key b)%Q) (sort_asc key l).
Proof.
  induction l as [|x l IH]; simpl; [constructor|].
  now apply insert_asc_sorted.
Qed.

Lemma StronglySorted_app_inv {A} (R : A -> A -> Prop) (l1 l2 : list A) :
  StronglySorted R (l1 ++ l2)%list ->
  StronglySorted R l1 /\ forall a b, In a l1 -> In b l2 -> R a b.
Proof.
  induction l1 as [|x l1 IH]; simpl; intros Hs.
  - split; [constructor|]. intros a b [].
  - inversion Hs as [|? ? Hl Hx]; subst.
    destruct (IH Hl) as [Hs1 Hc]. split.
    + constructor; [exact Hs1|].
      apply Forall_forall. intros z Hz.
      rewrite Forall_forall in Hx. apply Hx, in_or_app. now left.
    + intros a b [<-|Ha] Hb.
      * rewrite Forall_forall in Hx. apply Hx, in_or_app. now right.
      * now apply Hc.
Qed.

(** The first [n] of a sorted rearrangement of [l]: [min n (len l)] elements,
    sorted, and each of them before everything that is left out. *)
Lemma firstn_selection {A} (R : A -> A -> Prop) (n : nat) (l sorted : list A) :
  Permutation sorted l ->
  StronglySorted R sorted ->
  List.length (firstn n sorted) = Nat.min n (List.length l)
  /\ StronglySorted R (firstn n sorted)
  /\ exists rest,
       Permutation l (firstn n sorted ++ rest)%list
       /\ forall a b, In a (firstn n sorted) -> In b rest -> R a b.
Proof.
  intros Hp Hs. split; [|split].
  - now rewrite length_firstn, (Permutation_length Hp).
  - rewrite <- (firstn_skipn n sorted) in Hs.
    now apply StronglySorted_app_inv in Hs.
  - exists (skipn n sorted). split.
    + now rewrite firstn_skipn.
    + rewrite <- (firstn_skipn n sorted) in Hs.
      now apply StronglySorted_app_inv in Hs.
Qed.

Lemma nlargest_spec {A} (n : nat) (key : A -> Q) (l : list A) :
  List.length (nlargest n key l) = Nat.min n (List.length l)
  /\ StronglySorted (fun a b => (key b <= key a)%Q) (nlargest n key l)
  /\ exists rest,
       Permutation l (nlargest n key l ++ rest)%list
       /\ forall a b, In a (nlargest n key l) -> In b rest ->
                      (key b <= key a)%Q.
Proof.
  apply firstn_selection; [apply sort_desc_perm|apply sort_desc_sorted].
Qed.

Lemma nsmallest_spec {A} (n : nat) (key : A -> Q) (l : list A) :
  List.length (nsmallest n key l) = Nat.min n (List.length l)
  /\ StronglySorted (fun a b => (key a <= key b)%Q) (nsmallest n key l)
  /\ exists rest,
       Permutation l (nsmallest n key l ++ rest)%list
       /\ forall a b, In a (nsmallest n key l) -> In b rest ->
                      (key a <= key b)%Q.
Proof.
  apply firstn_selection; [apply sort_asc_perm|apply sort_asc_sorted].
Qed.

Lemma drop_excluded_nil (df : DataFrame) : rows (drop_excluded df []) = rows df.
Proof.
  unfold drop_excluded. cbn [rows].
  induction (rows df) as [|r l IH]; [reflexivity|].
  simpl. now f_equal.
Qed.

Section App_properties.

Variable solve : LpProblem -> Z * Assignment.
Variable str_exn : exn -> string.
Variable missing_column : string.

(** X10: [/api/predictions/top] answers 200 with the [min 10 (number of rows)]
    rows of greatest predicted points, in descending order, every listed row
    at least as high as every row left out, and [count] their number; it
    answers 500 with the exception's message when loading or scoring raises
    or the frame has no 'team' column. *)
Theorem api_predictions_top_greatest (frame : pyresult DataFrame) :
  match frame with
  | Exception message =>
      api_predictions_top frame missing_column = (ErrorBody message, 500)
  | Ok df =>
      if has_team_column df then
        exists top rest,
          api_predictions_top frame missing_column
          = (TopBody (List.length top) "Players with highest predicted points"
                     (map prediction_of_row top), 200)
          /\ List.length top = Nat.min 10 (List.length (rows df))
          /\ Permutation (rows df) (top ++ rest)%list
          /\ StronglySorted
               (fun a b => (r_predicted_points b <= r_predicted_points a)%Q) top
          /\ forall a b, In a top -> In b rest ->
                         (r_predicted_points b <= r_predicted_points a)%Q
      else api_predictions_top frame missing_column
           = (ErrorBody missing_column, 500)
  end.
Proof.
  destruct frame as [df|message]; [|reflexivity].
  unfold api_predictions_top.
  destruct (has_team_column df); [|reflexivity].
  destruct (nlargest_spec 10 r_predicted_points (rows df))
    as (Hlen & Hs & rest & Hp & Hd).
  exists (nlargest 10 r_predicted_points (rows df)), rest.
  cbv zeta. rewrite length_map. repeat split; assumption.
Qed.

(** X11: [/api/predictions/bottom] answers 200 with the
    [min 10 (number of rows)] rows of least predicted points, in ascending
    order, every listed row at most as high as every row left out; it answers
    500 like [/api/predictions/top]. *)
Theorem api_predictions_bottom_least (frame : pyresult DataFrame) :
  match frame with
  | Exception message =>
      api_predictions_bottom frame missing_column = (ErrorBody message, 500)
  | Ok df =>
      if has_team_column df then
        exists bottom rest,
          api_predictions_bottom frame missing_column
          = (BottomBody (List.length bottom)
               "Players with lowest predicted points - consider avoiding"
               (map prediction_of_row bottom), 200)
          /\ List.length bottom = Nat.min 10 (List.length (rows df))
          /\ Permutation (rows df) (bottom ++ rest)%list
          /\ StronglySorted
               (fun a b => (r_predicted_points a <= r_predicted_points b)%Q)
               bottom
          /\ forall a b, In a bottom -> In b rest ->
                         (r_predicted_points a <= r_predicted_points b)%Q
      else api_predictions_bottom frame missing_column
           = (ErrorBody missing_column, 500)
  end.
Proof.
  destruct frame as [df|message]; [|reflexivity].
  unfold api_predictions_bottom.
  destruct (has_team_column df); [|reflexivity].
  destruct (nsmallest_spec 10 r_predicted_points (rows df))
    as (Hlen & Hs & rest & Hp & Hd).
  exists (nsmallest 10 r_predicted_points (rows df)), rest.
  cbv zeta. rewrite length_map. repeat split; assumption.
Qed.

Variables tol gap : Q.
Hypothesis tol_small : (tol < 1)%Q.
Hypothesis solve_tolerant : solver_tolerant tol gap solve.

(** X12: [/api/optimize/multiple] answers 500 only when loading or scoring
    raises; otherwise it answers 200 with the squads of
    [optimize_multiple_squads] at budget 100: at most 3, numbered 1, 2, ... in
    order, [count] their number, and none at all (still with code 200) when
    the frame has fewer than 15 rows. *)
Theorem api_optimize_multiple_responses (frame : pyresult DataFrame) :
  match frame with
  | Exception message =>
      api_optimize_multiple solve frame str_exn = (ErrorBody message, 500)
  | Ok df =>
      exists squads,
        optimize_multiple_squads solve df 3 100 = Return squads
        /\ api_optimize_multiple solve frame str_exn
           = (MultipleBody (List.length squads)
                ("Generated " ++ str_of_nat (List.length squads)
                   ++ " optimal squad options")
                squads, 200)
        /\ (List.length squads <= 3)%nat
        /\ map squad_number squads = seq 1 (List.length squads)
        /\ ((List.length (rows df) < 15)%nat -> squads = [])
  end.
Proof.
  destruct frame as [df|message]; [|reflexivity].
  unfold api_optimize_multiple, optimize_multiple_squads.
  destruct (tolerant_loop_returns solve tol gap tol_small solve_tolerant df 100 3 0 [] [])
    as (out & E & Hlen).
  exists out. rewrite E. split; [reflexivity|]. split; [reflexivity|].
  split; [exact Hlen|]. split.
  - destruct (squads_loop_log solve df 100 _ _ _ _ _ E) as (more & -> & Hn & _).
    exact Hn.
  - intros Hlt.
    rewrite (squads_loop_stops solve df 100 2 0 [] []) in E.
    + now injection E as <-.
    + left. now rewrite drop_excluded_nil.
Qed.

Hypothesis solve_complete : solver_complete solve.

(** X13: [/api/optimize] answers 500 only when loading or scoring raises;
    otherwise it answers 200 with the result of [optimize_squad] at budget
    100, which is a squad when some selection meets the constraints and the
    failure dictionary (also with code 200) when none does even within the
    feasibility tolerance of the solver. *)
Theorem api_optimize_responses (frame : pyresult DataFrame) :
  match frame with
  | Exception message =>
      api_optimize solve frame str_exn = (ErrorBody message, 500)
  | Ok df =>
      exists r,
        optimize_squad solve df 100 = Return r
        /\ api_optimize solve frame str_exn = (SquadBody r, 200)
        /\ ((exists v, lp_feasible (problem df 100) v) ->
            exists s, r = Success s)
        /\ ((forall v, ~ lp_feasible_within tol (problem df 100) v) ->
            r = Failed "No optimal solution found")
  end.
Proof.
  destruct frame as [df|message]; [|reflexivity].
  unfold api_optimize.
  destruct (tolerant_returns solve tol gap tol_small solve_tolerant df 100) as (r & E).
  exists r. rewrite E. split; [reflexivity|]. split; [reflexivity|]. split.
  - intros Hex. pose proof (solve_complete _ Hex) as Hst.
    unfold optimize_squad, selected_ids in E.
    destruct (solve (problem df 100)) as [st v] eqn:Es. simpl in Hst. subst st.
    destruct (tolerant_build solve tol gap tol_small solve_tolerant _ _ _ Es) as (s & Hb).
    exists s. simpl in E. rewrite Hb in E. now injection E as <-.
  - intros Hinf.
    assert (Hst : fst (solve (problem df 100)) <> LpStatusOptimal).
    { intros Hst. destruct (solve (problem df 100)) as [st v] eqn:Es.
      simpl in Hst. subst st.
      destruct (tolerant_answer solve tol gap tol_small solve_tolerant _ _ _ Es) as (Hw & _).
      now apply (Hinf v). }
    pose proof (optimize_squad_status solve df 100 Hst) as E'.
    rewrite E in E'. now injection E' as ->.
Qed.

End App_properties.

(* ================================================================== *)
(** * Properties of [utils/predictor.py] *)

Section Predictor_properties.

Variable F : Type.
Variable model_predict : list F -> pyresult (list Q).
Variable length_mismatch : string.

(** X14: when [predict_by_position] returns, the model was asked once, for
    exactly the rows of the requested position, and gave one value per row;
    the records are [min 10 (number of those rows)] many, in descending order
    of predicted points, each made of a row of that position and the value
    predicted for it, and every row of the position that is not listed was
    predicted at most as high as every listed one. *)
Theorem predict_by_position_top (df : list (PlayerData F)) (position : string)
    (recs : list PlayerInfo) :
  predict_by_position F model_predict length_mismatch df position = Ok recs ->
  let pos_df := filter (fun r => String.eqb (d_position r) position) df in
  let record := fun rp : PlayerData F * Q =>
                  {| name := d_name (fst rp); team := d_team (fst rp);
                     price := d_price (fst rp); predicted_points := snd rp |} in
  exists predicted,
    model_predict (map d_features pos_df) = Ok predicted
    /\ List.length predicted = List.length pos_df
    /\ List.length recs = Nat.min 10 (List.length pos_df)
    /\ StronglySorted points_desc recs
    /\ (forall rec, In rec recs ->
          exists rp, In rp (combine pos_df predicted)
                     /\ In (fst rp) df /\ d_position (fst rp) = position
                     /\ rec = record rp)
    /\ (forall rp, In rp (combine pos_df predicted) ->
          In (record rp) recs
          \/ forall rec, In rec recs -> (snd rp <= predicted_points rec)%Q).
Proof.
  unfold predict_by_position, predict_points. cbv zeta.
  set (pos_df := filter (fun r => String.eqb (d_position r) position) df).
  set (record := fun rp : PlayerData F * Q =>
                   {| name := d_name (fst rp); team := d_team (fst rp);
                      price := d_price (fst rp); predicted_points := snd rp |}).
  destruct (model_predict (map d_features pos_df)) as [predicted|m];
    [|discriminate].
  destruct (Nat.eqb_spec (List.length predicted) (List.length pos_df))
    as [Hlen|_]; [|discriminate].
  intros [= <-]. exists predicted.
  destruct (nlargest_spec 10 snd (combine pos_df predicted))
    as (Hl & Hs & rest & Hp & Hd).
  split; [reflexivity|]. split; [exact Hlen|]. split; [|split; [|split]].
  - rewrite length_map, Hl, length_combine, Hlen. now rewrite Nat.min_id.
  - clear Hl Hp Hd.
    induction Hs as [|a l Hs IH Ha]; simpl; constructor; [exact IH|].
    apply Forall_forall. intros rec Hrec. apply in_map_iff in Hrec.
    destruct Hrec as (b & <- & Hb). rewrite Forall_forall in Ha.
    exact (Ha b Hb).
  - intros rec Hrec. apply in_map_iff in Hrec.
    destruct Hrec as (rp & <- & Hrp). exists rp.
    assert (Hin : In rp (combine pos_df predicted)).
    { apply (Permutation_in rp (Permutation_sym Hp)), in_or_app. now left. }
    split; [exact Hin|]. destruct rp as [r q].
    apply in_combine_l in Hin. apply filter_In in Hin.
    destruct Hin as [Hr Hpos]. apply String.eqb_eq in Hpos. now repeat split.
  - intros rp Hin. apply (Permutation_in rp Hp) in Hin.
    apply in_app_or in Hin. destruct Hin as [Hin|Hin].
    + left. now apply (in_map record).
    + right. intros rec Hrec. apply in_map_iff in Hrec.
      destruct Hrec as (a & <- & Ha). exact (Hd a rp Ha Hin).
Qed.

End Predictor_properties.

(* ================================================================== *)
(** * Properties of [utils/data_fetcher.py] *)

Lemma first_event_spec (flag : Event -> bool) (events : list Event) :
  match first_event flag events with
  | Some gw =>
      exists before event after,
        events = (before ++ event :: after)%list
        /\ Forall (fun e => flag e = false) before
        /\ flag event = true /\ event_id event = gw
  | None => Forall (fun e => flag e = false) events
  end.
Proof.
  induction events as [|e l IH]; simpl; [constructor|].
  destruct (flag e) eqn:E.
  - exists [], e, l. now repeat split.
  - destruct (first_event flag l) as [gw|].
    + destruct IH as (before & event & after & -> & Hb & Hf & Hid).
      exists (e :: before), event, after. repeat split; try assumption.
      now constructor.
    + now constructor.
Qed.

(** X15: the gameweek stored by [fetch_gameweek_data] is the id of the first
    event flagged current, whatever is flagged next; without a current event
    it is the id of the first event flagged next; it is [None] exactly when
    no event is flagged either way. *)
Theorem current_gw_first_flagged (events : list Event) :
  match current_gw events with
  | Some gw =>
      exists before event after,
        events = (before ++ event :: after)%list
        /\ event_id event = gw
        /\ ((is_current event = true
             /\ Forall (fun e => is_current e = false) before)
            \/ (is_next event = true
                /\ Forall (fun e => is_current e = false) events
                /\ Forall (fun e => is_next e = false) before))
  | None =>
      Forall (fun e => is_current e = false /\ is_next e = false) events
  end.
Proof.
  unfold current_gw.
  pose proof (first_event_spec is_current events) as Hc.
  destruct (first_event is_current events) as [gw|].
  - destruct Hc as (before & event & after & -> & Hb & Hf & Hid).
    exists before, event, after. split; [reflexivity|]. split; [exact Hid|].
    now left.
  - pose proof (first_event_spec is_next events) as Hn.
    destruct (first_event is_next events) as [gw|].
    + destruct Hn as (before & event & after & E & Hb & Hf & Hid).
      exists before, event, after. split; [exact E|]. split; [exact Hid|].
      right. now repeat split.
    + rewrite Forall_forall in *. intros e He. split; [now apply Hc|now apply Hn].
Qed.

Lemma dict_get_unique {V} (d : dict V) (k : Z) (v : V) :
  NoDup (map fst d) -> In (k, v) d -> dict_get d k = Some v.
Proof.
  induction d as [|[k' w] d IH]; simpl; [intros _ []|].
  intros Hnd Hin. inversion Hnd as [|? ? Hk Hd]; subst.
  destruct Hin as [[= -> ->]|Hin].
  - destruct (dict_get d k) as [u|] eqn:E.
    + apply dict_get_In in E. elim Hk.
      now apply (in_map fst) in E.
    + now rewrite Z.eqb_refl.
  - now rewrite (IH Hd Hin).
Qed.

Lemma dict_get_missing {V} (d : dict V) (k : Z) :
  ~ In k (map fst d) -> dict_get d k = None.
Proof.
  intros Hk. destruct (dict_get d k) as [v|] eqn:E; [|reflexivity].
  elim Hk. apply dict_get_In in E. now apply (in_map fst) in E.
Qed.

(** X16: with distinct team ids, the 'team' of a features row is the name of
    the team whose id the element carries, and the number 0 (what [fillna(0)]
    leaves of a missing name) when no team has that id. *)
Theorem feature_team_is_team_name (gw : option Z) (teams : list Team)
    (elements : list Element) (f : Features) :
  NoDup (map team_id teams) ->
  In f (update_features gw (fetch_all_players teams elements)) ->
  exists player,
    In player elements
    /\ f = feature_row gw (team_name_of teams player) player
    /\ (forall t, In t teams -> team_id t = e_team player ->
                  f_team f = Text (team_name t))
    /\ ((forall t, In t teams -> team_id t <> e_team player) ->
        f_team f = Number 0).
Proof.
  intros Hnd Hf. unfold update_features, fetch_all_players in Hf.
  rewrite map_map in Hf. apply in_map_iff in Hf.
  destruct Hf as (player & <- & Hp). cbn [fst snd].
  exists player. split; [exact Hp|]. split; [reflexivity|]. split.
  - intros t Ht Hid. cbn [feature_row f_team]. unfold team_name_of.
    rewrite (dict_get_unique (team_mapping teams) (e_team player) (team_name t)).
    + reflexivity.
    + unfold team_mapping. now rewrite map_map.
    + rewrite <- Hid. apply (in_map (fun t => (team_id t, team_name t)) _ _ Ht).
  - intros Hno. cbn [feature_row f_team]. unfold team_name_of.
    rewrite dict_get_missing; [reflexivity|].
    unfold team_mapping. rewrite map_map. cbn [fst]. intros Hin.
    apply in_map_iff in Hin. destruct Hin as (t & Hid & Ht).
    exact (Hno t Ht Hid).
Qed.

(** X17: the four position columns of a features row are a one-hot encoding
    of the element type: they add up to 1 for the types 1 to 4, each column
    is 1 exactly for its type and exactly when 'position' is its name; for
    any other type all four are 0 and 'position' is the number 0. *)
Theorem position_one_hot (gw : option Z) (team : option string)
    (player : Element) :
  let f := feature_row gw team player in
  let t := e_element_type player in
  f_pos_GK f + f_pos_DEF f + f_pos_MID f + f_pos_FWD f
  = (if (1 <=? t) && (t <=? 4) then 1 else 0)
  /\ (f_pos_GK f = 1 <-> t = 1) /\ (f_pos_GK f = 1 <-> f_position f = Text "GK")
  /\ (f_pos_DEF f = 1 <-> t = 2) /\ (f_pos_DEF f = 1 <-> f_position f = Text "DEF")
  /\ (f_pos_MID f = 1 <-> t = 3) /\ (f_pos_MID f = 1 <-> f_position f = Text "MID")
  /\ (f_pos_FWD f = 1 <-> t = 4) /\ (f_pos_FWD f = 1 <-> f_position f = Text "FWD")
  /\ (t < 1 \/ 4 < t -> f_position f = Number 0).
Proof.
  cbv zeta. cbn [feature_row f_pos_GK f_pos_DEF f_pos_MID f_pos_FWD f_position].
  unfold position_map.
  destruct (Z.eqb_spec (e_element_type player) 1) as [->|H1];
    [cbn; repeat split; intros; try reflexivity; try lia; discriminate|].
  destruct (Z.eqb_spec (e_element_type player) 2) as [->|H2];
    [cbn; repeat split; intros; try reflexivity; try lia; discriminate|].
  destruct (Z.eqb_spec (e_element_type player) 3) as [->|H3];
    [cbn; repeat split; intros; try reflexivity; try lia; discriminate|].
  destruct (Z.eqb_spec (e_element_type player) 4) as [->|H4];
    [cbn; repeat split; intros; try reflexivity; try lia; discriminate|].
  cbn. repeat split; intros; try reflexivity; try lia; try discriminate.
  destruct (Z.leb_spec 1 (e_element_type player));
    destruct (Z.leb_spec (e_element_type player) 4); cbn; lia.
Qed.

Lemma maximum_1 (a : Q) :
  ((a <= 1 -> maximum a 1 == 1) /\ (1 <= a -> maximum a 1 == a))%Q.
Proof.
  unfold maximum. destruct (Qle_bool a 1) eqn:E.
  - apply Qle_bool_iff in E. split; [reflexivity|]. intros H.
    now apply Qle_antisym.
  - split; [|reflexivity]. intros H. apply Qle_bool_iff in H. congruence.
Qed.

(** X18: 'clean_sheets_rolling_avg' is 0 for every element that is not a
    goalkeeper (type 1) or defender (type 2).  For those two types it is the
    clean-sheet count itself (0 when missing) up to 90 minutes played or with
    minutes missing, and the count per 90 minutes from 90 minutes on; so with
    a count that is not negative it lies between 0 and the count. *)
Theorem clean_sheets_rate (gw : option Z) (team : option string)
    (player : Element) :
  let f := feature_row gw team player in
  let cs := fillna 0%Q (e_clean_sheets player) in
  let m := fillna 1%Q (e_minutes player) in
  (e_element_type player <> 1 -> e_element_type player <> 2 ->
   f_clean_sheets_rolling_avg f = 0%Q)
  /\ (e_element_type player = 1 \/ e_element_type player = 2 ->
      ((m <= 90)%Q -> (f_clean_sheets_rolling_avg f == cs)%Q)
      /\ ((90 <= m)%Q -> (f_clean_sheets_rolling_avg f * m == 90 * cs)%Q)
      /\ ((0 <= cs)%Q ->
          (0 <= f_clean_sheets_rolling_avg f)%Q
          /\ (f_clean_sheets_rolling_avg f <= cs)%Q)).
Proof.
  cbv zeta. cbn [feature_row f_clean_sheets_rolling_avg].
  set (cs := fillna 0%Q (e_clean_sheets player)).
  set (m := fillna 1%Q (e_minutes player)).
  split.
  - intros H1 H2. unfold position_map.
    destruct (Z.eqb_spec (e_element_type player) 1) as [E|_]; [contradiction|].
    destruct (Z.eqb_spec (e_element_type player) 2) as [E|_]; [contradiction|].
    destruct (e_element_type player =? 3); [reflexivity|].
    destruct (e_element_type player =? 4); reflexivity.
  - intros Ht.
    assert (Hk : keeps_clean_sheets (position_map (e_element_type player)) = true)
      by (destruct Ht as [-> | ->]; reflexivity).
    rewrite Hk. clear Hk Ht.
    destruct (maximum_1 (m / 90)) as [Hlo Hhi].
    assert (Ed : (m == m / 90 * 90)%Q) by field.
    set (d := (m / 90)%Q) in *.
    split; [|split].
    + intros H. rewrite Hlo by lra. field.
    + intros H. rewrite Hhi by lra. rewrite Ed. field.
      intros E. lra.
    + intros Hcs.
      destruct (Qlt_le_dec d 1) as [Hlt|Hge].
      * rewrite Hlo by lra.
        setoid_replace (cs / 1)%Q with cs by field.
        split; [exact Hcs|apply Qle_refl].
      * rewrite (Hhi Hge). split.
        -- apply Qle_shift_div_l; lra.
        -- apply Qle_shift_div_r; [lra|nra].
Qed.

Lemma fold_left_max (l : list Z) (a : Z) :
  a <= fold_left Z.max l a
  /\ (forall x, In x l -> x <= fold_left Z.max l a)
  /\ (fold_left Z.max l a = a \/ In (fold_left Z.max l a) l).
Proof.
  revert a; induction l as [|y l IH]; intros a; simpl.
  - split; [lia|]. split; [intros x []|now left].
  - destruct (IH (Z.max a y)) as (H1 & H2 & H3). split; [lia|]. split.
    + intros x [<-|Hx]; [lia|now apply H2].
    + destruct H3 as [H3|H3]; [|now right; right].
      destruct (Z.max_spec a y) as [[_ E]|[_ E]]; rewrite E in *.
      * right. left. now rewrite H3.
      * now left.
Qed.

(** X19: [load_latest_data] returns exactly the rows of the table 'features'
    whose gameweek is the greatest in the table (so some row whenever the
    table has one). *)
Theorem load_latest_data_greatest (features : list Features) (f : Features) :
  In f (load_latest_data features)
  <-> In f features
      /\ forall g, In g features -> f_gameweek g <= f_gameweek f.
Proof.
  unfold load_latest_data, max_gameweek.
  destruct features as [|f0 rest]; [simpl; tauto|].
  destruct (fold_left_max (map f_gameweek rest) (f_gameweek f0))
    as (H1 & H2 & H3).
  set (latest := fold_left Z.max (map f_gameweek rest) (f_gameweek f0)) in *.
  rewrite filter_In. split.
  - intros [Hin E]. apply Z.eqb_eq in E. split; [exact Hin|].
    intros g [<-|Hg]; [lia|].
    rewrite E. apply H2. now apply in_map.
  - intros [Hin Hmax]. split; [exact Hin|]. apply Z.eqb_eq.
    assert (Hle : f_gameweek f <= latest).
    { destruct Hin as [<-|Hin]; [exact H1|]. apply H2. now apply in_map. }
    assert (Hge : latest <= f_gameweek f).
    { destruct H3 as [->|H3].
      - apply Hmax. now left.
      - apply in_map_iff in H3. destruct H3 as (g & <- & Hg).
        apply Hmax. now right. }
    lia.
Qed.

(** X20: after [update_features], the frame [load_latest_data] gives the
    endpoints is the whole table: one row per element of 'players_raw',
    whatever gameweek is stored. *)
Theorem latest_data_after_update (gw : option Z)
    (players_raw : list (Element * option string)) :
  Permutation (load_latest_data (update_features gw players_raw))
              (update_features gw players_raw)
  /\ List.length (load_latest_data (update_features gw players_raw))
     = List.length players_raw.
Proof.
  assert (E : load_latest_data (update_features gw players_raw)
              = update_features gw players_raw).
  { unfold load_latest_data.
    destruct (max_gameweek (update_features gw players_raw)) as [latest|] eqn:Em.
    - assert (Hl : latest = fillna 0 gw).
      { unfold max_gameweek, update_features in Em.
        destruct players_raw as [|p l]; [discriminate|].
        cbn [map] in Em. injection Em as <-. rewrite map_map.
        cbn [feature_row f_gameweek].
        induction l as [|q l IH]; [reflexivity|].
        cbn [map fold_left]. now rewrite Z.max_id. }
      subst latest. clear Em. unfold update_features.
      induction players_raw as [|p l IH]; [reflexivity|].
      cbn [map filter feature_row f_gameweek]. rewrite Z.eqb_refl.
      now f_equal.
    - destruct players_raw; [reflexivity|discriminate]. }
  rewrite E. split; [reflexivity|]. apply length_map.
Qed.

(* ================================================================== *)
(** * The optimiser with the solver's tolerances *)

(** ** The dictionaries and the rows *)

Lemma row_of_unique (df : DataFrame) (r : Row) :
  NoDup (index df) -> In r (rows df) -> row_of df (r_index r) = Some r.
Proof.
  intros Hnd Hr. unfold row_of. apply dict_get_unique.
  - now rewrite to_dict_keys.
  - unfold to_dict. now apply (in_map (fun r0 => (r_index r0, r0))).
Qed.

(** With distinct labels a subscript with the label of a row reads the
    column in that row. *)
Lemma getitem_row {V} (dflt : V) (col : Row -> V) (df : DataFrame) (r : Row) :
  NoDup (index df) -> In r (rows df) ->
  getitem dflt (to_dict col df) (r_index r) = col r.
Proof.
  intros Hnd Hr. unfold getitem.
  now rewrite row_of_to_dict, (row_of_unique df r Hnd Hr).
Qed.

Lemma filter_map_comm {A B} (f : B -> bool) (g : A -> B) (l : list A) :
  filter f (map g l) = map g (filter (fun x => f (g x)) l).
Proof.
  induction l as [|x l IH]; simpl; [reflexivity|].
  destruct (f (g x)); simpl; now rewrite IH.
Qed.


Section Rows.

Variable df : DataFrame.
Hypothesis labels_distinct : NoDup (index df).

Lemma selected_picked (v : Assignment) :
  selected df v = map r_index (picked df v).
Proof. unfold selected, picked, player_ids, index. apply filter_map_comm. Qed.

Lemma picked_incl (v : Assignment) : incl (picked df v) (rows df).
Proof. intros r Hr. apply filter_In in Hr. tauto. Qed.

Lemma picked_distinct (v : Assignment) : NoDup (map r_index (picked df v)).
Proof. rewrite <- selected_picked. now apply NoDup_filter. Qed.

Variable sq : list Row.
Hypothesis sq_pool : incl sq (rows df).

Lemma squad_price_rows : squad_price df (map r_index sq) = rows_price sq.
Proof.
  unfold squad_price, rows_price, prices. rewrite map_map. f_equal.
  apply map_ext_in. intros r Hr. apply getitem_row; auto.
Qed.


Lemma count_position_rows (pos : string) :
  count_position df pos (map r_index sq) = rows_count pos sq.
Proof.
  unfold count_position, rows_count. rewrite filter_map_length. f_equal.
  apply filter_ext_in. intros r Hr. unfold has_position, positions.
  now rewrite getitem_row by auto.
Qed.


Hypothesis team_column : has_team_column df = true.

Lemma count_group_rows (g : string) :
  count_group df g (map r_index sq) = rows_team g sq.
Proof.
  unfold count_group, rows_team. rewrite filter_map_length. f_equal.
  apply filter_ext_in. intros r Hr. unfold group_of, get_default, teams.
  rewrite team_column, row_of_to_dict, (row_of_unique df r) by auto.
  reflexivity.
Qed.

Lemma meets_constraints_rows (budget : Q) :
  meets_constraints df budget (map r_index sq)
  <-> List.length sq = 15%nat
      /\ rows_count "GK" sq = 2%nat /\ rows_count "DEF" sq = 5%nat
      /\ rows_count "MID" sq = 5%nat /\ rows_count "FWD" sq = 3%nat
      /\ (rows_price sq <= budget)%Q
      /\ forall t, (rows_team t sq <= 3)%nat.
Proof.
  split.
  - intros [Hn Hg Hd Hm Hf Hb Ht].
    rewrite !count_position_rows in *. rewrite squad_price_rows in Hb.
    rewrite length_map in Hn. repeat (split; [assumption|]).
    intros t. rewrite <- count_group_rows. apply Ht.
  - intros (Hn & Hg & Hd & Hm & Hf & Hb & Ht).
    constructor; rewrite ?count_position_rows, ?squad_price_rows, ?length_map;
      try assumption.
    intros g. rewrite count_group_rows. apply Ht.
Qed.

Lemma feasible_rows_squad (budget : Q) :
  feasible_rows df budget sq <-> feasible_squad df budget (map r_index sq).
Proof.
  split.
  - intros [Hp Hd Hn Hg Hde Hm Hf Hb Ht]. constructor.
    + intros i Hi. apply in_map_iff in Hi. destruct Hi as (r & <- & Hr).
      unfold player_ids, index. apply in_map. now apply sq_pool.
    + exact Hd.
    + apply meets_constraints_rows. tauto.
  - intros [Hp Hd Hm]. apply meets_constraints_rows in Hm.
    destruct Hm as (Hn & Hg & Hde & Hmi & Hf & Hb & Ht).
    now constructor.
Qed.

End Rows.





(** ** The claims over a tolerant solver *)

Lemma excluded_after_snoc (players_df : DataFrame) (squads : list Squad)
    (squad : Squad) :
  excluded_after players_df (squads ++ [squad])
  = mark_used (frame_after players_df squads) (all_players squad)
      (excluded_after players_df squads).
Proof. unfold excluded_after, frame_after. now rewrite fold_left_app. Qed.

Section Tolerant_solver.

Variable solve : LpProblem -> Z * Assignment.
Variables tol gap : Q.
Hypothesis tol_small : (tol < 1)%Q.
Hypothesis solve_tolerant : solver_tolerant tol gap solve.

(** C2 (as amended): a squad returned with status 'success' has 2
    goalkeepers, 5 defenders, 5 midfielders and 3 forwards; its total price is
    within the budget up to the feasibility tolerance of the solver (within
    the budget itself when the solver's answer keeps the budget row); and,
    when the frame carries a 'team' column, no team has more than 3 of its
    members. *)
Theorem success_squad_feasible (df : DataFrame) (budget : Q) (s : Squad) :
  optimize_squad solve df budget = Return (Success s) ->
  exists v ids,
    solve (problem df budget) = (LpStatusOptimal, v)
    /\ selected_ids solve df budget = Some ids
    /\ Permutation (all_players s) (map (player_info df) ids)
    /\ List.length ids = 15%nat
    /\ count_position df "GK" ids = 2%nat /\ List.length (goalkeepers s) = 2%nat
    /\ count_position df "DEF" ids = 5%nat /\ List.length (defenders s) = 5%nat
    /\ count_position df "MID" ids = 5%nat /\ List.length (midfielders s) = 5%nat
    /\ count_position df "FWD" ids = 3%nat /\ List.length (forwards s) = 3%nat
    /\ total_cost s = squad_price df ids
    /\ (total_cost s == sum (map price (all_players s)))%Q
    /\ (total_cost s <= budget + tol)%Q
    /\ (lp_feasible (problem df budget) v -> (total_cost s <= budget)%Q)
    /\ (has_team_column df = true ->
        forall g, count_group df g ids = count_team g (all_players s)
                  /\ (count_team g (all_players s) <= 3)%nat).
Proof.
  intros H.
  destruct (optimize_squad_success solve _ _ _ H) as (v & E & Hsel & Hb).
  destruct (tolerant_answer solve tol gap tol_small solve_tolerant df budget v E) as (_ & Hf & _).
  pose proof (selected_positions df (budget + tol) v Hf) as Hpos.
  pose proof (all_players_perm _ _ _ Hb Hpos) as Hperm.
  destruct (build_squad_inv _ _ _ Hb) as (Hg & Hd & Hm & Hfw & Hcost & _).
  pose proof Hf as Hf'. apply lp_feasible_iff in Hf'.
  destruct Hf' as (Hbud & Hn & Hgk & Hde & Hmi & Hfo & Hteam).
  exists v, (selected df v).
  split; [exact E|]. split; [exact Hsel|]. split; [exact Hperm|].
  split; [exact Hn|].
  split; [exact Hgk|]. split; [now rewrite Hg, by_position_length|].
  split; [exact Hde|].
  split; [now rewrite Hd, (Permutation_length (sort_desc_perm _ _)),
            by_position_length|].
  split; [exact Hmi|].
  split; [now rewrite Hm, (Permutation_length (sort_desc_perm _ _)),
            by_position_length|].
  split; [exact Hfo|].
  split; [now rewrite Hfw, (Permutation_length (sort_desc_perm _ _)),
            by_position_length|].
  split; [exact Hcost|].
  split.
  { rewrite Hcost, (sum_perm _ _ (Permutation_map price Hperm)), map_map.
    reflexivity. }
  split; [now rewrite Hcost|].
  split.
  { intros Hx. apply lp_feasible_iff in Hx. rewrite Hcost. tauto. }
  intros Ht g.
  assert (Eg : count_group df g (selected df v) = count_team g (all_players s))
    by (now rewrite (count_team_perm g _ _ Hperm), count_team_group).
  split; [exact Eg|]. rewrite <- Eg.
  now apply (team_constraints_groups df v Ht).
Qed.

(** C8 (as amended): [optimize_squad] never raises, and when no selection
    satisfies all constraints even within the feasibility tolerance of the
    solver it returns the dictionary
    [{'status': 'failed', 'message': 'No optimal solution found'}], the same
    one whichever constraint cannot be met.  On a frame with distinct labels
    and a 'team' column that is the case when no squad of its rows is feasible
    at the budget raised by the tolerance. *)
Theorem infeasible_returns_failed (df : DataFrame) (budget : Q) :
  (exists r, optimize_squad solve df budget = Return r)
  /\ ((forall v, ~ lp_feasible_within tol (problem df budget) v) ->
      optimize_squad solve df budget
      = Return (Failed "No optimal solution found"))
  /\ (NoDup (index df) -> has_team_column df = true ->
      (forall sq, ~ feasible_rows df (budget + tol) sq) ->
      optimize_squad solve df budget
      = Return (Failed "No optimal solution found")).
Proof.
  assert (Hfail : (forall v, ~ lp_feasible_within tol (problem df budget) v) ->
            optimize_squad solve df budget
            = Return (Failed "No optimal solution found")).
  { intros Hinf. apply optimize_squad_status. intros Hst.
    destruct (solve (problem df budget)) as [st v] eqn:E. simpl in Hst.
    subst st. destruct (solve_tolerant _ _ E) as [Hw _]. now apply (Hinf v). }
  split; [apply (tolerant_returns solve tol gap tol_small solve_tolerant)|]. split; [exact Hfail|].
  intros Hnd Ht Hinf. apply Hfail. intros v Hw.
  apply (Hinf (picked df v)).
  apply (feasible_rows_squad df Hnd _ (picked_incl df v) Ht).
  rewrite <- selected_picked. constructor.
  - apply selected_incl.
  - now apply NoDup_filter.
  - apply (lp_feasible_meets df (budget + tol) v Ht).
    now apply lp_feasible_within_budget.
Qed.

(** ** [optimize_multiple_squads] over a tolerant solver *)

Section Loop.

Variable players_df : DataFrame.
Variable budget : Q.

(** The loop from any state its rounds can reach: [squads] were appended by
    the rounds so far, each by a successful solve over the frame left by the
    rounds before it. *)
Lemma squads_loop_rounds (n i : nat) (excl : list Z) (squads : list SquadOption) :
  i = List.length squads ->
  excl = excluded_after players_df (map option_squad squads) ->
  (forall k opt, nth_error squads k = Some opt ->
     opt = squad_option k (option_squad opt)
     /\ optimize_squad solve
          (frame_after players_df (map option_squad (firstn k squads))) budget
        = Return (Success (option_squad opt))) ->
  exists out,
    squads_loop solve players_df budget n i excl squads = Return out
    /\ (List.length out <= List.length squads + n)%nat
    /\ firstn (List.length squads) out = squads
    /\ (forall k opt, nth_error out k = Some opt ->
          opt = squad_option k (option_squad opt)
          /\ optimize_squad solve
               (frame_after players_df (map option_squad (firstn k out))) budget
             = Return (Success (option_squad opt)))
    /\ ((List.length out < List.length squads + n)%nat ->
        (List.length (rows (frame_after players_df (map option_squad out))) < 15)%nat
        \/ exists m,
             optimize_squad solve
               (frame_after players_df (map option_squad out)) budget
             = Return (Failed m)).
Proof.
  revert i excl squads.
  induction n as [|n IH]; intros i excl squads Hi Hexcl Hprod.
  - exists squads. cbn [squads_loop]. split; [reflexivity|].
    split; [lia|]. split; [apply firstn_all|]. split; [exact Hprod|]. lia.
  - cbn [squads_loop].
    assert (Hframe : drop_excluded players_df excl
                     = frame_after players_df (map option_squad squads))
      by (unfold frame_after; now rewrite Hexcl).
    rewrite Hframe.
    destruct (Nat.ltb_spec
                (List.length
                   (rows (frame_after players_df (map option_squad squads))))
                15) as [Hlt|Hge].
    { exists squads. split; [reflexivity|]. split; [lia|].
      split; [apply firstn_all|]. split; [exact Hprod|]. intros _. now left. }
    destruct (tolerant_returns solve tol gap tol_small solve_tolerant
                (frame_after players_df (map option_squad squads)) budget)
      as ([m|squad] & E); rewrite E.
    { exists squads. split; [reflexivity|]. split; [lia|].
      split; [apply firstn_all|]. split; [exact Hprod|]. intros _. right.
      now exists m. }
    destruct (IH (S i)
                (mark_used (frame_after players_df (map option_squad squads))
                           (all_players squad) excl)
                (squads ++ [squad_option i squad])%list)
      as (out & Hout & Hlen & Hpre & Hp & Hstop).
    + subst i. symmetry. apply last_length.
    + rewrite map_app. cbn [map option_squad squad_option].
      rewrite excluded_after_snoc. now rewrite Hexcl.
    + intros k opt Hk.
      destruct (Nat.lt_ge_cases k (List.length squads)) as [Hlt|Hge'].
      * rewrite nth_error_app1 in Hk by exact Hlt.
        rewrite firstn_app.
        replace (k - List.length squads)%nat with 0%nat by lia.
        cbn [firstn]. rewrite app_nil_r. now apply Hprod.
      * rewrite nth_error_app2 in Hk by exact Hge'.
        destruct (k - List.length squads)%nat as [|j] eqn:Ek;
          [|destruct j; discriminate].
        injection Hk as <-.
        assert (k = List.length squads) by lia. subst k.
        rewrite firstn_app, firstn_all, Nat.sub_diag. cbn [firstn].
        rewrite app_nil_r. cbn [option_squad squad_option].
        split; [now rewrite Hi|exact E].
    + rewrite last_length in Hlen, Hpre, Hstop.
      exists out. split; [exact Hout|]. split; [lia|]. split.
      * assert (Hx : firstn (List.length squads)
                       (squads ++ [squad_option i squad])%list = squads).
        { rewrite firstn_app, firstn_all, Nat.sub_diag. cbn [firstn].
          apply app_nil_r. }
        rewrite <- Hpre, firstn_firstn, Nat.min_l in Hx by lia. exact Hx.
      * split; [exact Hp|]. intros Hl. apply Hstop. lia.
Qed.

(** C7: [optimize_multiple_squads] returns normally, with at most
    [num_squads] squads.  What it returns are the squads produced so far:
    option [k + 1] is the squad of a successful [optimize_squad] over the
    frame that the rounds before it left.  When fewer squads than requested
    are returned, the round after the last one found fewer than 15 rows left
    or its solve failed, and the loop ended there without an error. *)
Theorem multiple_squads_stop_early (num_squads : nat) :
  exists out,
    optimize_multiple_squads solve players_df num_squads budget = Return out
    /\ (List.length out <= num_squads)%nat
    /\ (forall k opt, nth_error out k = Some opt ->
          opt = squad_option k (option_squad opt)
          /\ optimize_squad solve
               (frame_after players_df (map option_squad (firstn k out))) budget
             = Return (Success (option_squad opt)))
    /\ ((List.length out < num_squads)%nat ->
        (List.length (rows (frame_after players_df (map option_squad out))) < 15)%nat
        \/ exists m,
             optimize_squad solve
               (frame_after players_df (map option_squad out)) budget
             = Return (Failed m)).
Proof.
  unfold optimize_multiple_squads.
  destruct (squads_loop_rounds num_squads 0 [] []) as (out & H & Hl & _ & Hp & Hs).
  - reflexivity.
  - reflexivity.
  - intros k opt Hk. destruct k; discriminate.
  - exists out. simpl in Hl, Hs. auto.
Qed.

End Loop.

Hypothesis solve_complete : solver_complete solve.


End Tolerant_solver.

(* ================================================================== *)
(** ** The further properties at concrete frames *)

Lemma pool30_index_NoDup : NoDup (index pool30).
Proof. apply NoDup_by_nodup. vm_compute. reflexivity. Qed.

Lemma position_lists_sorted_witness :
  optimize_squad reference_solve pool16 100 = Return (Success squad16)
  /\ StronglySorted points_desc (defenders squad16)
  /\ StronglySorted points_desc (midfielders squad16)
  /\ StronglySorted points_desc (forwards squad16).
Proof.
  split.
  - exact (pool16_result reference_solve reference_solve_sound
             reference_solve_complete).
  - exact (position_lists_sorted reference_solve pool16 100 squad16
             (pool16_result reference_solve reference_solve_sound
                reference_solve_complete)).
Defined.

Lemma squad_members_are_rows_witness :
  (0 < 1)%Q
  /\ solver_tolerant 0 0 reference_solve
  /\ optimize_squad reference_solve pool16 100 = Return (Success squad16)
  /\ exists rs,
       Permutation (all_players squad16) (map (info_of_row pool16) rs)
       /\ incl rs (rows pool16)
       /\ List.length rs = 15%nat
       /\ selected_ids reference_solve pool16 100 = Some (map r_index rs)
       /\ (NoDup (index pool16) -> NoDup rs).
Proof.
  split; [reflexivity|]. split; [exact reference_solve_tolerant|].
  split.
  - exact (pool16_result reference_solve reference_solve_sound
                reference_solve_complete).
  - exact (squad_members_are_rows reference_solve 0 0 eq_refl reference_solve_tolerant
             pool16 100 squad16
             (pool16_result reference_solve reference_solve_sound
                reference_solve_complete)).
Defined.

Lemma total_cost_of_listed_witness :
  (0 < 1)%Q
  /\ solver_tolerant 0 0 reference_solve
  /\ optimize_squad reference_solve pool16 100 = Return (Success squad16)
  /\ (total_cost squad16 == sum (map price (all_players squad16)))%Q
  /\ (sum (map price (all_players squad16)) <= 100 + 0)%Q.
Proof.
  split; [reflexivity|]. split; [exact reference_solve_tolerant|].
  split.
  - exact (pool16_result reference_solve reference_solve_sound
                reference_solve_complete).
  - exact (total_cost_of_listed reference_solve 0 0 eq_refl reference_solve_tolerant
             pool16 100 squad16
             (pool16_result reference_solve reference_solve_sound
                reference_solve_complete)).
Defined.

Lemma shortfall_fails_witness :
  (0 < 1)%Q
  /\ solver_tolerant 0 0 reference_solve
  /\ (List.length (rows pool14) < 15)%nat
  /\ optimize_squad reference_solve pool14 100
     = Return (Failed "No optimal solution found").
Proof.
  split; [reflexivity|]. split; [exact reference_solve_tolerant|].
  assert (H : (List.length (rows pool14) < 15)%nat) by (vm_compute; lia).
  split; [exact H|].
  exact (shortfall_fails reference_solve 0 0 eq_refl reference_solve_tolerant pool14 100
           (or_introl H)).
Defined.

Lemma larger_budget_no_worse_witness :
  (0 < 1)%Q
  /\ solver_tolerant 0 0 reference_solve
  /\ solver_complete reference_solve
  /\ optimize_squad reference_solve pool16 100 = Return (Success squad16)
  /\ (100 + 0 <= 120)%Q
  /\ exists s', optimize_squad reference_solve pool16 120 = Return (Success s')
                /\ (total_predicted squad16 <= total_predicted s' + 0)%Q.
Proof.
  split; [reflexivity|]. split; [exact reference_solve_tolerant|].
  split; [exact reference_solve_complete|].
  assert (H : (100 + 0 <= 120)%Q) by (vm_compute; discriminate).
  split; [|split; [exact H|]].
  - exact (pool16_result reference_solve reference_solve_sound
                reference_solve_complete).
  - exact (larger_budget_no_worse reference_solve 0 0 eq_refl reference_solve_tolerant
             reference_solve_complete pool16 100 120 squad16
             (pool16_result reference_solve reference_solve_sound
                reference_solve_complete) H).
Defined.

Lemma squads_share_no_name_witness :
  optimize_multiple_squads reference_solve pool30 3 100
  = Return [squad_option 0 squad30_a; squad_option 1 squad30_b]
  /\ ForallOrdPairs
       (fun o1 o2 => forall p q,
            In p (all_players (option_squad o1)) ->
            In q (all_players (option_squad o2)) -> name p <> name q)
       [squad_option 0 squad30_a; squad_option 1 squad30_b].
Proof.
  split.
  - exact (pool30_multiple reference_solve reference_solve_sound
             reference_solve_complete).
  - exact (squads_share_no_name reference_solve pool30 100 3 _
             (pool30_multiple reference_solve reference_solve_sound
                reference_solve_complete)).
Defined.

Lemma squads_ranked_witness :
  (0 < 1)%Q
  /\ solver_tolerant 0 0 reference_solve
  /\ optimize_multiple_squads reference_solve pool30 3 100
     = Return [squad_option 0 squad30_a; squad_option 1 squad30_b]
  /\ ForallOrdPairs
       (fun o1 o2 => (total_cost (option_squad o2) <= 100)%Q ->
                     (total_predicted (option_squad o2)
                      <= total_predicted (option_squad o1) + 0)%Q)
       [squad_option 0 squad30_a; squad_option 1 squad30_b].
Proof.
  split; [reflexivity|]. split; [exact reference_solve_tolerant|].
  split.
  - exact (pool30_multiple reference_solve reference_solve_sound
                reference_solve_complete).
  - exact (squads_ranked reference_solve pool30 100 0 0 eq_refl
             reference_solve_tolerant 3 _
             (pool30_multiple reference_solve reference_solve_sound
                reference_solve_complete)).
Defined.

Lemma every_squad_valid_witness :
  (0 < 1)%Q
  /\ solver_tolerant 0 0 reference_solve
  /\ optimize_multiple_squads reference_solve pool30 3 100
     = Return [squad_option 0 squad30_a; squad_option 1 squad30_b]
  /\ Forall (fun o =>
               List.length (goalkeepers (option_squad o)) = 2%nat
               /\ List.length (defenders (option_squad o)) = 5%nat
               /\ List.length (midfielders (option_squad o)) = 5%nat
               /\ List.length (forwards (option_squad o)) = 3%nat
               /\ (total_cost (option_squad o) <= 100 + 0)%Q
               /\ (has_team_column pool30 = true ->
                   forall g,
                     (count_team g (all_players (option_squad o)) <= 3)%nat))
            [squad_option 0 squad30_a; squad_option 1 squad30_b].
Proof.
  split; [reflexivity|]. split; [exact reference_solve_tolerant|].
  split.
  - exact (pool30_multiple reference_solve reference_solve_sound
                reference_solve_complete).
  - exact (every_squad_valid reference_solve pool30 100 0 0 eq_refl
             reference_solve_tolerant 3 _
             (pool30_multiple reference_solve reference_solve_sound
                reference_solve_complete)).
Defined.

Lemma squads_fit_pool_witness :
  (0 < 1)%Q
  /\ solver_tolerant 0 0 reference_solve
  /\ NoDup (index pool30)
  /\ optimize_multiple_squads reference_solve pool30 3 100
     = Return [squad_option 0 squad30_a; squad_option 1 squad30_b]
  /\ (15 * List.length [squad_option 0 squad30_a; squad_option 1 squad30_b]
      <= List.length (rows pool30))%nat.
Proof.
  split; [reflexivity|]. split; [exact reference_solve_tolerant|].
  split; [exact pool30_index_NoDup|]. split.
  - exact (pool30_multiple reference_solve reference_solve_sound
                reference_solve_complete).
  - exact (squads_fit_pool reference_solve pool30 100 0 0 eq_refl
             reference_solve_tolerant 3 _ pool30_index_NoDup
             (pool30_multiple reference_solve reference_solve_sound
                reference_solve_complete)).
Defined.

Lemma api_optimize_multiple_responses_witness :
  (0 < 1)%Q
  /\ solver_tolerant 0 0 reference_solve
  /\ exists squads,
       optimize_multiple_squads reference_solve pool30 3 100 = Return squads
       /\ api_optimize_multiple reference_solve (Ok pool30)
            (fun _ => "ValueError")
          = (MultipleBody (List.length squads)
               ("Generated " ++ str_of_nat (List.length squads)
                  ++ " optimal squad options")
               squads, 200)
       /\ (List.length squads <= 3)%nat
       /\ map squad_number squads = seq 1 (List.length squads)
       /\ ((List.length (rows pool30) < 15)%nat -> squads = []).
Proof.
  split; [reflexivity|]. split; [exact reference_solve_tolerant|].
  exact (api_optimize_multiple_responses reference_solve
           (fun _ => "ValueError") 0 0 eq_refl reference_solve_tolerant
           (Ok pool30)).
Defined.

Lemma api_optimize_responses_witness :
  (0 < 1)%Q
  /\ solver_tolerant 0 0 reference_solve
  /\ solver_complete reference_solve
  /\ exists r,
       optimize_squad reference_solve pool16 100 = Return r
       /\ api_optimize reference_solve (Ok pool16) (fun _ => "ValueError")
          = (SquadBody r, 200)
       /\ ((exists v, lp_feasible (problem pool16 100) v) ->
           exists s, r = Success s)
       /\ ((forall v, ~ lp_feasible_within 0 (problem pool16 100) v) ->
           r = Failed "No optimal solution found").
Proof.
  split; [reflexivity|]. split; [exact reference_solve_tolerant|].
  split; [exact reference_solve_complete|].
  exact (api_optimize_responses reference_solve (fun _ => "ValueError")
           0 0 eq_refl reference_solve_tolerant reference_solve_complete
           (Ok pool16)).
Defined.

Lemma predict_by_position_top_witness :
  predict_by_position Q doubling_model "Length of values does not match"
    player_data5 "GK"
  = Ok [info "Pickford" "Everton" 5 6; info "Sanchez" "Chelsea" 5 6;
        info "Raya" "Arsenal" 5 4]
  /\ exists (recs : list PlayerInfo) (predicted : list Q),
       predict_by_position Q doubling_model "Length of values does not match"
         player_data5 "GK" = Ok recs
       /\ List.length recs = 3%nat
       /\ List.length predicted = 3%nat
       /\ StronglySorted points_desc recs.
Proof.
  split; [reflexivity|].
  destruct (predict_by_position_top Q doubling_model
              "Length of values does not match" player_data5 "GK" _ eq_refl)
    as (predicted & _ & Hp & Hl & Hs & _).
  exists [info "Pickford" "Everton" 5 6; info "Sanchez" "Chelsea" 5 6;
          info "Raya" "Arsenal" 5 4], predicted.
  split; [reflexivity|].
  split; [exact Hl|]. split; [exact Hp|exact Hs].
Defined.

Lemma feature_team_is_team_name_witness :
  NoDup (map team_id teams2)
  /\ In (feature_row (Some 7) (Some "Aston Villa")
           (element 2 2 3 "John" "McGinn" (Some 45%Q) None))
        (update_features (Some 7) (fetch_all_players teams2 elements3))
  /\ exists player,
       In player elements3
       /\ feature_row (Some 7) (Some "Aston Villa")
            (element 2 2 3 "John" "McGinn" (Some 45%Q) None)
          = feature_row (Some 7) (team_name_of teams2 player) player
       /\ (forall t, In t teams2 -> team_id t = e_team player ->
             f_team (feature_row (Some 7) (Some "Aston Villa")
                       (element 2 2 3 "John" "McGinn" (Some 45%Q) None))
             = Text (team_name t))
       /\ ((forall t, In t teams2 -> team_id t <> e_team player) ->
           f_team (feature_row (Some 7) (Some "Aston Villa")
                     (element 2 2 3 "John" "McGinn" (Some 45%Q) None))
           = Number 0).
Proof.
  assert (Hnd : NoDup (map team_id teams2)).
  { apply NoDup_by_nodup. reflexivity. }
  assert (Hin : In (feature_row (Some 7) (Some "Aston Villa")
                      (element 2 2 3 "John" "McGinn" (Some 45%Q) None))
                   (update_features (Some 7)
                      (fetch_all_players teams2 elements3))).
  { right. left. reflexivity. }
  split; [exact Hnd|]. split; [exact Hin|].
  exact (feature_team_is_team_name (Some 7) teams2 elements3 _ Hnd Hin).
Defined.

Lemma first_squad_is_single_result_witness :
  (0 < 1)%Q
  /\ solver_tolerant 0 0 reference_solve
  /\ optimize_squad reference_solve pool30 100 = Return (Success squad30_a)
  /\ forall n, exists rest,
       optimize_multiple_squads reference_solve pool30 (S n) 100
       = Return (squad_option 0 squad30_a :: rest).
Proof.
  split; [reflexivity|]. split; [exact reference_solve_tolerant|].
  split.
  - exact (pool30_result reference_solve reference_solve_sound
                reference_solve_complete).
  - exact (first_squad_is_single_result reference_solve 0 0 eq_refl reference_solve_tolerant
             pool30 100 (Success squad30_a)
             (pool30_result reference_solve reference_solve_sound
                reference_solve_complete)).
Defined.

Lemma every_squad_best_of_round_witness :
  (0 < 1)%Q
  /\ solver_tolerant 0 0 reference_solve
  /\ NoDup (index pool30)
  /\ optimize_multiple_squads reference_solve pool30 3 100
     = Return [squad_option 0 squad30_a; squad_option 1 squad30_b]
  /\ Forall2 (fun opt e =>
                (exists excl, fst e = drop_excluded pool30 excl)
                /\ forall sq, feasible_squad (fst e) 100 sq ->
                     (squad_score (fst e) sq
                      <= total_predicted (option_squad opt) + 0)%Q)
             [squad_option 0 squad30_a; squad_option 1 squad30_b]
             (rounds_log reference_solve pool30 100 3 []).
Proof.
  split; [reflexivity|]. split; [exact reference_solve_tolerant|].
  split; [exact pool30_index_NoDup|]. split.
  - exact (pool30_multiple reference_solve reference_solve_sound
                reference_solve_complete).
  - exact (every_squad_best_of_round reference_solve 0 0 eq_refl reference_solve_tolerant
             pool30 100 3 _ pool30_index_NoDup
             (pool30_multiple reference_solve reference_solve_sound
                reference_solve_complete)).
Defined.

(* ================================================================== *)
(** ** The tolerances at concrete frames *)

Lemma trace_feasible_within (tol : Q) (p : LpProblem) (v : Assignment) :
  lp_feasible_within tol p v ->
  lp_feasible_within tol p (isin (filter v (problem_vars p))).
Proof.
  unfold lp_feasible_within. rewrite !Forall_forall. intros H c Hc.
  specialize (H c Hc). unfold satisfies_within in *.
  rewrite (expr_value_ext _ v); [exact H|].
  intros i Hi. apply trace_agrees. now apply (problem_vars_constraint p c).
Qed.

Lemma no_tolerant_selection (tol : Q) (p : LpProblem) :
  tolerant_selections tol p = [] -> forall v, ~ lp_feasible_within tol p v.
Proof.
  intros H v Hv.
  assert (Hin : In (filter v (problem_vars p)) (tolerant_selections tol p)).
  { apply tolerant_selections_In. split.
    - apply sublists_filter.
    - now apply trace_feasible_within. }
  rewrite H in Hin. destruct Hin.
Qed.

Lemma primal_tolerance_small : (primal_tolerance < 1)%Q.
Proof. reflexivity. Qed.

Lemma primal_tolerance_nonneg : (0 <= primal_tolerance)%Q.
Proof. discriminate. Qed.

Lemma pool15_below_90_run :
  optimize_squad (tolerant_solve primal_tolerance) pool15 budget_below_90
  = Return (Success squad15).
Proof. vm_cast_no_check (@eq_refl (outcome SquadResult) (Return (Success squad15))). Qed.


Lemma pool15_below_90_infeasible :
  infeasible_by_search pool15 budget_below_90 = true.
Proof. vm_cast_no_check (@eq_refl bool true). Qed.

Lemma pool15_low_budget_no_tolerant_selection :
  tolerant_selections primal_tolerance (problem pool15 10) = [].
Proof. vm_cast_no_check (@eq_refl (list (list Z)) []). Qed.




(** The budget clause of C2 (as stated) fails under the tolerance of the
    solver: on [pool15] with a budget 1e-8 below 90, the answer with status 1
    and all 15 variables set, which CBC gives, makes [optimize_squad] return
    [squad15] with status 'success' and a total price of 90. *)
Lemma success_over_budget :
  (forall solve v,
     solve (problem pool15 budget_below_90) = (LpStatusOptimal, v) ->
     (forall i, In i (index pool15) -> v i = true) ->
     optimize_squad solve pool15 budget_below_90 = Return (Success squad15))
  /\ solver_tolerant primal_tolerance 0 (tolerant_solve primal_tolerance)
  /\ optimize_squad (tolerant_solve primal_tolerance) pool15 budget_below_90
     = Return (Success squad15)
  /\ total_cost squad15 = 90%Q
  /\ ~ (total_cost squad15 <= budget_below_90)%Q
  /\ (total_cost squad15 <= budget_below_90 + primal_tolerance)%Q.
Proof.
  split.
  { intros solve v E Hall. unfold optimize_squad, selected_ids.
    rewrite E. cbn [negb Z.eqb LpStatusOptimal Pos.eqb].
    replace (selected pool15 v) with (index pool15).
    - vm_compute. reflexivity.
    - unfold selected, player_ids. symmetry.
      apply forallb_filter_id. apply forallb_forall. exact Hall. }
  split; [exact (tolerant_solve_tolerant _ primal_tolerance_nonneg)|].
  split; [exact pool15_below_90_run|]. split; [reflexivity|].
  split; [vm_compute; intros H; apply H; reflexivity|].
  vm_compute. discriminate.
Qed.

(** C8 (as stated) also fails under the tolerance of the solver: on [pool15]
    with a budget 1e-8 below 90 no selection satisfies all constraints, the
    only selection that meets the quotas breaks the budget row by less than
    the primal tolerance, and [optimize_squad] returns a squad with status
    'success', not a failure. *)
Lemma infeasible_within_tolerance_succeeds :
  (forall v, ~ lp_feasible (problem pool15 budget_below_90) v)
  /\ lp_feasible_within primal_tolerance (problem pool15 budget_below_90)
       (isin (index pool15))
  /\ solver_tolerant primal_tolerance 0 (tolerant_solve primal_tolerance)
  /\ optimize_squad (tolerant_solve primal_tolerance) pool15 budget_below_90
     = Return (Success squad15)
  /\ optimize_squad (tolerant_solve primal_tolerance) pool15 budget_below_90
     <> Return (Failed "No optimal solution found").
Proof.
  split; [exact (infeasible_by_search_spec _ _ pool15_below_90_infeasible)|].
  split; [apply lp_feasible_withinb_iff; vm_compute; reflexivity|].
  split; [exact (tolerant_solve_tolerant _ primal_tolerance_nonneg)|].
  split; [exact pool15_below_90_run|].
  rewrite pool15_below_90_run. discriminate.
Qed.


Lemma success_squad_feasible_witness :
  (primal_tolerance < 1)%Q
  /\ solver_tolerant primal_tolerance 0 (tolerant_solve primal_tolerance)
  /\ optimize_squad (tolerant_solve primal_tolerance) pool15 budget_below_90
     = Return (Success squad15)
  /\ exists v ids,
       tolerant_solve primal_tolerance (problem pool15 budget_below_90)
       = (LpStatusOptimal, v)
       /\ selected_ids (tolerant_solve primal_tolerance) pool15 budget_below_90
          = Some ids
       /\ Permutation (all_players squad15) (map (player_info pool15) ids)
       /\ List.length ids = 15%nat
       /\ count_position pool15 "GK" ids = 2%nat
       /\ List.length (goalkeepers squad15) = 2%nat
       /\ count_position pool15 "DEF" ids = 5%nat
       /\ List.length (defenders squad15) = 5%nat
       /\ count_position pool15 "MID" ids = 5%nat
       /\ List.length (midfielders squad15) = 5%nat
       /\ count_position pool15 "FWD" ids = 3%nat
       /\ List.length (forwards squad15) = 3%nat
       /\ total_cost squad15 = squad_price pool15 ids
       /\ (total_cost squad15 == sum (map price (all_players squad15)))%Q
       /\ (total_cost squad15 <= budget_below_90 + primal_tolerance)%Q
       /\ (lp_feasible (problem pool15 budget_below_90) v ->
           (total_cost squad15 <= budget_below_90)%Q)
       /\ (has_team_column pool15 = true ->
           forall g, count_group pool15 g ids
                     = count_team g (all_players squad15)
                     /\ (count_team g (all_players squad15) <= 3)%nat).
Proof.
  split; [exact primal_tolerance_small|].
  split; [exact (tolerant_solve_tolerant _ primal_tolerance_nonneg)|].
  split; [exact pool15_below_90_run|].
  exact (success_squad_feasible (tolerant_solve primal_tolerance)
           primal_tolerance 0 primal_tolerance_small
           (tolerant_solve_tolerant _ primal_tolerance_nonneg)
           pool15 budget_below_90 squad15 pool15_below_90_run).
Defined.

Lemma infeasible_returns_failed_witness :
  (primal_tolerance < 1)%Q
  /\ solver_tolerant primal_tolerance 0 (tolerant_solve primal_tolerance)
  /\ (forall v, ~ lp_feasible_within primal_tolerance (problem pool15 10) v)
  /\ optimize_squad (tolerant_solve primal_tolerance) pool15 10
     = Return (Failed "No optimal solution found")
  /\ exists r,
       optimize_squad (tolerant_solve primal_tolerance) pool15 budget_below_90
       = Return r.
Proof.
  split; [exact primal_tolerance_small|].
  split; [exact (tolerant_solve_tolerant _ primal_tolerance_nonneg)|].
  split; [exact (no_tolerant_selection _ _
                   pool15_low_budget_no_tolerant_selection)|].
  split.
  - exact (proj1 (proj2 (infeasible_returns_failed
             (tolerant_solve primal_tolerance) primal_tolerance 0
             primal_tolerance_small
             (tolerant_solve_tolerant _ primal_tolerance_nonneg) pool15 10))
             (no_tolerant_selection _ _
                pool15_low_budget_no_tolerant_selection)).
  - exact (proj1 (infeasible_returns_failed
             (tolerant_solve primal_tolerance) primal_tolerance 0
             primal_tolerance_small
             (tolerant_solve_tolerant _ primal_tolerance_nonneg)
             pool15 budget_below_90)).
Defined.

Lemma multiple_squads_stop_early_witness :
  (0 < 1)%Q
  /\ solver_tolerant 0 0 reference_solve
  /\ optimize_multiple_squads reference_solve pool30 3 100
     = Return [squad_option 0 squad30_a; squad_option 1 squad30_b]
  /\ (forall k opt,
        nth_error [squad_option 0 squad30_a; squad_option 1 squad30_b] k
        = Some opt ->
        opt = squad_option k (option_squad opt)
        /\ optimize_squad reference_solve
             (frame_after pool30
                (map option_squad
                   (firstn k [squad_option 0 squad30_a;
                              squad_option 1 squad30_b]))) 100
           = Return (Success (option_squad opt)))
  /\ ((List.length (rows (frame_after pool30 [squad30_a; squad30_b])) < 15)%nat
      \/ exists m,
           optimize_squad reference_solve
             (frame_after pool30 [squad30_a; squad30_b]) 100
           = Return (Failed m)).
Proof.
  pose proof reference_solve_tolerant as Hs.
  split; [reflexivity|]. split; [exact Hs|].
  split; [exact (pool30_multiple reference_solve reference_solve_sound
                   reference_solve_complete)|].
  destruct (multiple_squads_stop_early reference_solve 0 0 eq_refl Hs
              pool30 100 3) as (out & Hout & _ & Hp & Hstop).
  rewrite (pool30_multiple reference_solve reference_solve_sound
             reference_solve_complete) in Hout.
  injection Hout as <-.
  split; [exact Hp|]. exact (Hstop (le_n 3)).
Defined.
